(** * KQCircuits simulation scripts: geometry commands and cross-section helpers

    A shallow embedding of
      - [scripts/simulations/ansys/util/geometry.py]
      - [scripts/simulations/elmer/cross_section_helpers.py]
    together with the properties stated about them.

    Conventions of the embedding.
      - Python values that travel to the editor session are terms of [pyval].
      - The editor handle [oEditor] is an explicit state: the list of calls
        it has received so far, plus the answers it gives to [Paste].
        The session is a recorder: a call that reaches it returns.
      - A Python exception is a value of [exn]; a computation that can raise
        returns [exn + A].
      - An integer is a [Z]; a float is an IEEE double ([PrimFloat.float])
        that carries its printed form, since the interpreter's shortest
        round-trip printer is not part of the model.
      - [cos] and [**] have no counterpart on primitive floats:
        [color_by_material] is read over the real numbers. *)

From Stdlib Require Import ZArith List Ascii String Bool Lia.
From Stdlib Require Import Floats.PrimFloat.
From Stdlib Require Uint63.
From Stdlib Require Import Reals Lra.
From stdpp Require Import base option list strings pretty gmap.

Import ListNotations.
Local Open Scope string_scope.
Local Open Scope list_scope.

(** ** Python values *)

Module Py.

(** A float object: its IEEE value and the text [str] gives for it. *)
Record pyfloat : Type := PyFloat { fval : float; frepr : string }.

#[local] Unset Elimination Schemes.
Inductive pyval : Type :=
| PNone
| PBool (b : bool)
| PInt (z : Z)
| PFloat (f : pyfloat)
| PStr (s : string)
| PList (l : list pyval).
#[local] Set Elimination Schemes.

(** Induction on values, with the hypothesis available for every element
    of a list. *)
Fixpoint pyval_ind (P : pyval -> Prop)
    (HNone : P PNone) (HBool : forall b, P (PBool b))
    (HInt : forall z, P (PInt z)) (HFloat : forall f, P (PFloat f))
    (HStr : forall s, P (PStr s))
    (HList : forall l, Forall P l -> P (PList l)) (v : pyval) : P v :=
  match v with
  | PNone => HNone
  | PBool b => HBool b
  | PInt z => HInt z
  | PFloat f => HFloat f
  | PStr s => HStr s
  | PList l =>
      HList l
        ((fix all (l : list pyval) : Forall P l :=
            match l with
            | [] => @List.Forall_nil _ P
            | x :: l' =>
                @List.Forall_cons _ P x l'
                  (pyval_ind P HNone HBool HInt HFloat HStr HList x) (all l')
            end) l)
  end.

Inductive exn : Type :=
| IndexError
| FileNotFoundError
| ReError
| OtherError (name : string).

(** A number, where the source formats or compares one. *)
Inductive number : Type :=
| NInt (z : Z)
| NFloat (f : pyfloat).

Definition of_number (n : number) : pyval :=
  match n with
  | NInt z => PInt z
  | NFloat f => PFloat f
  end.

(** The double-quote character. *)
Definition dquote : ascii := ascii_of_nat 34.

(** [str(b)] for a bool. *)
Definition str_bool (b : bool) : string := if b then "True" else "False".

(** [str(z)] for an int. *)
Definition str_int (z : Z) : string := pretty z.

(** [str(n)], also what [format] puts in place of an empty field. *)
Definition str_number (n : number) : string :=
  match n with
  | NInt z => str_int z
  | NFloat f => frepr f
  end.

(** [x != 0.0]: numbers compare by value (so [0], [0.0], [-0.0] and
    [False] are all equal to [0.0], and a NaN is not); any other object
    differs from a float. *)
Definition ne_float_zero (x : pyval) : bool :=
  match x with
  | PInt z => negb (z =? 0)%Z
  | PFloat f => negb (PrimFloat.eqb (fval f) 0%float)
  | PBool b => b
  | _ => true
  end.

(** [x != 1.0]. *)
Definition ne_float_one (x : pyval) : bool :=
  match x with
  | PInt z => negb (z =? 1)%Z
  | PFloat f => negb (PrimFloat.eqb (fval f) 1%float)
  | PBool b => negb b
  | _ => true
  end.

(** [sep.join(l)] on a list of strings. *)
Definition join (sep : string) (l : list string) : string := String.concat sep l.

(** [l[i]] on a sequence. *)
Definition getitem {A : Type} (l : list A) (i : nat) : exn + A :=
  match l !! i with
  | Some x => inr x
  | None => inl IndexError
  end.

(** Sequencing of computations that may raise. *)
Definition ebind {A B : Type} (m : exn + A) (k : A -> exn + B) : exn + B :=
  match m with
  | inl e => inl e
  | inr a => k a
  end.

(** A list comprehension whose body may raise: left to right, the first
    exception wins. *)
Fixpoint emap {A B : Type} (f : A -> exn + B) (l : list A) : exn + list B :=
  match l with
  | [] => inr []
  | a :: l' => ebind (f a) (fun b => ebind (emap f l') (fun bs => inr (b :: bs)))
  end.

End Py.

Import Py.

Declare Scope exn_scope.
Delimit Scope exn_scope with exn.
Notation "x <-? m ; k" := (ebind m (fun x => k))
(at level 100, m at next level, right associativity) : exn_scope.

(** ** The editor session *)

Module Session.

Record call : Type := Call { meth : string; args : list pyval }.

(** The handle: the calls received so far (oldest first) and what
    [Paste] answers after a given history. *)
Record Editor : Type := MkEditor {
  trace : list call;
  paste_reply : list call -> list string
}.

Definition record_call (c : call) (ed : Editor) : Editor :=
  {| trace := trace ed ++ [c]; paste_reply := paste_reply ed |}.

(** A command: runs against the handle, returns a value or raises. *)
Definition Cmd (A : Type) : Type := Editor -> (exn + A) * Editor.

Definition ret {A : Type} (a : A) : Cmd A := fun ed => (inr a, ed).

Definition raise {A : Type} (e : exn) : Cmd A := fun ed => (inl e, ed).

Definition bind {A B : Type} (m : Cmd A) (k : A -> Cmd B) : Cmd B :=
  fun ed =>
    match m ed with
    | (inl e, ed') => (inl e, ed')
    | (inr a, ed') => k a ed'
    end.

(** Arguments are evaluated before the call: an exception there means
    that the session sees nothing. *)
Definition lift {A : Type} (m : exn + A) : Cmd A :=
  match m with
  | inl e => raise e
  | inr a => ret a
  end.

(** [oEditor.<name>(args...)], result ignored. *)
Definition invoke (name : string) (a : list pyval) : Cmd unit :=
  fun ed => (inr tt, record_call (Call name a) ed).

(** [oEditor.Paste()]: the session answers with the new object names. *)
Definition invoke_paste : Cmd (list string) :=
  fun ed => (inr (paste_reply ed (trace ed)), record_call (Call "Paste" []) ed).

(** The calls a command adds to the session. *)
Definition issued {A : Type} (m : Cmd A) (ed : Editor) : list call :=
  drop (length (trace ed)) (trace (snd (m ed))).

Definition outcome {A : Type} (m : Cmd A) (ed : Editor) : exn + A := fst (m ed).

End Session.

Import Session.

Declare Scope cmd_scope.
Delimit Scope cmd_scope with cmd.
Notation "x <- m ;; k" := (Session.bind m (fun x => k))
(at level 100, m at next level, right associativity) : cmd_scope.
Notation "m ;; k" := (Session.bind m (fun _ => k))
(at level 100, right associativity) : cmd_scope.

(** ** Strings and the fragment of [re] that [match_layer] uses *)

(** [str.replace], [re.escape] and [re.match] belong to the interpreter's
    library. They are written here after their documentation, for the
    syntax an escaped text can contain once [.*] is put into it: literal
    characters, escaped characters, the dot, the star after a single
    character, and the two anchors. A pattern outside this syntax is
    reported as such, never matched. A string is its sequence of bytes;
    byte 10, the line break, occurs in no multi-byte character, so that a
    dot under a star and a literal mean the same on bytes as on
    characters. *)

Module re.

(** [s.replace(old, new)] for a non-empty [old]: occurrences are found
    left to right and do not overlap. [skip] counts the characters of an
    occurrence that are still to be dropped. *)
Fixpoint replace_from (old new : string) (skip : nat) (s : string) : string :=
  match s with
  | EmptyString => EmptyString
  | String c s' =>
      match skip with
      | S k => replace_from old new k s'
      | O =>
          if String.prefix old s
          then new +:+ replace_from old new (String.length old - 1) s'
          else String c (replace_from old new 0 s')
      end
  end.

Definition replace (old new s : string) : string := replace_from old new 0 s.

(** The characters [re.escape] puts a backslash before:
    [()[]{}?*+-|^$\.&~#], the space, and tab, newline, carriage return,
    vertical tab, form feed. *)
Definition special_chars : list ascii :=
  list_ascii_of_string "()[]{}?*+-|^$\.&~# "
    ++ map ascii_of_nat [9; 10; 13; 11; 12]%nat.

Definition is_special (c : ascii) : bool :=
  existsb (Ascii.eqb c) special_chars.

(** [re.escape(pattern)] *)
Fixpoint escape (pattern : string) : string :=
  match pattern with
  | EmptyString => EmptyString
  | String c rest =>
      if is_special c then String "\" (String c (escape rest))
      else String c (escape rest)
  end.

(** Compiled patterns: a sequence of single characters and anchors, a
    character possibly under a star. *)
Inductive atom : Type :=
| ALit (c : ascii)
| ADot.

Inductive item : Type :=
| IOne (a : atom)
| IStar (a : atom)
| IBol
| IEol.

Inductive token : Type :=
| TChar (c : ascii)
| TEsc (c : ascii).

Definition newline : ascii := ascii_of_nat 10.

(** ASCII letters and digits; a byte above 127 is counted with them, so
    that an escaped non-ASCII character stays outside the fragment. *)
Definition is_alnum (c : ascii) : bool :=
  let n := nat_of_ascii c in
  ((48 <=? n) && (n <=? 57) || (65 <=? n) && (n <=? 90)
   || (97 <=? n) && (n <=? 122) || (128 <=? n))%nat.

Definition unsupported {A : Type} : exn + A :=
  inl (OtherError "re: outside the modelled fragment").

(** A backslash takes the next character with it and makes it a literal;
    before a letter or a digit it would begin a class or a reference,
    which is not modelled; at the end of the pattern it is an error. *)
Fixpoint lex (s : string) : exn + list token :=
  match s with
  | EmptyString => inr []
  | String c s1 =>
      if Ascii.eqb c "\" then
        match s1 with
        | EmptyString => inl ReError
        | String d s2 =>
            if is_alnum d then unsupported
            else ebind (lex s2) (fun ts => inr (TEsc d :: ts))
        end
      else ebind (lex s1) (fun ts => inr (TChar c :: ts))
  end.

Definition is_repeat (t : token) : bool :=
  match t with
  | TChar c => existsb (Ascii.eqb c) (list_ascii_of_string "*+?{")
  | TEsc _ => false
  end.

Definition starts_with_repeat (ts : list token) : bool :=
  match ts with
  | t :: _ => is_repeat t
  | [] => false
  end.

Definition is_star (t : token) : bool :=
  match t with
  | TChar c => Ascii.eqb c "*"
  | TEsc _ => false
  end.

(** What one token stands for when it does not repeat the one before. *)
Inductive kind : Type :=
| KAtom (a : atom)
| KBol
| KEol.

Definition classify (t : token) : exn + kind :=
  match t with
  | TEsc c => inr (KAtom (ALit c))
  | TChar c =>
      if Ascii.eqb c "." then inr (KAtom ADot)
      else if Ascii.eqb c "^" then inr KBol
      else if Ascii.eqb c "$" then inr KEol
      else if existsb (Ascii.eqb c) (list_ascii_of_string "*+?") then inl ReError
      else if existsb (Ascii.eqb c) (list_ascii_of_string "{[()|") then unsupported
      else inr (KAtom (ALit c))
  end.

(** The parser: an atom followed by [*] is starred (a further repetition
    sign after it is not modelled); an anchor cannot be repeated. *)
Fixpoint parse (ts : list token) : exn + list item :=
  match ts with
  | [] => inr []
  | t :: rest =>
      ebind (classify t) (fun k =>
        match k with
        | KBol =>
            if starts_with_repeat rest then inl ReError
            else ebind (parse rest) (fun r => inr (IBol :: r))
        | KEol =>
            if starts_with_repeat rest then inl ReError
            else ebind (parse rest) (fun r => inr (IEol :: r))
        | KAtom a =>
            match rest with
            | [] => inr [IOne a]
            | t' :: rest' =>
                if is_star t' then
                  if starts_with_repeat rest' then unsupported
                  else ebind (parse rest') (fun r => inr (IStar a :: r))
                else if is_repeat t' then unsupported
                else ebind (parse rest) (fun r => inr (IOne a :: r))
            end
        end)
  end.

(** [re.compile(pattern)] *)
Definition compile (pattern : string) : exn + list item :=
  ebind (lex pattern) parse.

(** A literal matches itself; [.] matches anything but a newline. *)
Definition atom_matches (a : atom) (c : ascii) : bool :=
  match a with
  | ALit d => Ascii.eqb c d
  | ADot => negb (Ascii.eqb c newline)
  end.

(** [$] matches at the end of the string and just before a newline that
    ends the string. *)
Definition at_end (s : string) : bool :=
  match s with
  | EmptyString => true
  | String c EmptyString => Ascii.eqb c newline
  | _ => false
  end.

(** Is there a way to match [items] against a prefix of [s]?
    [at_start] tells whether [s] is the whole subject. *)
Fixpoint matches (items : list item) (at_start : bool) (s : string) : bool :=
  match items with
  | [] => true
  | IBol :: r => at_start && matches r at_start s
  | IEol :: r => at_end s && matches r at_start s
  | IOne a :: r =>
      match s with
      | EmptyString => false
      | String c s' => atom_matches a c && matches r false s'
      end
  | IStar a :: r =>
      (fix star (at_start : bool) (s : string) : bool :=
         matches r at_start s
         || match s with
            | EmptyString => false
            | String c s' => atom_matches a c && star false s'
            end) at_start s
  end.

(** [bool(re.match(pattern, string))] *)
Definition match_ (pattern subject : string) : exn + bool :=
  ebind (compile pattern) (fun items => inr (matches items true subject)).

End re.

(** ** [ansys/util/geometry.py] *)

Module geometry.

Local Open Scope cmd_scope.

(** [format_position(x, units)] *)
Fixpoint format_position (x : pyval) (units : string) : pyval :=
  match x with
  | PList l => PList (map (fun p => format_position p units) l)
  | PStr s => PStr s
  | PInt z => PStr (str_int z +:+ units)
  | PFloat f => PStr (frepr f +:+ units)
  | PBool b => PStr (str_bool b +:+ units)
  | PNone => PStr ("None" +:+ units)
  end.

(** [create_rectangle(oEditor, name, x, y, z, w, h, axis, units)] *)
Definition create_rectangle (name : string) (x y z w h : pyval)
    (axis : string) (units : string) : Cmd unit :=
  if ne_float_zero w && ne_float_zero h then
    invoke "CreateRectangle"
      [ PList
          [ PStr "NAME:RectangleParameters";
            PStr "IsCovered:="; PBool true;
            PStr "XStart:="; format_position x units;
            PStr "YStart:="; format_position y units;
            PStr "ZStart:="; format_position z units;
            PStr "Width:="; format_position w units;
            PStr "Height:="; format_position h units;
            PStr "WhichAxis:="; PStr axis ];
        PList
          [ PStr "NAME:Attributes"; PStr "Name:="; PStr name;
            PStr "PartCoordinateSystem:="; PStr "Global" ] ]
  else ret tt.

(** One entry of the [NAME:PolylinePoints] list. *)
Definition PLPoint (p : list pyval) (units : string) : exn + pyval :=
  (x <-? getitem p 0;
   y <-? getitem p 1;
   z <-? getitem p 2;
   inr (PList
          [ PStr "NAME:PLPoint";
            PStr "X:="; format_position x units;
            PStr "Y:="; format_position y units;
            PStr "Z:="; format_position z units ]))%exn.

(** One entry of the [NAME:PolylineSegments] list. *)
Definition PLSegment (i : nat) : pyval :=
  PList
    [ PStr "NAME:PLSegment"; PStr "SegmentType:="; PStr "Line";
      PStr "StartIndex:="; PInt (Z.of_nat i); PStr "NoOfPoints:="; PInt 2 ].

(** The two arguments of [CreatePolyline], given the point entries and
    the number of points. *)
Definition polyline_command (name : string) (entries : list pyval) (n : nat)
    (units : string) : list pyval :=
  [ PList
      [ PStr "NAME:PolylineParameters";
        PStr "IsPolylineCovered:="; PBool true;
        PStr "IsPolylineClosed:="; PBool true;
        PList (PStr "NAME:PolylinePoints" :: entries);
        PList (PStr "NAME:PolylineSegments" :: map PLSegment (seq 0 n));
        PList
          [ PStr "NAME:PolylineXSection";
            PStr "XSectionType:="; PStr "None";
            PStr "XSectionOrient:="; PStr "Auto";
            PStr "XSectionWidth:="; PStr ("0" +:+ units);
            PStr "XSectionTopWidth:="; PStr ("0" +:+ units);
            PStr "XSectionHeight:="; PStr ("0" +:+ units);
            PStr "XSectionNumSegments:="; PStr "0";
            PStr "XSectionBendType:="; PStr "Corner" ] ];
    PList
      [ PStr "NAME:Attributes"; PStr "Name:="; PStr name;
        PStr "Flags:="; PStr "";
        PStr "PartCoordinateSystem:="; PStr "Global" ] ].

(** Evaluation of the arguments: [points[0]], then one entry for each
    [p in points + [points[0]]], then one segment for each
    [i in range(len(points))]. *)
Definition polyline_args (name : string) (points : list (list pyval))
    (units : string) : exn + list pyval :=
  (first <-? getitem points 0;
   entries <-? emap (fun p => PLPoint p units) (points ++ [first]);
   inr (polyline_command name entries (length points) units))%exn.

(** [create_polygon(oEditor, name, points, units)] *)
Definition create_polygon (name : string) (points : list (list pyval))
    (units : string) : Cmd unit :=
  a <- lift (polyline_args name points units) ;;
  invoke "CreatePolyline" a.

(** [create_box(oEditor, name, x, y, z, sx, sy, sz, units)] *)
Definition create_box (name : string) (x y z sx sy sz : pyval)
    (units : string) : Cmd unit :=
  if ne_float_zero sx && ne_float_zero sy && ne_float_zero sz then
    invoke "CreateBox"
      [ PList
          [ PStr "NAME:BoxParameters";
            PStr "XPosition:="; format_position x units;
            PStr "YPosition:="; format_position y units;
            PStr "ZPosition:="; format_position z units;
            PStr "XSize:="; format_position sx units;
            PStr "YSize:="; format_position sy units;
            PStr "ZSize:="; format_position sz units ];
        PList
          [ PStr "NAME:Attributes"; PStr "Name:="; PStr name;
            PStr "MaterialValue:="; PStr (String dquote (String dquote ""));
            PStr "Flags:="; PStr "";
            PStr "PartCoordinateSystem:="; PStr "Global" ] ]
  else ret tt.

(** The [NAME:Selections] argument shared by the transforms. *)
Definition selections_model (objects : list string) : pyval :=
  PList
    [ PStr "NAME:Selections"; PStr "Selections:="; PStr (join "," objects);
      PStr "NewPartsModelFlag:="; PStr "Model" ].

(** [thicken_sheet(oEditor, objects, thickness, units)]; a list is true
    when it is not empty. *)
Definition thicken_sheet (objects : list string) (thickness : number)
    (units : string) : Cmd unit :=
  if negb (bool_decide (objects = [])) && ne_float_zero (of_number thickness) then
    invoke "SweepAlongVector"
      [ selections_model objects;
        PList
          [ PStr "NAME:VectorSweepParameters";
            PStr "DraftAngle:="; PStr "0deg";
            PStr "DraftType:="; PStr "Round";
            PStr "CheckFaceFaceIntersection:="; PBool false;
            PStr "SweepVectorX:="; PStr "0um";
            PStr "SweepVectorY:="; PStr "0um";
            PStr "SweepVectorZ:="; PStr (str_number thickness +:+ " " +:+ units) ] ]
  else ret tt.

(** The argument of [ChangeProperty] for one changed property. *)
Definition changed_prop (objects : list string) (prop : pyval) : list pyval :=
  [ PList
      [ PStr "NAME:AllTabs";
        PList
          [ PStr "NAME:Geometry3DAttributeTab";
            PList (PStr "NAME:PropServers" :: map PStr objects);
            PList [ PStr "NAME:ChangedProps"; prop ] ] ] ].

Definition prop_solve_inside (b : bool) : pyval :=
  PList [ PStr "NAME:Solve Inside"; PStr "Value:="; PBool b ].

Definition prop_material (material : string) : pyval :=
  PList
    [ PStr "NAME:Material"; PStr "Value:=";
      PStr (String dquote material +:+ String dquote "") ].

Definition prop_model (b : bool) : pyval :=
  PList [ PStr "NAME:Model"; PStr "Value:="; PBool b ].

(** [set_material(oEditor, objects, material=None, solve_inside=None)] *)
Definition set_material (objects : list string) (material : option string)
    (solve_inside : option bool) : Cmd unit :=
  if negb (bool_decide (objects = [])) then
    (match solve_inside with
     | Some b => invoke "ChangeProperty" (changed_prop objects (prop_solve_inside b))
     | None => ret tt
     end) ;;
    match material with
    | Some m => invoke "ChangeProperty" (changed_prop objects (prop_material m))
    | None => invoke "ChangeProperty" (changed_prop objects (prop_model false))
    end
  else ret tt.

(** [move_vertically(oEditor, objects, z_shift, units)] *)
Definition move_vertically (objects : list string) (z_shift : number)
    (units : string) : Cmd unit :=
  if negb (bool_decide (objects = [])) && ne_float_zero (of_number z_shift) then
    invoke "Move"
      [ selections_model objects;
        PList
          [ PStr "NAME:TranslateParameters";
            PStr "TranslateVectorX:="; PStr ("0 " +:+ units);
            PStr "TranslateVectorY:="; PStr ("0 " +:+ units);
            PStr "TranslateVectorZ:="; PStr (str_number z_shift +:+ " " +:+ units) ] ]
  else ret tt.

(** [copy_paste(oEditor, objects)] *)
Definition copy_paste (objects : list string) : Cmd (list string) :=
  if negb (bool_decide (objects = [])) then
    invoke "Copy"
      [ PList [ PStr "NAME:Selections"; PStr "Selections:="; PStr (join "," objects) ] ] ;;
    invoke_paste
  else ret [].

(** [delete(oEditor, objects)] *)
Definition delete (objects : list string) : Cmd unit :=
  if negb (bool_decide (objects = [])) then
    invoke "Delete"
      [ PList [ PStr "NAME:Selections"; PStr "Selections:="; PStr (join "," objects) ] ]
  else ret tt.

(** [subtract(oEditor, objects, tool_objects, keep_originals=False)] *)
Definition subtract (objects tool_objects : list string) (keep_originals : bool)
    : Cmd unit :=
  if negb (bool_decide (objects = [])) && negb (bool_decide (tool_objects = [])) then
    invoke "Subtract"
      [ PList
          [ PStr "NAME:Selections";
            PStr "Blank Parts:="; PStr (join "," objects);
            PStr "Tool Parts:="; PStr (join "," tool_objects) ];
        PList
          [ PStr "NAME:SubtractParameters";
            PStr "KeepOriginals:="; PBool keep_originals;
            PStr "TurnOnNBodyBoolean:="; PBool true ] ]
  else ret tt.

(** [unite(oEditor, objects, keep_originals=False)] *)
Definition unite (objects : list string) (keep_originals : bool) : Cmd unit :=
  if (1 <? length objects)%nat then
    invoke "Unite"
      [ PList [ PStr "NAME:Selections"; PStr "Selections:="; PStr (join "," objects) ];
        PList
          [ PStr "NAME:UniteParameters";
            PStr "KeepOriginals:="; PBool keep_originals;
            PStr "TurnOnNBodyBoolean:="; PBool true ] ]
  else ret tt.

(** [scale(oEditor, objects, factor)] *)
Definition scale (objects : list string) (factor : number) : Cmd unit :=
  if negb (bool_decide (objects = [])) && ne_float_one (of_number factor) then
    invoke "Scale"
      [ selections_model objects;
        PList
          [ PStr "NAME:ScaleParameters";
            PStr "ScaleX:="; PStr (str_number factor);
            PStr "ScaleY:="; PStr (str_number factor);
            PStr "ScaleZ:="; PStr (str_number factor) ] ]
  else ret tt.

(** [match_layer(layer_name, layer_pattern)] *)
Definition match_layer (layer_name layer_pattern : string) : exn + bool :=
  let pattern := ("^" +:+ re.replace "\*" ".*" (re.escape layer_pattern) +:+ "$") in
  re.match_ pattern layer_name.

(** [int(x)] on a float: the fractional part is dropped (rounding toward
    zero). [Int_part] is the floor. *)
Definition py_int (x : R) : Z :=
  if Rle_dec 0 x then Int_part x else (- Int_part (- x))%Z.

(** [x > y] on floats. *)
Definition gt (x y : R) : bool := if Rlt_dec y x then true else false.

(** [material_dict.get(material, {}).get(key, default)] *)
Definition material_property (material_dict : gmap string (gmap string R))
    (material key : string) (dflt : R) : R :=
  default dflt (default ∅ (material_dict !! material) !! key).

(** The three phases of the palette, in red, green, blue order. *)
Definition palette_phases (n : R) : list R :=
  [ (n - PI / 3)%R; (n + PI)%R; (n + PI / 3)%R ].

(** [color_by_material(material, material_dict, is_sheet=True)]; the
    returned tuple is given as the three colour channels and the opacity.
    The floats are read as real numbers. In double precision [0.93 ** x]
    raises [OverflowError] for a large negative [x] and is [0.0] for a
    large positive one, and [cos] and [int] raise on an infinity or a NaN:
    this reading has none of that, so it speaks for moderate values only. *)
Definition color_by_material (material : string)
    (material_dict : gmap string (gmap string R)) (is_sheet : bool)
    : list Z * R :=
  if bool_decide (material = "pec")
     || gt (material_property material_dict material "conductivity" 0) 0
  then ([240; 120; 240]%Z, 0.5%R)
  else
    let n := (0.3 * (material_property material_dict material "permittivity" 1.0 - 1.0))%R in
    let alpha := Rpower 0.93 (if is_sheet then 2 * n else n)%R in
    (map (fun c => py_int (100 + 80 * c)) (map cos (palette_phases n)), alpha).

(** [add_layer(layer_map, order_map, layer_num, dest_layer, order,
    layer_type="signal")]: both lists are extended in place; the two lists
    after the call are returned. *)
Definition add_layer (layer_map order_map : list pyval)
    (layer_num : pyval) (dest_layer : string) (order : pyval)
    (layer_type : string) : list pyval * list pyval :=
  (layer_map
     ++ [ PList
            [ PStr "NAME:LayerMapInfo";
              PStr "LayerNum:="; layer_num;
              PStr "DestLayer:="; PStr dest_layer;
              PStr "layer_type:="; PStr layer_type ] ],
   order_map
     ++ [ PStr "entry:=";
          PList [ PStr "order:="; order; PStr "layer:="; PStr dest_layer ] ]).

(** The list [add_material] starts from. *)
Definition material_header (name : string) : list pyval :=
  [ PStr ("NAME:" +:+ name);
    PStr "CoordinateSystemType:="; PStr "Cartesian";
    PStr "BulkOrSurfaceType:="; PInt 1;
    PList [ PStr "NAME:PhysicsTypes"; PStr "set:="; PList [ PStr "Electromagnetic" ] ] ].

(** The loop over [parameters.items()]: the keyword arguments in the order
    they were given, each value a number. *)
Fixpoint material_parameters (parameters : list (string * number)) : list pyval :=
  match parameters with
  | [] => []
  | (key, value) :: rest =>
      [ PStr (key +:+ ":="); PStr (str_number value) ] ++ material_parameters rest
  end.

(** [add_material(oDefinitionManager, name, **parameters)]; the session is
    the definition manager. *)
Definition add_material (name : string) (parameters : list (string * number))
    : Cmd unit :=
  invoke "AddMaterial" [ PList (material_header name ++ material_parameters parameters) ].

(** [set_color(oEditor, objects, red, green, blue, transparency)] *)
Definition set_color (objects : list string) (red green blue transparency : pyval)
    : Cmd unit :=
  if negb (bool_decide (objects = [])) then
    invoke "ChangeProperty"
      [ PList
          [ PStr "NAME:AllTabs";
            PList
              [ PStr "NAME:Geometry3DAttributeTab";
                PList (PStr "NAME:PropServers" :: map PStr objects);
                PList
                  [ PStr "NAME:ChangedProps";
                    PList [ PStr "NAME:Color"; PStr "R:="; red; PStr "G:="; green;
                            PStr "B:="; blue ];
                    PList [ PStr "NAME:Transparent"; PStr "Value:="; transparency ] ] ] ] ]
  else ret tt.

End geometry.

(** ** Text operations of the names file *)

(** [str.split], the [in] test on strings and [readlines] are the
    interpreter's; they are written here after their documentation. *)

Module text.

(** [sub in s] *)
Fixpoint contains (sub s : string) : bool :=
  String.prefix sub s
  || match s with
     | EmptyString => false
     | String _ rest => contains sub rest
     end.

(** [s.split(sep)] for a non-empty [sep]: the pieces between the
    occurrences of [sep], found left to right without overlap. [skip]
    counts the characters of an occurrence still to be dropped. The result
    is never empty. *)
Fixpoint split_from (sep : string) (skip : nat) (s : string) : list string :=
  match s with
  | EmptyString => [EmptyString]
  | String c rest =>
      match skip with
      | S k => split_from sep k rest
      | O =>
          if String.prefix sep s
          then EmptyString :: split_from sep (String.length sep - 1) rest
          else match split_from sep 0 rest with
               | piece :: pieces => String c piece :: pieces
               | [] => [String c EmptyString]
               end
      end
  end.

Definition split (sep s : string) : list string := split_from sep 0 s.

(** [f.readlines()] on a text whose line ends have been translated to the
    line break: every line keeps its line break, the last one has none when
    the text does not end with one. *)
Fixpoint readlines (s : string) : list string :=
  match s with
  | EmptyString => []
  | String c rest =>
      if Ascii.eqb c re.newline then String c EmptyString :: readlines rest
      else match readlines rest with
           | line :: lines => String c line :: lines
           | [] => [String c EmptyString]
           end
  end.

End text.

(** ** [elmer/cross_section_helpers.py] *)

Module cross_section_helpers.

(** The configuration [json_data] produced by [export_elmer_json]: the two
    entries read here, and the remaining ones, which only the helpers of
    [elmer_helpers] look at. *)
Record json_data : Type := JsonData {
  sif_names : list string;
  run_inductance_sim : bool;
  other_entries : gmap string pyval
}.

(** The functions imported from [elmer_helpers]. Their text generators are
    not part of these two files; they are taken as given. Arguments of
    [sif_capacitance]: [json_data], [folder_path], [vtu_name],
    [angular_frequency], [dim], [with_zero]. *)
Record elmer_helpers : Type := ElmerHelpers {
  sif_capacitance : json_data -> string -> string -> pyval -> Z -> bool -> string;
  sif_inductance : json_data -> string -> pyval -> string -> string;
  sif_circuit_definitions : json_data -> string;
  use_london_equations : json_data -> bool
}.

(** The one-character string of the line break. *)
Definition line_end : string := String re.newline "".

(** [angular_frequency = 5e2] *)
Definition angular_frequency : pyval := PFloat (PyFloat 500%float "500.0").

(** What the writer does to the file system, in order. *)
Inductive fs_event : Type :=
| Mkdir (folder : string)
| WriteFile (folder name content : string).

(** The files of one folder, by name. *)
Definition apply_event (folder : string) (files : gmap string string)
    (e : fs_event) : gmap string string :=
  match e with
  | Mkdir _ => files
  | WriteFile f name content =>
      if String.eqb f folder then <[name := content]> files else files
  end.

Definition apply_events (folder : string) (es : list fs_event)
    (files : gmap string string) : gmap string string :=
  fold_left (apply_event folder) es files.

(** A step of the writer: the events so far, then a value or an exception. *)
Definition Writer (A : Type) : Type := list fs_event -> (exn + A) * list fs_event.

Definition wret {A : Type} (a : A) : Writer A := fun log => (inr a, log).

Definition wbind {A B : Type} (m : Writer A) (k : A -> Writer B) : Writer B :=
  fun log =>
    match m log with
    | (inl e, log') => (inl e, log')
    | (inr a, log') => k a log'
    end.

Definition wlift {A : Type} (m : exn + A) : Writer A := fun log => (m, log).

Definition emit (e : fs_event) : Writer unit := fun log => (inr tt, log ++ [e]).

(** The local [save(file_name, content)]: opens for writing (an existing
    file is replaced) and returns the name. Here the call is taken to
    succeed; [save_on] below is the same function where [open] may raise. *)
Definition save (folder_path file_name content : string) : Writer string :=
  wbind (emit (WriteFile folder_path file_name content)) (fun _ => wret file_name).

(** [produce_cross_section_sif_files(json_data, folder_path)] *)
Definition produce_cross_section_sif_files (H : elmer_helpers)
    (json : json_data) (folder_path : string) : Writer (list string) :=
  wbind (emit (Mkdir folder_path)) (fun _ =>
  let names := sif_names json in
  wbind (wlift (getitem names 0)) (fun name0 =>
  wbind (save folder_path (name0 +:+ ".sif")
           (sif_capacitance H json folder_path name0 (PInt 0) 2 false)) (fun first =>
  let sif_files := [first] in
  if run_inductance_sim json then
    if use_london_equations H json then
      wbind (save folder_path "inductance.definitions"
               (sif_circuit_definitions H json)) (fun circuit_definitions_file =>
      wbind (wlift (getitem names 1)) (fun name1 =>
      wbind (save folder_path (name1 +:+ ".sif")
               (sif_inductance H json folder_path angular_frequency
                  circuit_definitions_file)) (fun second =>
      wret (sif_files ++ [second]))))
    else
      wbind (wlift (getitem names 1)) (fun name1 =>
      wbind (save folder_path (name1 +:+ ".sif")
               (sif_capacitance H json folder_path name1 (PInt 0) 2 true)) (fun second =>
      wret (sif_files ++ [second])))
  else wret sif_files))).

(** The writer on a file system whose calls may raise. For the events so
    far and the arguments of the call, each entry gives the exception
    raised, if any: [mkdir_raises] for
    [folder_path.mkdir(exist_ok=True, parents=True)], [open_raises] for
    [open(Path(folder_path).joinpath(file_name), "w", encoding="utf-8")].
    An event [WriteFile folder_path file_name content] stands for a file
    opened at [Path(folder_path).joinpath(file_name)] and written: where
    that path lies is for [pathlib] to say. *)
Record file_system : Type := FileSystem {
  mkdir_raises : list fs_event -> string -> option exn;
  open_raises : list fs_event -> string -> string -> option exn
}.

(** A file-system call: it raises, or it is done and recorded. *)
Definition attempt (raises : list fs_event -> option exn) (e : fs_event)
    : Writer unit :=
  fun log =>
    match raises log with
    | Some err => (inl err, log)
    | None => (inr tt, log ++ [e])
    end.

(** The local [save(file_name, content)], on [fs]. *)
Definition save_on (fs : file_system) (folder_path file_name content : string)
    : Writer string :=
  wbind (attempt (fun log => open_raises fs log folder_path file_name)
           (WriteFile folder_path file_name content))
    (fun _ => wret file_name).

(** [produce_cross_section_sif_files(json_data, folder_path)], on [fs]. *)
Definition produce_cross_section_sif_files_on (fs : file_system) (H : elmer_helpers)
    (json : json_data) (folder_path : string) : Writer (list string) :=
  wbind (attempt (fun log => mkdir_raises fs log folder_path) (Mkdir folder_path))
    (fun _ =>
  let names := sif_names json in
  wbind (wlift (getitem names 0)) (fun name0 =>
  wbind (save_on fs folder_path (name0 +:+ ".sif")
           (sif_capacitance H json folder_path name0 (PInt 0) 2 false)) (fun first =>
  let sif_files := [first] in
  if run_inductance_sim json then
    if use_london_equations H json then
      wbind (save_on fs folder_path "inductance.definitions"
               (sif_circuit_definitions H json)) (fun circuit_definitions_file =>
      wbind (wlift (getitem names 1)) (fun name1 =>
      wbind (save_on fs folder_path (name1 +:+ ".sif")
               (sif_inductance H json folder_path angular_frequency
                  circuit_definitions_file)) (fun second =>
      wret (sif_files ++ [second]))))
    else
      wbind (wlift (getitem names 1)) (fun name1 =>
      wbind (save_on fs folder_path (name1 +:+ ".sif")
               (sif_capacitance H json folder_path name1 (PInt 0) 2 true)) (fun second =>
      wret (sif_files ++ [second])))
  else wret sif_files))).

(** A numeric table, as [pandas] and [numpy] hold it and as [tolist]
    returns it. *)
Definition matrix : Type := list (list float).

(** The numeric library calls. [read_csv] is the parser applied to the
    text of a file that exists; [london_inductance] stands for the column
    naming from the [.names] text, the complex division and the division of
    the imaginary part by the angular frequency; [inverse_inductance] for
    [mu_0 * epsilon_0 * inv(c0)]. Each may raise. *)
Record numerics : Type := Numerics {
  read_csv : string -> exn + matrix;
  london_inductance : matrix -> string -> pyval -> exn + matrix;
  inverse_inductance : matrix -> exn + matrix
}.

(** [open(path)] for reading. *)
Definition open_file (files : gmap string string) (name : string) : exn + string :=
  match files !! name with
  | Some content => inr content
  | None => inl FileNotFoundError
  end.

(** [pd.read_csv(path, sep=r"\s+", header=None)] *)
Definition read_table (N : numerics) (files : gmap string string)
    (name : string) : exn + matrix :=
  ebind (open_file files name) (read_csv N).

(** [path.is_file()] *)
Definition is_file (files : gmap string string) (name : string) : bool :=
  bool_decide (is_Some (files !! name)).

(** [try: body except FileNotFoundError: return fallback], followed by [k]. *)
Definition try_file_not_found {A B : Type} (body : exn + A) (fallback : B)
    (k : A -> exn + B) : exn + B :=
  match body with
  | inl FileNotFoundError => inr fallback
  | inl e => inl e
  | inr a => k a
  end.

(** The returned dictionary, keys ["Cs"] and ["Ls"]. *)
Record matrices : Type := Matrices { Cs : option matrix; Ls : option matrix }.

(** The body of the second [try]. *)
Definition l_matrix_of (N : numerics) (H : elmer_helpers) (json : json_data)
    (files : gmap string string) : exn + matrix :=
  if use_london_equations H json then
    let l_matrix_file_name := "inductance.dat" in
    let l_matrix_file :=
      if is_file files l_matrix_file_name then l_matrix_file_name
      else (l_matrix_file_name +:+ ".0") in
    (data <-? read_table N files l_matrix_file;
     names <-? open_file files (l_matrix_file_name +:+ ".names");
     london_inductance N data names angular_frequency)%exn
  else
    (c0_matrix <-? read_table N files "capacitance0.dat";
     inverse_inductance N c0_matrix)%exn.

(** [get_cross_section_capacitance_and_inductance(json_data, folder_path)],
    [files] being the content of the folder. *)
Definition get_cross_section_capacitance_and_inductance (N : numerics)
    (H : elmer_helpers) (json : json_data) (files : gmap string string)
    : exn + matrices :=
  try_file_not_found (read_table N files "capacitance.dat")
    {| Cs := None; Ls := None |}
    (fun c_matrix =>
       try_file_not_found (l_matrix_of N H json files)
         {| Cs := Some c_matrix; Ls := None |}
         (fun l_matrix => inr {| Cs := Some c_matrix; Ls := Some l_matrix |})).

(** The column names taken from the [.names] file: for every line that
    contains [res:], what follows the first [res: ] (up to the next one),
    without line breaks. *)
Definition column_name (line : string) : exn + string :=
  ebind (getitem (text.split "res: " line) 1)
    (fun piece => inr (re.replace line_end "" piece)).

Definition column_names (names_text : string) : exn + list string :=
  emap column_name (List.filter (text.contains "res:") (text.readlines names_text)).

(** *** The mesh producer *)

(** A dimension and a tag: an entity of the meshing engine. *)
Definition dimtag : Type := Z * Z.

(** A point as given to [add_polygon]: two floats and the integer [0]. *)
Definition point3 : Type := float * float * Z.

(** A dictionary from names to entity lists, in insertion order. *)
Definition tagdict : Type := list (string * list dimtag).

(** [d[k] = v]: the value is replaced where the key is, or the pair is
    added at the end. *)
Fixpoint dict_set {V : Type} (k : string) (v : V) (d : list (string * V))
    : list (string * V) :=
  match d with
  | [] => [(k, v)]
  | (k', v') :: rest =>
      if String.eqb k' k then (k', v) :: rest else (k', v') :: dict_set k v rest
  end.

(** [d.get(k)] *)
Fixpoint dict_get {V : Type} (k : string) (d : list (string * V)) : option V :=
  match d with
  | [] => None
  | (k', v') :: rest => if String.eqb k' k then Some v' else dict_get k rest
  end.

(** [d.update(other)] *)
Definition dict_update {V : Type} (d other : list (string * V)) : list (string * V) :=
  fold_left (fun acc kv => dict_set (fst kv) (snd kv) acc) other d.

(** The truth value of an object. *)
Definition truthy (v : pyval) : bool :=
  match v with
  | PNone => false
  | PBool b => b
  | PInt z => negb (z =? 0)%Z
  | PFloat f => negb (PrimFloat.eqb (fval f) 0%float)
  | PStr s => negb (String.eqb s "")
  | PList l => negb (bool_decide (l = []))
  end.

(** [float(z)] for an integer below [2^63] in magnitude, as the layout's
    coordinates are. *)
Definition float_of_Z (z : Z) : float :=
  match z with
  | Z0 => 0%float
  | Zpos _ => PrimFloat.of_uint63 (Uint63.of_Z z)
  | Zneg _ => PrimFloat.opp (PrimFloat.of_uint63 (Uint63.of_Z (- z)))
  end.

(** What the layout library gives for the file: the database unit, the
    bounding box of the top cell in micrometres, and for a layer number
    (datatype 0) the polygons of its region, each already separated into
    its hull and its holes, in integer database units. *)
Record polygon : Type := Polygon { hull : list (Z * Z); holes : list (list (Z * Z)) }.

Record dbox : Type := DBox { p1x : float; p1y : float; p2x : float; p2y : float }.

Record layout : Type := Layout {
  dbu : float;
  bbox : dbox;
  shapes : Z -> list polygon
}.

(** One entry of [json_data["layers"]]: the layer number, and the
    excitation when the entry has one. *)
Record layer_data : Type := LayerData { layer : Z; excitation : option Z }.

(** The entries of [json_data] the mesh producer reads; [None] where
    [json_data.get] finds nothing. *)
Record mesh_config : Type := MeshConfig {
  gds_file : string;
  layers : list (string * layer_data);
  mesh_size : option (gmap string pyval);
  workflow : option (gmap string pyval);
  mesh_optimizer : option pyval
}.

(** What is taken as given: reading the layout (which may raise), the two
    pure helpers of [gmsh_helpers], and the order in which the interpreter
    iterates over a set of excitations built from the given values. *)
Record mesh_helpers : Type := MeshHelpers {
  read_layout : string -> exn + layout;
  get_metal_layers : list (string * layer_data) -> list (string * layer_data);
  apply_elmer_layer_prefix : string -> string;
  set_iteration : list Z -> list Z
}.

(** The calls that reach the meshing engine, directly or through
    [gmsh_helpers]. *)
Inductive mesh_call : Type :=
| GmshInitialize
| ModelAdd (name : string)
| AddPolygon (points : list point3)
| OccCut (objects tools : list dimtag)
| OccFragment (objects tools : list dimtag) (removeTool : bool)
| OccSynchronize
| SetMeshing (sizes : gmap string pyval) (new_tags : tagdict) (flow : gmap string pyval)
| GetRecursiveChildren (dts : list dimtag)
| GetEntitiesInBoundingBox (xmin ymin zmin xmax ymax zmax : float) (dim : Z)
| AddPhysicalGroup (dim : Z) (tags : list Z) (name : string)
| MeshGenerate (dim : Z)
| OptimizeMesh (optimizer : option pyval)
| GmshWrite (file : string)
| FltkRun
| GmshFinalize.

(** What the engine answers, given the calls so far (the asking one
    included). *)
Record oracle : Type := Oracle {
  add_polygon_reply : list mesh_call -> Z;
  cut_reply : list mesh_call -> list dimtag;
  fragment_reply : list mesh_call -> list (list dimtag);
  children_reply : list mesh_call -> list dimtag;
  bbox_reply : list mesh_call -> list dimtag
}.

(** The world the mesh producer runs in: the engine calls so far, the
    paths that exist, and the engine's answers. *)
Record World : Type := MkWorld {
  calls : list mesh_call;
  existing : gset string;
  engine : oracle
}.

(** A call is recorded; [gmsh.write] creates its file. *)
Definition record (c : mesh_call) (w : World) : World :=
  {| calls := calls w ++ [c];
     existing := match c with
                 | GmshWrite file => {[ file ]} ∪ existing w
                 | _ => existing w
                 end;
     engine := engine w |}.

Definition Eng (A : Type) : Type := World -> (exn + A) * World.

Definition eng_ret {A : Type} (a : A) : Eng A := fun w => (inr a, w).

Definition eng_bind {A B : Type} (m : Eng A) (k : A -> Eng B) : Eng B :=
  fun w =>
    match m w with
    | (inl e, w') => (inl e, w')
    | (inr a, w') => k a w'
    end.

Definition eng_lift {A : Type} (m : exn + A) : Eng A := fun w => (m, w).

(** A call whose result is not used. *)
Definition perform (c : mesh_call) : Eng unit := fun w => (inr tt, record c w).

(** A call whose result is used. *)
Definition ask {A : Type} (c : mesh_call) (reply : oracle -> list mesh_call -> A)
    : Eng A :=
  fun w => (inr (reply (engine w) (calls w ++ [c])), record c w).

(** A loop that collects one result per element. *)
Fixpoint eng_map {A B : Type} (f : A -> Eng B) (l : list A) : Eng (list B) :=
  match l with
  | [] => eng_ret []
  | a :: rest =>
      eng_bind (f a) (fun b => eng_bind (eng_map f rest) (fun bs => eng_ret (b :: bs)))
  end.

(** A loop that threads a value. *)
Fixpoint eng_fold {A S : Type} (f : S -> A -> Eng S) (l : list A) (s : S) : Eng S :=
  match l with
  | [] => eng_ret s
  | a :: rest => eng_bind (f s a) (fun s' => eng_fold f rest s')
  end.

(** [[(point.x * layout.dbu, point.y * layout.dbu, 0) for point in ...]] *)
Definition point_coordinates (unit : float) (points : list (Z * Z)) : list point3 :=
  map (fun xy => (PrimFloat.mul (float_of_Z (fst xy)) unit,
                  PrimFloat.mul (float_of_Z (snd xy)) unit, 0%Z)) points.

(** [add_polygon(points)], of which the surface id is kept. *)
Definition add_polygon (points : list point3) : Eng Z :=
  ask (AddPolygon points) add_polygon_reply.

(** The body of the loop over the polygons of a layer: the entities the
    polygon adds to the layer. *)
Definition polygon_dim_tags (unit : float) (poly : polygon) : Eng (list dimtag) :=
  eng_bind (add_polygon (point_coordinates unit (hull poly))) (fun hull_id =>
  let hull_dim_tag := (2%Z, hull_id) in
  eng_bind (eng_map (fun hole =>
              eng_bind (add_polygon (point_coordinates unit hole)) (fun hole_id =>
              eng_ret (2%Z, hole_id))) (holes poly)) (fun hole_dim_tags =>
  if negb (bool_decide (hole_dim_tags = [])) then
    ask (OccCut [hull_dim_tag] hole_dim_tags) cut_reply
  else eng_ret [hull_dim_tag])).

(** The body of the loop over the layers. *)
Definition layer_dim_tags (lay : layout) (dim_tags : tagdict)
    (entry : string * layer_data) : Eng tagdict :=
  eng_bind (eng_map (polygon_dim_tags (dbu lay)) (shapes lay (layer (snd entry))))
    (fun per_polygon => eng_ret (dict_set (fst entry) (concat per_polygon) dim_tags)).

(** [dict(zip(all_dim_tags, dim_tags_map_imp))]: a later pair replaces an
    earlier one with the same key. *)
Definition dim_tags_map_of (all_dim_tags : list dimtag)
    (dim_tags_map_imp : list (list dimtag)) : gmap dimtag (list dimtag) :=
  list_to_map (reverse (zip all_dim_tags dim_tags_map_imp)).

(** [dim_tags_map[old_tag]] *)
Definition mapped (dim_tags_map : gmap dimtag (list dimtag)) (old_tag : dimtag)
    : exn + list dimtag :=
  match dim_tags_map !! old_tag with
  | Some new => inr new
  | None => inl (OtherError "KeyError")
  end.

(** The dictionary comprehension that gives [new_tags]. *)
Definition remap_tags (dim_tags_map : gmap dimtag (list dimtag)) (dim_tags : tagdict)
    : exn + tagdict :=
  emap (fun entry =>
          ebind (emap (mapped dim_tags_map) (snd entry))
            (fun news => inr (fst entry, concat news)))
    dim_tags.

(** [d["excitation"]] *)
Definition excitation_of (entry : string * layer_data) : exn + (string * Z) :=
  match excitation (snd entry) with
  | Some e => inr (fst entry, e)
  | None => inl (OtherError "KeyError")
  end.

(** The body of the loop over the excitations. *)
Definition excitation_boundary (metal : list (string * Z)) (new_tags : tagdict)
    (e : Z) : Eng tagdict :=
  let exc_dts :=
    flat_map (fun entry =>
                if (snd entry =? e)%Z
                then default [] (dict_get (fst entry) new_tags) else [])
      metal in
  eng_bind (ask (GetRecursiveChildren exc_dts) children_reply) (fun children =>
  eng_ret (dict_set ("excitation_" +:+ str_int e +:+ "_boundary")
             (List.filter (fun dt => (fst dt =? 1)%Z) children) new_tags)).

(** [beps = 1e-6], the nearest double. *)
Definition default_beps : float := (0x1.0c6f7a0b5ed8dp-20)%float.

(** [get_outer_bcs(bbox, beps=1e-6)] *)
Definition get_outer_bcs (box : dbox) (beps : float) : Eng tagdict :=
  let lo := PrimFloat.opp beps in
  let query x0 y0 x1 y1 :=
    ask (GetEntitiesInBoundingBox x0 y0 lo x1 y1 beps 1) bbox_reply in
  eng_bind (query (PrimFloat.sub (p1x box) beps) (PrimFloat.sub (p1y box) beps)
                  (PrimFloat.add (p1x box) beps) (PrimFloat.add (p2y box) beps))
    (fun xmin =>
  eng_bind (query (PrimFloat.sub (p2x box) beps) (PrimFloat.sub (p1y box) beps)
                  (PrimFloat.add (p2x box) beps) (PrimFloat.add (p2y box) beps))
    (fun xmax =>
  eng_bind (query (PrimFloat.sub (p1x box) beps) (PrimFloat.sub (p1y box) beps)
                  (PrimFloat.add (p2x box) beps) (PrimFloat.add (p1y box) beps))
    (fun ymin =>
  eng_bind (query (PrimFloat.sub (p1x box) beps) (PrimFloat.sub (p2y box) beps)
                  (PrimFloat.add (p2x box) beps) (PrimFloat.add (p2y box) beps))
    (fun ymax =>
  eng_ret (dict_set "ymax_boundary" ymax
             (dict_set "ymin_boundary" ymin
                (dict_set "xmax_boundary" xmax
                   (dict_set "xmin_boundary" xmin [])))))))).

(** [max(d for d, _ in dts)] on a list that is not empty. *)
Definition max_dim (dts : list dimtag) : Z :=
  match map fst dts with
  | [] => 0%Z
  | d :: ds => fold_left Z.max ds d
  end.

(** The body of the loop that creates the physical groups. *)
Definition physical_group (prefix : string -> string) (entry : string * list dimtag)
    : Eng unit :=
  if negb (bool_decide (snd entry = [])) then
    perform (AddPhysicalGroup (max_dim (snd entry)) (map snd (snd entry))
               (prefix (fst entry)))
  else eng_ret tt.

(** What follows [gmsh.initialize()] up to the physical groups. *)
Definition build_model (E : mesh_helpers) (json : mesh_config) : Eng unit :=
  eng_bind (eng_lift (read_layout E (gds_file json))) (fun lay =>
  eng_bind (perform (ModelAdd "cross_section")) (fun _ =>
  eng_bind (eng_fold (layer_dim_tags lay) (layers json) []) (fun dim_tags =>
  let all_dim_tags := flat_map snd dim_tags in
  eng_bind (ask (OccFragment all_dim_tags [] false) fragment_reply)
    (fun dim_tags_map_imp =>
  let dim_tags_map := dim_tags_map_of all_dim_tags dim_tags_map_imp in
  eng_bind (eng_lift (remap_tags dim_tags_map dim_tags)) (fun new_tags =>
  eng_bind (perform OccSynchronize) (fun _ =>
  let sizes := default ∅ (mesh_size json) in
  let flow := default ∅ (workflow json) in
  eng_bind (perform (SetMeshing sizes new_tags flow)) (fun _ =>
  let metal_layers := get_metal_layers E (layers json) in
  eng_bind (eng_lift (emap excitation_of metal_layers)) (fun metal =>
  let excitations := set_iteration E (map snd metal) in
  eng_bind (eng_fold (excitation_boundary metal) excitations new_tags)
    (fun new_tags =>
  eng_bind (get_outer_bcs (bbox lay) default_beps) (fun outer =>
  let new_tags := dict_update new_tags outer in
  eng_bind (eng_map (physical_group (apply_elmer_layer_prefix E)) new_tags)
    (fun _ => eng_ret tt))))))))))).

(** From the mesh generation to [gmsh.finalize()]. *)
Definition generate_and_save (json : mesh_config) (msh_file : string) : Eng unit :=
  eng_bind (perform (MeshGenerate 2)) (fun _ =>
  eng_bind (perform (OptimizeMesh (mesh_optimizer json))) (fun _ =>
  eng_bind (perform (GmshWrite msh_file)) (fun _ =>
  eng_bind (if truthy (default (PBool false)
                         (default ∅ (workflow json) !! "run_gmsh_gui"))
            then perform FltkRun else eng_ret tt) (fun _ =>
  perform GmshFinalize)))).

(** [produce_cross_section_mesh(json_data, msh_file)] *)
Definition produce_cross_section_mesh (E : mesh_helpers) (json : mesh_config)
    (msh_file : string) : Eng unit :=
  fun w =>
    if bool_decide (msh_file ∈ existing w) then (inr tt, w)
    else
      eng_bind (perform GmshInitialize) (fun _ =>
      eng_bind (build_model E json) (fun _ =>
      generate_and_save json msh_file)) w.

End cross_section_helpers.

(** * Reference notions used by the statements *)

(** A fresh session: nothing recorded, [Paste] answers with no names. *)
Definition fresh_editor : Editor :=
  {| trace := []; paste_reply := fun _ => [] |}.

(** The Python test [x == 0.0], the negation of the guard's [x != 0.0]. *)
Definition is_zero (x : pyval) : Prop := ne_float_zero x = false.

(** The Python test [x == 1.0]. *)
Definition is_one (x : number) : Prop := ne_float_one (of_number x) = false.

(** A polygon all of whose points coincide: its extent is zero along
    every axis. *)
Definition coincident (points : list (list pyval)) : Prop :=
  forall p q, In p points -> In q points -> p = q.

(** The part of a command argument that starts with the given tag: for
    [["NAME:X", ..., ["NAME:T", e1, ..., en], ...]] and tag [NAME:T]
    the entries [e1 ... en]. *)
Fixpoint tagged_entries (tag : string) (l : list pyval) : option (list pyval) :=
  match l with
  | [] => None
  | PList (PStr t :: entries) :: rest =>
      if String.eqb t tag then Some entries else tagged_entries tag rest
  | _ :: rest => tagged_entries tag rest
  end.

Definition command_section (tag : string) (c : call) : option (list pyval) :=
  match args c with
  | PList l :: _ => tagged_entries tag l
  | _ => None
  end.

(** The changed property a [ChangeProperty] call carries, by name:
    [Some v] when the call sets property [prop] to [v]. *)
Definition sets_property (prop : string) (c : call) : option pyval :=
  match c with
  | Call "ChangeProperty"
      [ PList [ PStr "NAME:AllTabs";
                PList [ PStr "NAME:Geometry3DAttributeTab"; _;
                        PList [ PStr "NAME:ChangedProps";
                                PList [ PStr p; PStr "Value:="; v ] ] ] ] ] =>
      if String.eqb p ("NAME:" +:+ prop) then Some v else None
  | _ => None
  end.

(** Glob matching as the specification words it: [*] stands for any
    substring, possibly empty; every other character stands for itself;
    the whole name is consumed. *)
Inductive wildcard_match : string -> string -> Prop :=
| wm_empty : wildcard_match "" ""
| wm_star (p s t : string) :
    wildcard_match p t -> wildcard_match (String "*" p) (s +:+ t)
| wm_char (c : ascii) (p s : string) :
    c <> "*"%char -> wildcard_match p s -> wildcard_match (String c p) (String c s).

(** The colour the specification gives for a dielectric solid of
    permittivity [eps]: phases [n - k*pi/3] for [k = 1, 0, -1]. *)
Definition specified_solid_color (eps : R) : list Z * R :=
  let n := (0.3 * (eps - 1))%R in
  (map (fun k : Z => geometry.py_int (100 + 80 * cos (n - IZR k * PI / 3))) [1; 0; -1]%Z,
   Rpower 0.93 n).

(** A folder without any of the files the inductance part reads. *)
Definition inductance_inputs_absent (files : gmap string string) : Prop :=
  files !! "capacitance0.dat" = None
  /\ files !! "inductance.dat" = None
  /\ files !! "inductance.dat.0" = None
  /\ files !! "inductance.dat.names" = None.

(** Stand-ins for the external helpers, to run the definitions. *)
Definition sample_helpers (london : bool) : cross_section_helpers.elmer_helpers :=
  {| cross_section_helpers.sif_capacitance :=
       fun _ _ vtu_name _ _ with_zero =>
         "vtu " +:+ vtu_name +:+ (if with_zero then " with zero" else "");
     cross_section_helpers.sif_inductance := fun _ _ _ defs => "include " +:+ defs;
     cross_section_helpers.sif_circuit_definitions := fun _ => "circuits";
     cross_section_helpers.use_london_equations := fun _ => london |}.

Definition sample_numerics : cross_section_helpers.numerics :=
  {| cross_section_helpers.read_csv := fun _ => inr [[1%float]];
     cross_section_helpers.london_inductance := fun m _ _ => inr m;
     cross_section_helpers.inverse_inductance := fun m => inr m |}.

Definition sample_json (names : list string) (inductance : bool)
    : cross_section_helpers.json_data :=
  {| cross_section_helpers.sif_names := names;
     cross_section_helpers.run_inductance_sim := inductance;
     cross_section_helpers.other_entries := ∅ |}.

(** The call that precedes the material change when [solve_inside] is given. *)
Definition solve_inside_calls (objects : list string) (solve_inside : option bool)
    : list call :=
  match solve_inside with
  | Some b => [Call "ChangeProperty" (geometry.changed_prop objects (geometry.prop_solve_inside b))]
  | None => []
  end.

(** Material tables to run [color_by_material] on. *)
Definition silicon_dict : gmap string (gmap string R) :=
  {[ "silicon" := {[ "permittivity" := 11.45%R ]} ]}.

Definition labelled_pec_dict : gmap string (gmap string R) :=
  {[ "pec" := {[ "permittivity" := 11.45%R ]} ]}.

Definition copper_dict : gmap string (gmap string R) :=
  {[ "copper" := {[ "conductivity" := 58000000%R ]} ]}.

(** A folder that holds the capacitance output only. *)
Definition capacitance_only_folder : gmap string string :=
  {[ "capacitance.dat" := "1.0" ]}.

(** The compiled form of a glob: one starred dot for each [*], one
    literal for each other character. *)
Definition glob_item (c : ascii) : re.item :=
  if Ascii.eqb c "*" then re.IStar re.ADot else re.IOne (re.ALit c).

Definition glob_items (p : string) : list re.item :=
  map glob_item (list_ascii_of_string p).

(** The regular expression text a glob turns into, character by character. *)
Definition glob_piece (c : ascii) : string :=
  if Ascii.eqb c "*" then ".*"
  else if re.is_special c then String "\" (String c "")
  else String c "".

Fixpoint glob_regex (p : string) : string :=
  match p with
  | EmptyString => EmptyString
  | String c rest => glob_piece c +:+ glob_regex rest
  end.

Definition glob_tokens (c : ascii) : list re.token :=
  if Ascii.eqb c "*" then [re.TChar "."; re.TChar "*"]
  else if re.is_special c then [re.TEsc c]
  else [re.TChar c].

Definition glob_token_list (p : string) : list re.token :=
  flat_map glob_tokens (list_ascii_of_string p).

(** Names without a line break. *)
Fixpoint newline_free (s : string) : bool :=
  match s with
  | EmptyString => true
  | String c rest => negb (Ascii.eqb c re.newline) && newline_free rest
  end.

(** A name that ends in a line break, and one with a line break inside. *)
Definition abc_newline : string := "abc" +:+ String re.newline "".

Definition a_newline_c : string := "a" +:+ String re.newline "c".

(** Reading a decimal numeral back: digits from the left, an optional
    leading minus sign. *)
Definition digit_value (c : ascii) : N := (N.of_nat (nat_of_ascii c) - 48)%N.

Fixpoint decimal_value_from (acc : N) (s : string) : N :=
  match s with
  | EmptyString => acc
  | String c rest => decimal_value_from (10 * acc + digit_value c) rest
  end.

Definition decimal_value (s : string) : Z :=
  match s with
  | EmptyString => 0%Z
  | String c rest =>
      if Ascii.eqb c "-" then (- Z.of_N (decimal_value_from 0 rest))%Z
      else Z.of_N (decimal_value_from 0 s)
  end.

(** Patterns without a wildcard. *)
Fixpoint star_free (p : string) : bool :=
  match p with
  | EmptyString => true
  | String c rest => negb (Ascii.eqb c "*") && star_free rest
  end.

(** Values made of strings only, at any depth. *)
Fixpoint is_formatted (v : pyval) : bool :=
  match v with
  | PStr _ => true
  | PList l => forallb is_formatted l
  | _ => false
  end.

(** The nesting of a value: its lists, with every leaf forgotten. *)
Fixpoint shape (v : pyval) : pyval :=
  match v with
  | PList l => PList (map shape l)
  | _ => PNone
  end.

(** A line break, as a string. *)
Definition line_break : string := String re.newline "".

(** No call, or one call of the given method. *)
Definition at_most_one_call (m : string) (cs : list call) : Prop :=
  cs = [] \/ exists a, cs = [Call m a].

(** Reading the destination layers back from the two lists [add_layer]
    fills. *)
Definition layer_map_dest (v : pyval) : option string :=
  match v with
  | PList [PStr "NAME:LayerMapInfo"; _; _; PStr "DestLayer:="; PStr d; _; _] => Some d
  | _ => None
  end.

Definition order_map_dest (v : pyval) : option string :=
  match v with
  | PList [PStr "order:="; _; PStr "layer:="; PStr d] => Some d
  | _ => None
  end.

(** A flat list read two by two. *)
Fixpoint pairs_of (l : list pyval) : list (pyval * pyval) :=
  match l with
  | k :: v :: rest => (k, v) :: pairs_of rest
  | _ => []
  end.

(** A material is drawn as a conductor when it is named [pec] or has a
    conductivity above zero: the test [color_by_material] begins with. *)
Definition drawn_as_conductor (material : string)
    (material_dict : gmap string (gmap string R)) : bool :=
  bool_decide (material = "pec")
  || geometry.gt (geometry.material_property material_dict material "conductivity" 0) 0.

(** Numeric calls that fail to parse. *)
Definition failing_numerics : cross_section_helpers.numerics :=
  {| cross_section_helpers.read_csv := fun _ => inl (OtherError "ParserError");
     cross_section_helpers.london_inductance := fun m _ _ => inr m;
     cross_section_helpers.inverse_inductance := fun m => inr m |}.

(** A names file as the solver writes it, and one with a malformed line. *)
Definition sample_names : string :=
  "Variables in columns of matrix:" +:+ line_break
  +:+ "   1: res: v_component(1) re" +:+ line_break
  +:+ "   2: res: v_component(1) im" +:+ line_break.

Definition malformed_names : string := "   1: res:v_component(1) re" +:+ line_break.

(** The calls that build the model, between [gmsh.initialize()] and the
    mesh generation. *)
Definition building (c : cross_section_helpers.mesh_call) : bool :=
  match c with
  | cross_section_helpers.ModelAdd _
  | cross_section_helpers.AddPolygon _
  | cross_section_helpers.OccCut _ _
  | cross_section_helpers.OccFragment _ _ _
  | cross_section_helpers.OccSynchronize
  | cross_section_helpers.SetMeshing _ _ _
  | cross_section_helpers.GetRecursiveChildren _
  | cross_section_helpers.GetEntitiesInBoundingBox _ _ _ _ _ _ _
  | cross_section_helpers.AddPhysicalGroup _ _ _ => true
  | _ => false
  end.

(** A computation that only adds model-building calls: the paths that
    exist and the engine's answers stay as they were. *)
Definition only_builds {A : Type} (m : cross_section_helpers.Eng A) : Prop :=
  forall w, exists cs,
    snd (m w)
    = {| cross_section_helpers.calls := cross_section_helpers.calls w ++ cs;
         cross_section_helpers.existing := cross_section_helpers.existing w;
         cross_section_helpers.engine := cross_section_helpers.engine w |}
    /\ forallb building cs = true.

(** The group a dictionary entry gives rise to. *)
Definition group_call (prefix : string -> string)
    (entry : string * list cross_section_helpers.dimtag)
    : cross_section_helpers.mesh_call :=
  cross_section_helpers.AddPhysicalGroup
    (cross_section_helpers.max_dim (snd entry)) (map snd (snd entry))
    (prefix (fst entry)).

(** The key under which the boundary of an excitation is stored. *)
Definition excitation_key (e : Z) : string :=
  "excitation_" +:+ str_int e +:+ "_boundary".

(** The flag [workflow.get("run_gmsh_gui", False)]. *)
Definition gui_requested (json : cross_section_helpers.mesh_config) : bool :=
  cross_section_helpers.truthy
    (default (PBool false)
       (default ∅ (cross_section_helpers.workflow json) !! "run_gmsh_gui")).

(** A layout with one square with a square hole on layer 1, and a world
    in which the engine gives every new surface the tag 7. *)
Definition sample_layout : cross_section_helpers.layout :=
  {| cross_section_helpers.dbu := 0.5%float;
     cross_section_helpers.bbox :=
       {| cross_section_helpers.p1x := 0%float; cross_section_helpers.p1y := 0%float;
          cross_section_helpers.p2x := 5%float; cross_section_helpers.p2y := 5%float |};
     cross_section_helpers.shapes := fun n =>
       if (n =? 1)%Z then
         [ {| cross_section_helpers.hull := [(0, 0); (10, 0); (10, 10); (0, 10)]%Z;
              cross_section_helpers.holes := [ [(2, 2); (4, 2); (4, 4); (2, 4)]%Z ] |} ]
       else [] |}.

Definition sample_mesh_helpers : cross_section_helpers.mesh_helpers :=
  {| cross_section_helpers.read_layout := fun _ => inr sample_layout;
     cross_section_helpers.get_metal_layers :=
       List.filter (fun entry =>
         match cross_section_helpers.excitation (snd entry) with
         | Some _ => true
         | None => false
         end);
     cross_section_helpers.apply_elmer_layer_prefix := fun name => "elmer_" +:+ name;
     cross_section_helpers.set_iteration := fun l => l |}.

Definition unreadable_mesh_helpers : cross_section_helpers.mesh_helpers :=
  {| cross_section_helpers.read_layout := fun _ => inl FileNotFoundError;
     cross_section_helpers.get_metal_layers := fun l => l;
     cross_section_helpers.apply_elmer_layer_prefix := fun name => name;
     cross_section_helpers.set_iteration := fun l => l |}.

Definition sample_oracle : cross_section_helpers.oracle :=
  {| cross_section_helpers.add_polygon_reply := fun _ => 7%Z;
     cross_section_helpers.cut_reply := fun _ => [(2, 7)]%Z;
     cross_section_helpers.fragment_reply := fun _ => [[(2, 7)]]%Z;
     cross_section_helpers.children_reply := fun _ => [(1, 3); (0, 4)]%Z;
     cross_section_helpers.bbox_reply := fun _ => [(1, 3)]%Z |}.

Definition sample_world : cross_section_helpers.World :=
  {| cross_section_helpers.calls := [];
     cross_section_helpers.existing := ∅;
     cross_section_helpers.engine := sample_oracle |}.

Definition sample_mesh_config : cross_section_helpers.mesh_config :=
  {| cross_section_helpers.gds_file := "cross_section.oas";
     cross_section_helpers.layers :=
       [ ("signal", {| cross_section_helpers.layer := 1%Z;
                       cross_section_helpers.excitation := Some 1%Z |}) ];
     cross_section_helpers.mesh_size := None;
     cross_section_helpers.workflow := None;
     cross_section_helpers.mesh_optimizer := None |}.

(** A computation whose exceptions all satisfy [P]. *)
Definition raises_only {A : Type} (P : exn -> Prop)
    (m : cross_section_helpers.Eng A) : Prop :=
  forall w e, fst (m w) = inl e -> P e.

(** The calls from the mesh generation to [gmsh.finalize()]. *)
Definition closing_calls (json : cross_section_helpers.mesh_config)
    (msh_file : string) : list cross_section_helpers.mesh_call :=
  [ cross_section_helpers.MeshGenerate 2;
    cross_section_helpers.OptimizeMesh (cross_section_helpers.mesh_optimizer json);
    cross_section_helpers.GmshWrite msh_file ]
  ++ (if gui_requested json then [cross_section_helpers.FltkRun] else [])
  ++ [cross_section_helpers.GmshFinalize].

(** A file system on which no call of the writer raises. *)
Definition reliable : cross_section_helpers.file_system :=
  {| cross_section_helpers.mkdir_raises := fun _ _ => None;
     cross_section_helpers.open_raises := fun _ _ _ => None |}.

(** A file system on which a name that holds a slash cannot be opened: the
    folder has no sub-directories. *)
Definition without_sub_directories : cross_section_helpers.file_system :=
  {| cross_section_helpers.mkdir_raises := fun _ _ => None;
     cross_section_helpers.open_raises :=
       fun _ _ name => if text.contains "/" name then Some FileNotFoundError else None |}.



(** A text without its line breaks. *)
Fixpoint without_line_breaks (s : string) : string :=
  match s with
  | EmptyString => EmptyString
  | String c rest =>
      if Ascii.eqb c re.newline then without_line_breaks rest
      else String c (without_line_breaks rest)
  end.

(** The column name a line of the names file gives: what stands between
    the first [res: ] of the line and the next one, or the end of the line
    when there is no other, without line breaks. *)
Definition names_column (line name : string) : Prop :=
  exists before piece rest,
    line = before +:+ "res: " +:+ piece +:+ rest
    /\ text.contains "res: " before = false
    /\ text.contains "res: " piece = false
    /\ (rest = "" \/ String.prefix "res: " rest = true)
    /\ name = without_line_breaks piece.

(** The tags of the layers after the fragmentation, read off its reply:
    the entries of the reply are taken layer by layer, one for each entity
    the layer had, and joined. *)
Fixpoint regroup (dim_tags : cross_section_helpers.tagdict)
    (imp : list (list cross_section_helpers.dimtag)) : cross_section_helpers.tagdict :=
  match dim_tags with
  | [] => []
  | (name, tags) :: rest =>
      (name, concat (take (length tags) imp)) :: regroup rest (drop (length tags) imp)
  end.

(** Three times the origin. *)
Definition origin_polygon : list (list pyval) :=
  [ [PInt 0; PInt 0; PInt 0]; [PInt 0; PInt 0; PInt 0]; [PInt 0; PInt 0; PInt 0] ].

(** A triangle in the plane [z = 0]. *)
Definition triangle : list (list pyval) :=
  [ [PInt 0; PInt 0; PInt 0]; [PInt 10; PInt 0; PInt 0]; [PInt 0; PInt 5; PInt 0] ].

(** Case analysis on the 256 characters, by computation. *)
Ltac by_cases_on_ascii c :=
  destruct c as [[] [] [] [] [] [] [] []]; vm_compute; intros;
  first [reflexivity | discriminate | congruence].

(** * Properties *)

(** ** The session monad *)

Section SessionFacts.

Context {A : Type}.

Lemma issued_unchanged (m : Cmd A) (ed : Editor) (r : exn + A) :
  m ed = (r, ed) -> issued m ed = [].
Proof.
  intros E. unfold issued. rewrite E. simpl. apply drop_all.
Qed.

Lemma issued_recorded (m : Cmd A) (ed : Editor) (r : exn + A) (cs : list call) :
  m ed = (r, {| trace := trace ed ++ cs; paste_reply := paste_reply ed |}) ->
  issued m ed = cs.
Proof.
  intros E. unfold issued. rewrite E. simpl. apply drop_app_length.
Qed.

End SessionFacts.

Lemma invoke_run (name : string) (a : list pyval) (ed : Editor) :
  invoke name a ed = (inr tt, record_call (Call name a) ed).
Proof. reflexivity. Qed.

Lemma objects_guard_empty : negb (bool_decide (@nil string = [])) = false.
Proof. reflexivity. Qed.

Lemma objects_guard_nonempty (objects : list string) :
  objects <> [] -> negb (bool_decide (objects = [])) = true.
Proof.
  intros Hne. rewrite bool_decide_eq_false_2; [reflexivity | exact Hne].
Qed.

(** ** Guards of the transforms *)

(** C5. With an empty object list, [thicken_sheet], [move_vertically],
    [scale], [copy_paste], [delete], [subtract] and [unite] leave the
    session as it was (no call is recorded) and return normally;
    [copy_paste] then returns the empty list. The same holds for [scale]
    with a factor equal to [1.0] and for [unite] with fewer than two
    objects, whatever the object list. *)
Theorem transforms_without_work_issue_no_call
    (ed : Editor) (thickness z_shift factor : number) (units : string)
    (objects tool_objects : list string) (keep_originals : bool) :
  geometry.thicken_sheet [] thickness units ed = (inr tt, ed)
  /\ geometry.move_vertically [] z_shift units ed = (inr tt, ed)
  /\ geometry.scale [] factor ed = (inr tt, ed)
  /\ geometry.copy_paste [] ed = (inr [], ed)
  /\ geometry.delete [] ed = (inr tt, ed)
  /\ geometry.subtract [] tool_objects keep_originals ed = (inr tt, ed)
  /\ geometry.unite [] keep_originals ed = (inr tt, ed)
  /\ (is_one factor -> geometry.scale objects factor ed = (inr tt, ed))
  /\ (length objects < 2 -> geometry.unite objects keep_originals ed = (inr tt, ed)).
Proof.
  repeat split; try reflexivity.
  - intros Hone. unfold geometry.scale. unfold is_one in Hone.
    rewrite Hone, andb_false_r. reflexivity.
  - intros Hlen. unfold geometry.unite.
    destruct (Nat.ltb_spec 1 (length objects)) as [Hgt | _]; [lia | reflexivity].
Qed.

Lemma transforms_without_work_issue_no_call_witness :
  geometry.scale ["box1"; "box2"] (NFloat (PyFloat 1%float "1.0")) fresh_editor
    = (inr tt, fresh_editor)
  /\ geometry.unite ["box1"] false fresh_editor = (inr tt, fresh_editor).
Proof.
  pose proof (transforms_without_work_issue_no_call fresh_editor
                (NInt 0) (NInt 0) (NFloat (PyFloat 1%float "1.0")) "um"
                ["box1"; "box2"] [] false) as H.
  pose proof (transforms_without_work_issue_no_call fresh_editor
                (NInt 0) (NInt 0) (NInt 1) "um" ["box1"] [] false) as H'.
  split.
  - apply H. reflexivity.
  - apply H'. simpl. lia.
Defined.

(** The second operand of [subtract] is guarded in the same way. *)
Lemma subtract_without_tools (objects : list string) (keep_originals : bool)
    (ed : Editor) :
  geometry.subtract objects [] keep_originals ed = (inr tt, ed).
Proof.
  unfold geometry.subtract. rewrite objects_guard_empty, andb_false_r. reflexivity.
Qed.

(** A zero thickness or shift is guarded like an empty list. *)
Lemma thicken_sheet_zero (objects : list string) (thickness : number)
    (units : string) (ed : Editor) :
  is_zero (of_number thickness) ->
  geometry.thicken_sheet objects thickness units ed = (inr tt, ed).
Proof.
  intros Hz. unfold geometry.thicken_sheet. unfold is_zero in Hz.
  rewrite Hz, andb_false_r. reflexivity.
Qed.

Lemma move_vertically_zero (objects : list string) (z_shift : number)
    (units : string) (ed : Editor) :
  is_zero (of_number z_shift) ->
  geometry.move_vertically objects z_shift units ed = (inr tt, ed).
Proof.
  intros Hz. unfold geometry.move_vertically. unfold is_zero in Hz.
  rewrite Hz, andb_false_r. reflexivity.
Qed.

(** With work to do, each transform records exactly one call ([copy_paste]
    two: [Copy], then [Paste]). *)
Lemma unite_issues_one_call (objects : list string) (keep_originals : bool)
    (ed : Editor) :
  2 <= length objects ->
  exists a, issued (geometry.unite objects keep_originals) ed = [Call "Unite" a].
Proof.
  intros Hlen. unfold geometry.unite.
  destruct (Nat.ltb_spec 1 (length objects)) as [_ | Hle]; [| lia].
  eexists. apply (issued_recorded _ _ (inr tt)). reflexivity.
Qed.

Lemma copy_paste_issues_copy_then_paste (objects : list string) (ed : Editor) :
  objects <> [] ->
  exists a,
    issued (geometry.copy_paste objects) ed = [Call "Copy" a; Call "Paste" []]
    /\ outcome (geometry.copy_paste objects) ed
       = inr (paste_reply ed (trace ed ++ [Call "Copy" a])).
Proof.
  intros Hne. unfold geometry.copy_paste.
  rewrite (objects_guard_nonempty _ Hne).
  eexists. split.
  - unfold issued, Session.bind, invoke, invoke_paste, record_call. simpl.
    rewrite <- app_assoc. apply drop_app_length.
  - reflexivity.
Qed.

(** ** Shape creators *)

Lemma create_polygon_run (name : string) (points : list (list pyval))
    (units : string) (a : list pyval) (ed : Editor) :
  geometry.polyline_args name points units = inr a ->
  geometry.create_polygon name points units ed
  = (inr tt, record_call (Call "CreatePolyline" a) ed).
Proof.
  intros Ha. unfold geometry.create_polygon, Session.bind. rewrite Ha. reflexivity.
Qed.

Lemma create_polygon_raises (name : string) (points : list (list pyval))
    (units : string) (e : exn) (ed : Editor) :
  geometry.polyline_args name points units = inl e ->
  geometry.create_polygon name points units ed = (inl e, ed).
Proof.
  intros Ha. unfold geometry.create_polygon, Session.bind. rewrite Ha. reflexivity.
Qed.

(** C1, as the code has it. [create_rectangle] records no call and returns
    normally when the width or the height equals zero, and so does
    [create_box] when one of its three sizes equals zero. [create_polygon]
    has no such guard: once its argument lists are built, it records one
    [CreatePolyline] call, whatever the extent of the polygon. *)
Theorem zero_dimension_guards
    (ed : Editor) (name : string) (x y z w h sx sy sz : pyval)
    (axis units : string) (points : list (list pyval)) (a : list pyval) :
  ((is_zero w \/ is_zero h) ->
     geometry.create_rectangle name x y z w h axis units ed = (inr tt, ed))
  /\ ((is_zero sx \/ is_zero sy \/ is_zero sz) ->
        geometry.create_box name x y z sx sy sz units ed = (inr tt, ed))
  /\ (geometry.polyline_args name points units = inr a ->
        issued (geometry.create_polygon name points units) ed
        = [Call "CreatePolyline" a]).
Proof.
  unfold is_zero. repeat split.
  - intros [Hz | Hz]; unfold geometry.create_rectangle; rewrite Hz;
      [| rewrite andb_false_r]; reflexivity.
  - intros [Hz | [Hz | Hz]]; unfold geometry.create_box; rewrite Hz;
      rewrite ?andb_false_r; reflexivity.
  - intros Ha. apply (issued_recorded _ _ (inr tt)).
    rewrite (create_polygon_run _ _ _ _ _ Ha). reflexivity.
Qed.

Lemma zero_dimension_guards_witness :
  geometry.create_rectangle "gap" (PInt 1) (PInt 2) (PInt 0)
    (PFloat (PyFloat 0%float "0.0")) (PInt 7) "Z" "um" fresh_editor
  = (inr tt, fresh_editor)
  /\ geometry.create_box "vacuum" (PInt 1) (PInt 2) (PInt 0)
       (PInt 5) (PInt 5) (PFloat (PyFloat (-0)%float "-0.0")) "um" fresh_editor
     = (inr tt, fresh_editor)
  /\ exists a,
       issued (geometry.create_polygon "tri" triangle "um") fresh_editor
       = [Call "CreatePolyline" a].
Proof.
  split; [| split].
  - apply (zero_dimension_guards fresh_editor "gap" (PInt 1) (PInt 2) (PInt 0)
             (PFloat (PyFloat 0%float "0.0")) (PInt 7)
             (PInt 5) (PInt 5) (PInt 5) "Z" "um" [] []).
    left. reflexivity.
  - apply (zero_dimension_guards fresh_editor "vacuum" (PInt 1) (PInt 2) (PInt 0)
             (PInt 1) (PInt 1)
             (PInt 5) (PInt 5) (PFloat (PyFloat (-0)%float "-0.0"))
             "Z" "um" [] []).
    right. right. reflexivity.
  - eexists.
    apply (zero_dimension_guards fresh_editor "tri" (PInt 0) (PInt 0) (PInt 0)
             (PInt 0) (PInt 0) (PInt 0) (PInt 0) (PInt 0) "Z" "um" triangle).
    reflexivity.
Defined.

(** C1, as stated, fails for [create_polygon]: a polygon whose points all
    coincide has zero extent in every direction, and the call is recorded
    all the same. *)
Lemma create_polygon_zero_extent_still_calls :
  coincident origin_polygon
  /\ Forall (Forall is_zero) origin_polygon
  /\ issued (geometry.create_polygon "dot" origin_polygon "um") fresh_editor <> [].
Proof.
  unfold origin_polygon. split; [| split].
  - intros p q Hp Hq. simpl in Hp, Hq.
    destruct Hp as [<- | [<- | [<- | []]]]; destruct Hq as [<- | [<- | [<- | []]]];
      reflexivity.
  - repeat constructor.
  - vm_compute. discriminate.
Qed.

(** What counts as zero for the guards: the integer [0], a float equal to
    [0.0] (of either sign), and [False]. *)
Lemma is_zero_cases (x : pyval) :
  is_zero x <->
  match x with
  | PInt z => z = 0%Z
  | PFloat f => PrimFloat.eqb (fval f) 0%float = true
  | PBool b => b = false
  | _ => False
  end.
Proof.
  unfold is_zero. destruct x as [| b | z | f | s | l]; simpl; try (split; [discriminate | tauto]).
  - reflexivity.
  - rewrite negb_false_iff. apply Z.eqb_eq.
  - apply negb_false_iff.
Qed.

(** A NaN is not zero: the guard lets it through. *)
Example create_rectangle_nan_width :
  length (issued (geometry.create_rectangle "r" (PInt 0) (PInt 0) (PInt 0)
                    (PFloat (PyFloat nan "nan")) (PInt 1) "Z" "um") fresh_editor) = 1.
Proof. reflexivity. Qed.

(** With both sizes different from zero the rectangle is requested. *)
Lemma create_rectangle_issues_one_call
    (ed : Editor) (name : string) (x y z w h : pyval) (axis units : string) :
  ne_float_zero w = true -> ne_float_zero h = true ->
  exists a,
    issued (geometry.create_rectangle name x y z w h axis units) ed
    = [Call "CreateRectangle" a].
Proof.
  intros Hw Hh. unfold geometry.create_rectangle. rewrite Hw, Hh. simpl.
  eexists. apply (issued_recorded _ _ (inr tt)). reflexivity.
Qed.

(** ** Comprehensions that may raise *)

Section Emap.

Context {A B : Type} (f : A -> exn + B).

Lemma emap_inr_Forall2 (l : list A) (r : list B) :
  emap f l = inr r -> Forall2 (fun a b => f a = inr b) l r.
Proof.
  revert r. induction l as [| a l IH]; intros r E; simpl in E.
  - injection E as <-. constructor.
  - destruct (f a) as [e | b] eqn:Fa; simpl in E; [discriminate |].
    destruct (emap f l) as [e | bs] eqn:Fl; simpl in E; [discriminate |].
    injection E as <-. constructor; [exact Fa | apply IH; reflexivity].
Qed.

Lemma emap_length (l : list A) (r : list B) :
  emap f l = inr r -> length r = length l.
Proof.
  intros E. symmetry. exact (Forall2_length _ _ _ (emap_inr_Forall2 _ _ E)).
Qed.

Lemma emap_lookup (l : list A) (r : list B) (i : nat) (a : A) :
  emap f l = inr r -> l !! i = Some a -> exists b, r !! i = Some b /\ f a = inr b.
Proof.
  intros E Hi.
  destruct (Forall2_lookup_l _ _ _ _ _ (emap_inr_Forall2 _ _ E) Hi) as [b [Hb Fb]].
  exists b. split; assumption.
Qed.

Lemma emap_total (l : list A) :
  Forall (fun a => exists b, f a = inr b) l -> exists r, emap f l = inr r.
Proof.
  induction 1 as [| a l [b Fa] _ [r IH]]; simpl.
  - exists []. reflexivity.
  - exists (b :: r). rewrite Fa, IH. reflexivity.
Qed.

End Emap.

Lemma getitem_inr {A : Type} (l : list A) (i : nat) (x : A) :
  getitem l i = inr x <-> l !! i = Some x.
Proof.
  unfold getitem. destruct (l !! i); split; intros E; inversion E; reflexivity.
Qed.

Lemma PLPoint_total (p : list pyval) (units : string) :
  3 <= length p -> exists e, geometry.PLPoint p units = inr e.
Proof.
  intros Hlen. destruct p as [| x [| y [| z p]]]; simpl in Hlen; try lia.
  eexists. reflexivity.
Qed.

Lemma polyline_args_total (name : string) (points : list (list pyval))
    (units : string) :
  points <> [] -> Forall (fun p => 3 <= length p) points ->
  exists a, geometry.polyline_args name points units = inr a.
Proof.
  intros Hne Hwf. destruct points as [| first rest]; [congruence |].
  unfold geometry.polyline_args. change (getitem (first :: rest) 0) with (@inr exn _ first).
  cbn [ebind].
  destruct (emap_total (fun p => geometry.PLPoint p units) ((first :: rest) ++ [first]))
    as [pts Hpts].
  - apply Forall_app. split.
    + eapply Forall_impl; [exact Hwf |]. intros p Hp. apply PLPoint_total, Hp.
    + constructor; [| constructor]. apply PLPoint_total.
      apply (Forall_inv Hwf).
  - rewrite Hpts. eexists. reflexivity.
Qed.

Lemma PLPoint_entry (p : list pyval) (units : string) (e : pyval) :
  geometry.PLPoint p units = inr e ->
  exists x y z,
    p !! 0 = Some x /\ p !! 1 = Some y /\ p !! 2 = Some z
    /\ e = PList [ PStr "NAME:PLPoint";
                   PStr "X:="; geometry.format_position x units;
                   PStr "Y:="; geometry.format_position y units;
                   PStr "Z:="; geometry.format_position z units ].
Proof.
  destruct p as [| x [| y [| z p]]]; intros E; try discriminate E.
  injection E as <-. exists x, y, z. repeat split; reflexivity.
Qed.

(** C10. For a non-empty point list, any [CreatePolyline] command that
    [create_polygon] records lists [len(points) + 1] point entries and
    [len(points)] line segments. Point entry [i] is
    [["NAME:PLPoint", "X:=", x, "Y:=", y, "Z:=", z]] with the formatted
    first three coordinates of [points[i]], and the last entry is the one of
    [points[0]] again: the polyline is closed. Segment [i] is
    [["NAME:PLSegment", "SegmentType:=", "Line", "StartIndex:=", i,
    "NoOfPoints:=", 2]]. When every point has its three coordinates the
    command is recorded, and it is the only one. *)
Theorem create_polygon_closes_polyline
    (ed : Editor) (name : string) (points : list (list pyval)) (units : string) :
  points <> [] ->
  (forall c, In c (issued (geometry.create_polygon name points units) ed) ->
     meth c = "CreatePolyline"
     /\ (exists entries,
           command_section "NAME:PolylinePoints" c = Some entries
           /\ length entries = length points + 1
           /\ (forall i p, points !! i = Some p ->
                 exists x y z,
                   p !! 0 = Some x /\ p !! 1 = Some y /\ p !! 2 = Some z
                   /\ entries !! i
                      = Some (PList [ PStr "NAME:PLPoint";
                                      PStr "X:="; geometry.format_position x units;
                                      PStr "Y:="; geometry.format_position y units;
                                      PStr "Z:="; geometry.format_position z units ]))
           /\ entries !! length points = entries !! 0)
     /\ (exists segments,
           command_section "NAME:PolylineSegments" c = Some segments
           /\ length segments = length points
           /\ (forall i, i < length points ->
                 segments !! i
                 = Some (PList [ PStr "NAME:PLSegment";
                                 PStr "SegmentType:="; PStr "Line";
                                 PStr "StartIndex:="; PInt (Z.of_nat i);
                                 PStr "NoOfPoints:="; PInt 2 ]))))
  /\ (Forall (fun p => 3 <= length p) points ->
        exists c, issued (geometry.create_polygon name points units) ed = [c]).
Proof.
  intros Hne. split.
  - intros c Hc.
    destruct (geometry.polyline_args name points units) as [e | a] eqn:Ha.
    + rewrite (issued_unchanged _ _ _ (create_polygon_raises _ _ _ _ ed Ha)) in Hc.
      destruct Hc.
    + rewrite (issued_recorded _ _ (inr tt) [Call "CreatePolyline" a]) in Hc
        by (rewrite (create_polygon_run _ _ _ _ _ Ha); reflexivity).
      destruct Hc as [<- | []].
      unfold geometry.polyline_args in Ha.
      destruct points as [| first rest]; [congruence |].
      change (getitem (first :: rest) 0) with (@inr exn _ first) in Ha.
      cbn [ebind] in Ha.
      destruct (emap (fun p => geometry.PLPoint p units) ((first :: rest) ++ [first]))
        as [e | entries] eqn:Hentries; cbn [ebind] in Ha; [discriminate |].
      injection Ha as <-.
      split; [reflexivity |]. split.
      * exists entries. split; [reflexivity |].
        pose proof (emap_length _ _ _ Hentries) as Hlen.
        rewrite length_app in Hlen. simpl length in Hlen.
        split; [simpl length; lia |]. split.
        -- intros i p Hi.
           destruct (emap_lookup _ _ _ i p Hentries) as [e [He Fe]].
           { apply lookup_app_l_Some. exact Hi. }
           destruct (PLPoint_entry _ _ _ Fe) as (x & y & z & Hx & Hy & Hz & ->).
           exists x, y, z. auto.
        -- destruct (emap_lookup _ _ _ 0 first Hentries) as [e0 [H0 F0]];
             [reflexivity |].
           destruct (emap_lookup _ _ _ (length (first :: rest)) first Hentries)
             as [e1 [H1 F1]].
           { rewrite lookup_app_r by lia. rewrite Nat.sub_diag. reflexivity. }
           rewrite H0, H1. congruence.
      * exists (map geometry.PLSegment (seq 0 (length (first :: rest)))).
        split; [reflexivity |]. split.
        -- rewrite length_map, length_seq. reflexivity.
        -- intros i Hi. rewrite list_lookup_fmap.
           rewrite lookup_seq_lt by exact Hi. reflexivity.
  - intros Hwf. destruct (polyline_args_total name points units Hne Hwf) as [a Ha].
    exists (Call "CreatePolyline" a).
    apply (issued_recorded _ _ (inr tt)).
    rewrite (create_polygon_run _ _ _ _ _ Ha). reflexivity.
Qed.

Lemma create_polygon_closes_polyline_witness :
  triangle <> []
  /\ exists c, issued (geometry.create_polygon "tri" triangle "um") fresh_editor = [c].
Proof.
  assert (Hne : triangle <> []) by discriminate.
  split; [exact Hne |].
  apply (proj2 (create_polygon_closes_polyline fresh_editor "tri" triangle "um" Hne)).
  unfold triangle. repeat constructor; simpl; lia.
Defined.

(** The command for the triangle, read back. *)
Example create_polygon_triangle_sections :
  forall c, issued (geometry.create_polygon "tri" triangle "um") fresh_editor = [c] ->
    length <$> command_section "NAME:PolylinePoints" c = Some 4
    /\ length <$> command_section "NAME:PolylineSegments" c = Some 3.
Proof.
  intros c Hc. vm_compute in Hc. injection Hc as <-. split; reflexivity.
Qed.

(** ** Materials *)

Lemma set_material_issued (objects : list string) (material : option string)
    (solve_inside : option bool) (ed : Editor) :
  objects <> [] ->
  issued (geometry.set_material objects material solve_inside) ed
  = solve_inside_calls objects solve_inside
    ++ [Call "ChangeProperty"
          (geometry.changed_prop objects
             match material with
             | Some m => geometry.prop_material m
             | None => geometry.prop_model false
             end)].
Proof.
  intros Hne. apply (issued_recorded _ _ (inr tt)).
  unfold geometry.set_material. rewrite (objects_guard_nonempty _ Hne).
  destruct solve_inside as [b |], material as [m |];
    unfold Session.bind, invoke, ret, record_call; simpl;
    rewrite <- ?app_assoc; reflexivity.
Qed.

Lemma sets_property_changed_prop (objects : list string) (p prop : string) (v : pyval) :
  sets_property prop
    (Call "ChangeProperty"
       (geometry.changed_prop objects (PList [PStr p; PStr "Value:="; v])))
  = if String.eqb p ("NAME:" +:+ prop) then Some v else None.
Proof. reflexivity. Qed.

(** C9. For a non-empty object list, [set_material] with [material=None]
    ends with a [ChangeProperty] call that sets the objects' [Model]
    property to [False], and none of its calls sets [Material]. With a
    material [m] it ends instead with the call that sets [Material] to the
    quoted name, and none of its calls sets [Model]. *)
Theorem set_material_none_excludes_from_model
    (objects : list string) (solve_inside : option bool) (m : string) (ed : Editor) :
  objects <> [] ->
  (exists c,
     last (issued (geometry.set_material objects None solve_inside) ed) = Some c
     /\ meth c = "ChangeProperty"
     /\ sets_property "Model" c = Some (PBool false)
     /\ In (PList (PStr "NAME:PropServers" :: map PStr objects))
          match args c with
          | [PList [_; PList tab]] => tab
          | _ => []
          end)
  /\ Forall (fun c => sets_property "Material" c = None)
       (issued (geometry.set_material objects None solve_inside) ed)
  /\ (exists c,
        last (issued (geometry.set_material objects (Some m) solve_inside) ed) = Some c
        /\ sets_property "Material" c
           = Some (PStr (String dquote m +:+ String dquote "")))
  /\ Forall (fun c => sets_property "Model" c = None)
       (issued (geometry.set_material objects (Some m) solve_inside) ed).
Proof.
  intros Hne. rewrite !(set_material_issued _ _ _ _ Hne).
  repeat split.
  - eexists. split; [apply last_snoc |].
    split; [reflexivity |]. split; [reflexivity |].
    simpl. right. left. reflexivity.
  - apply Forall_app. split.
    + destruct solve_inside; repeat constructor.
    + repeat constructor.
  - eexists. split; [apply last_snoc | reflexivity].
  - apply Forall_app. split.
    + destruct solve_inside; repeat constructor.
    + repeat constructor.
Qed.

Lemma set_material_none_excludes_from_model_witness :
  issued (geometry.set_material ["substrate"] None (Some true)) fresh_editor
  = [ Call "ChangeProperty"
        (geometry.changed_prop ["substrate"] (geometry.prop_solve_inside true));
      Call "ChangeProperty"
        (geometry.changed_prop ["substrate"] (geometry.prop_model false)) ]
  /\ Forall (fun c => sets_property "Material" c = None)
       (issued (geometry.set_material ["substrate"] None (Some true)) fresh_editor).
Proof.
  assert (Hne : ["substrate"] <> @nil string) by discriminate.
  split; [reflexivity |].
  exact (proj1 (proj2 (set_material_none_excludes_from_model
                         ["substrate"] (Some true) "silicon" fresh_editor Hne))).
Defined.

(** An empty object list is left alone, whatever the material. *)
Lemma set_material_without_objects (material : option string)
    (solve_inside : option bool) (ed : Editor) :
  geometry.set_material [] material solve_inside ed = (inr tt, ed).
Proof. reflexivity. Qed.

(** ** [format_position] *)

(** [str] of an integer is its decimal numeral: reading it back gives the
    integer. *)
Lemma decimal_value_pretty_go (x : N) :
  forall s, decimal_value_from 0 (pretty_N_go x s) = decimal_value_from x s.
Proof.
  induction (N.lt_wf_0 x) as [x _ IH]. intros s.
  destruct (decide (x = 0)%N) as [-> | Hx]; [reflexivity |].
  rewrite pretty_N_go_step by lia.
  rewrite IH by (apply N.div_lt; lia).
  cbn [decimal_value_from]. f_equal.
  assert (Hdigit : digit_value (pretty_N_char (x `mod` 10)%N) = (x `mod` 10)%N).
  { pose proof (N.mod_lt x 10 ltac:(lia)) as Hlt.
    destruct (x `mod` 10)%N as [| q] eqn:E; [reflexivity |].
    do 4 (destruct q as [q | q |]; try reflexivity; try lia). }
  rewrite Hdigit. symmetry. apply N.div_mod. lia.
Qed.

Lemma pretty_N_pos_head (q : positive) :
  match pretty (Npos q) with
  | EmptyString => True
  | String c _ => c <> "-"%char
  end.
Proof.
  unfold pretty, pretty_N. destruct (decide (N.pos q = 0)%N) as [Hq | _]; [lia |].
  destruct (pretty_N_go (N.pos q) "") as [| c rest] eqn:E; [exact I |].
  intros ->. exact (pretty_N_go_ne_dash (N.pos q) "" rest ltac:(discriminate) E).
Qed.

Lemma decimal_value_pretty_pos (q : positive) :
  decimal_value_from 0 (pretty (Npos q)) = Npos q.
Proof.
  unfold pretty, pretty_N. destruct (decide (N.pos q = 0)%N) as [Hq | _]; [lia |].
  apply decimal_value_pretty_go.
Qed.

Lemma str_int_decimal (z : Z) : decimal_value (str_int z) = z.
Proof.
  unfold str_int, pretty, pretty_Z. destruct z as [| q | q]; [reflexivity | |].
  - unfold decimal_value, pretty, pretty_positive.
    pose proof (pretty_N_pos_head q) as Hhead.
    pose proof (decimal_value_pretty_pos q) as Hval.
    destruct (pretty (N.pos q)) as [| c rest]; [discriminate Hval |].
    replace (Ascii.eqb c "-") with false by (symmetry; apply Ascii.eqb_neq, Hhead).
    rewrite Hval. reflexivity.
  - change ("-" +:+ pretty q) with (String "-" (pretty q)).
    unfold decimal_value. simpl Ascii.eqb. cbv iota.
    unfold pretty at 1, pretty_positive. rewrite decimal_value_pretty_pos.
    reflexivity.
Qed.

(** C7. [format_position] turns a bare number into its text followed by the
    unit (for an integer the decimal numeral, which reads back as the
    integer), returns a string as it is, and maps itself over the elements
    of a list, at any depth. *)
Theorem format_position_cases :
  (forall (z : Z) (units : string),
     geometry.format_position (PInt z) units = PStr (str_int z +:+ units))
  /\ (forall z : Z, decimal_value (str_int z) = z)
  /\ (forall (f : pyfloat) (units : string),
        geometry.format_position (PFloat f) units = PStr (frepr f +:+ units))
  /\ (forall (s units : string), geometry.format_position (PStr s) units = PStr s)
  /\ (forall (l : list pyval) (units : string),
        geometry.format_position (PList l) units
        = PList (map (fun p => geometry.format_position p units) l))
  /\ geometry.format_position (PInt 5) "um" = PStr "5um"
  /\ geometry.format_position (PList [PInt 1; PInt 2]) "um"
     = PList [PStr "1um"; PStr "2um"]
  /\ geometry.format_position (PStr "3um") "um" = PStr "3um"
  /\ geometry.format_position
       (PList [PList [PInt 1; PStr "2mm"]; PList [PList [PInt (-3)]]]) "um"
     = PList [PList [PStr "1um"; PStr "2mm"]; PList [PList [PStr "-3um"]]].
Proof.
  split; [reflexivity |]. split; [exact str_int_decimal |]. repeat split.
Qed.

(** The text of an integer determines it: two bare integers are formatted
    alike only if they are equal. *)
Lemma str_int_inj (z1 z2 : Z) : str_int z1 = str_int z2 -> z1 = z2.
Proof. unfold str_int. apply pretty_Z_inj. Qed.

(** Only strings are left after formatting, and the result is a fixed
    point: formatting twice changes nothing more. *)
Lemma format_position_idempotent (x : pyval) (units units' : string) :
  geometry.format_position (geometry.format_position x units) units'
  = geometry.format_position x units.
Proof.
  induction x as [| b | z | f | s | l IH] using pyval_ind; try reflexivity.
  simpl. f_equal. rewrite map_map. apply map_ext_Forall. exact IH.
Qed.

(** ** Colours *)

Lemma gt_true (x y : R) : (y < x)%R -> geometry.gt x y = true.
Proof. intros H. unfold geometry.gt. destruct (Rlt_dec y x); [reflexivity | contradiction]. Qed.

Lemma gt_false (x y : R) : (x <= y)%R -> geometry.gt x y = false.
Proof. intros H. unfold geometry.gt. destruct (Rlt_dec y x); [lra | reflexivity]. Qed.

Lemma material_property_entry (d : gmap string (gmap string R))
    (material key : string) (props : gmap string R) (dflt : R) :
  d !! material = Some props ->
  geometry.material_property d material key dflt = default dflt (props !! key).
Proof. intros E. unfold geometry.material_property. rewrite E. reflexivity. Qed.

Lemma material_property_missing (d : gmap string (gmap string R))
    (material key : string) (dflt : R) :
  d !! material = None -> geometry.material_property d material key dflt = dflt.
Proof.
  intros E. unfold geometry.material_property. rewrite E. simpl.
  rewrite lookup_empty. reflexivity.
Qed.

(** C6. Whatever the table, [color_by_material] returns (240, 120, 240, 0.5)
    for the material named [pec] and for every material whose conductivity
    entry is greater than zero; in particular for [pec] and the empty table. *)
Theorem conductors_get_highlight_color
    (material : string) (material_dict : gmap string (gmap string R))
    (is_sheet : bool) :
  (material = "pec"
   \/ exists props c,
        material_dict !! material = Some props
        /\ props !! "conductivity" = Some c /\ (0 < c)%R) ->
  geometry.color_by_material material material_dict is_sheet
  = ([240; 120; 240]%Z, 0.5%R)
  /\ geometry.color_by_material "pec" ∅ is_sheet = ([240; 120; 240]%Z, 0.5%R).
Proof.
  intros H. split; [| reflexivity].
  unfold geometry.color_by_material.
  destruct H as [-> | (props & c & Hm & Hc & Hpos)]; [reflexivity |].
  rewrite (material_property_entry _ _ _ _ _ Hm), Hc. simpl default.
  rewrite (gt_true _ _ Hpos), orb_true_r. reflexivity.
Qed.

Lemma conductors_get_highlight_color_witness :
  geometry.color_by_material "copper" copper_dict true = ([240; 120; 240]%Z, 0.5%R)
  /\ geometry.color_by_material "pec" ∅ true = ([240; 120; 240]%Z, 0.5%R).
Proof.
  apply conductors_get_highlight_color.
  right. exists {[ "conductivity" := 58000000%R ]}, 58000000%R.
  split; [apply lookup_singleton_eq |].
  split; [apply lookup_singleton_eq | lra].
Defined.

(** [int] drops the fraction: bounds that suffice to tell channels apart. *)
Lemma py_int_above (x : R) (k : Z) : (IZR k < x)%R -> (0 <= k)%Z -> (k <= geometry.py_int x)%Z.
Proof.
  intros Hx Hk. unfold geometry.py_int.
  assert (0 <= IZR k)%R by (apply IZR_le in Hk; exact Hk).
  destruct (Rle_dec 0 x) as [_ | Hneg]; [| lra].
  destruct (base_Int_part x) as [_ Hlow].
  assert (Hlt : (IZR k - 1 < IZR (Int_part x))%R) by lra.
  rewrite <- minus_IZR in Hlt. apply lt_IZR in Hlt. lia.
Qed.

Lemma py_int_below (x : R) (k : Z) : (0 <= x)%R -> (x < IZR k)%R -> (geometry.py_int x < k)%Z.
Proof.
  intros H0 Hx. unfold geometry.py_int.
  destruct (Rle_dec 0 x) as [_ | Hneg]; [| lra].
  destruct (base_Int_part x) as [Hup _].
  apply lt_IZR. lra.
Qed.

Lemma py_int_at_most (x : R) (k : Z) : (0 <= x)%R -> (x <= IZR k)%R -> (geometry.py_int x <= k)%Z.
Proof.
  intros H0 Hx. unfold geometry.py_int.
  destruct (Rle_dec 0 x) as [_ | Hneg]; [| lra].
  destruct (base_Int_part x) as [Hup _].
  apply le_IZR. lra.
Qed.

(** The angle [n = 0.3 * (11.45 - 1) = 3.135] lies in the half turn where
    the cosine is negative. *)
Lemma cos_silicon_angle_negative : (cos (0.3 * (11.45 - 1)) < 0)%R.
Proof.
  pose proof PI2_3_2 as Hlow. pose proof PI_4 as Hhigh.
  apply cos_lt_0; lra.
Qed.

(** What the code computes for a dielectric, for any permittivity. *)
Lemma dielectric_color (material : string) (d : gmap string (gmap string R))
    (props : gmap string R) (eps : R) (is_sheet : bool) :
  material <> "pec" ->
  d !! material = Some props ->
  props !! "permittivity" = Some eps ->
  (default 0 (props !! "conductivity") <= 0)%R ->
  geometry.color_by_material material d is_sheet
  = (let n := 0.3 * (eps - 1) in
     ([ geometry.py_int (100 + 80 * cos (n - PI / 3));
        geometry.py_int (100 + 80 * cos (n + PI));
        geometry.py_int (100 + 80 * cos (n + PI / 3)) ],
      Rpower 0.93 (if is_sheet then 2 * n else n)))%R.
Proof.
  intros Hname Hm Heps Hcond. unfold geometry.color_by_material.
  rewrite (bool_decide_eq_false_2 _ Hname).
  rewrite !(material_property_entry _ _ _ _ _ Hm), Heps.
  rewrite (gt_false _ _ Hcond). simpl.
  replace (1.0)%R with 1%R by lra. reflexivity.
Qed.

(** C2, as the code has it. For a material other than [pec] whose entry
    has permittivity 11.45 and a conductivity that is absent or not
    greater than zero, [color_by_material] with [is_sheet=False] returns,
    for [n = 0.3 * (11.45 - 1)], the channels [int(100 + 80*cos(n - pi/3))],
    [int(100 + 80*cos(n + pi))], [int(100 + 80*cos(n + pi/3))] in red,
    green, blue order, and the opacity [0.93 ** n]. *)
Theorem solid_dielectric_color
    (material : string) (material_dict : gmap string (gmap string R))
    (props : gmap string R) :
  material <> "pec" ->
  material_dict !! material = Some props ->
  props !! "permittivity" = Some 11.45%R ->
  (default 0 (props !! "conductivity") <= 0)%R ->
  geometry.color_by_material material material_dict false
  = (let n := 0.3 * (11.45 - 1) in
     ([ geometry.py_int (100 + 80 * cos (n - PI / 3));
        geometry.py_int (100 + 80 * cos (n + PI));
        geometry.py_int (100 + 80 * cos (n + PI / 3)) ],
      Rpower 0.93 n))%R.
Proof.
  intros Hname Hm Heps Hcond.
  exact (dielectric_color material material_dict props _ false Hname Hm Heps Hcond).
Qed.

Lemma solid_dielectric_color_witness :
  geometry.color_by_material "silicon" silicon_dict false
  = (let n := 0.3 * (11.45 - 1) in
     ([ geometry.py_int (100 + 80 * cos (n - PI / 3));
        geometry.py_int (100 + 80 * cos (n + PI));
        geometry.py_int (100 + 80 * cos (n + PI / 3)) ],
      Rpower 0.93 n))%R.
Proof.
  apply (solid_dielectric_color "silicon" silicon_dict {[ "permittivity" := 11.45%R ]}).
  - discriminate.
  - apply lookup_singleton_eq.
  - apply lookup_singleton_eq.
  - rewrite lookup_singleton_ne by discriminate. simpl. lra.
Defined.

(** The colour of solid silicon, computed. *)
Lemma silicon_solid_color :
  geometry.color_by_material "silicon" silicon_dict false
  = ([ geometry.py_int (100 + 80 * cos (0.3 * (11.45 - 1) - PI / 3));
       geometry.py_int (100 + 80 * cos (0.3 * (11.45 - 1) + PI));
       geometry.py_int (100 + 80 * cos (0.3 * (11.45 - 1) + PI / 3)) ],
     Rpower 0.93 (0.3 * (11.45 - 1)))%R.
Proof.
  apply (dielectric_color "silicon" silicon_dict {[ "permittivity" := 11.45%R ]} _ false).
  - discriminate.
  - apply lookup_singleton_eq.
  - apply lookup_singleton_eq.
  - rewrite lookup_singleton_ne by discriminate. simpl. lra.
Qed.

(** C2, as stated, fails. For silicon the green channel of the code has
    phase [n + pi], where the cosine is positive (channel at least 100),
    while the stated phase [n - 0*pi/3] gives a negative cosine (channel
    below 100). And an entry named [pec] gets the highlight colour even
    with permittivity 11.45 and no conductivity. *)
Lemma stated_solid_color_counterexample :
  (silicon_dict !! "silicon" = Some {[ "permittivity" := 11.45%R ]}
   /\ (geometry.material_property silicon_dict "silicon" "conductivity" 0 <= 0)%R
   /\ geometry.color_by_material "silicon" silicon_dict false
      <> specified_solid_color 11.45)
  /\ (labelled_pec_dict !! "pec" = Some {[ "permittivity" := 11.45%R ]}
      /\ (geometry.material_property labelled_pec_dict "pec" "conductivity" 0 <= 0)%R
      /\ geometry.color_by_material "pec" labelled_pec_dict false
         <> specified_solid_color 11.45).
Proof.
  split.
  - split; [apply lookup_singleton_eq |]. split.
    + rewrite (material_property_entry _ _ _ {[ "permittivity" := 11.45%R ]})
        by apply lookup_singleton_eq.
      rewrite lookup_singleton_ne by discriminate. simpl. lra.
    + rewrite silicon_solid_color. unfold specified_solid_color.
      cbv zeta. simpl map. intros Heq.
      injection Heq as _ Hgreen _.
      pose proof cos_silicon_angle_negative as Hneg.
      pose proof (COS_bound (0.3 * (11.45 - 1))) as [Hlow _].
      assert (Hcode : (100 <= geometry.py_int (100 + 80 * cos (0.3 * (11.45 - 1) + PI)))%Z).
      { apply py_int_above; [| lia]. rewrite neg_cos. lra. }
      assert (Hspec : (geometry.py_int
                         (100 + 80 * cos (0.3 * (11.45 - 1) - 0 * PI / 3)) < 100)%Z).
      { replace (0.3 * (11.45 - 1) - 0 * PI / 3)%R with (0.3 * (11.45 - 1))%R by lra.
        apply py_int_below; lra. }
      rewrite Hgreen in Hcode. lia.
  - split; [apply lookup_singleton_eq |]. split.
    + rewrite (material_property_entry _ _ _ {[ "permittivity" := 11.45%R ]})
        by apply lookup_singleton_eq.
      rewrite lookup_singleton_ne by discriminate. simpl. lra.
    + unfold specified_solid_color. cbv zeta. simpl map.
      change (geometry.color_by_material "pec" labelled_pec_dict false)
        with ([240; 120; 240]%Z, 0.5%R).
      intros Heq. injection Heq as Hred _ _ _.
      pose proof (COS_bound (0.3 * (11.45 - 1) - 1 * PI / 3)) as [Hlow Hhigh].
      assert (Hle : (geometry.py_int
                       (100 + 80 * cos (0.3 * (11.45 - 1) - 1 * PI / 3)) <= 180)%Z)
        by (apply py_int_at_most; lra).
      rewrite <- Hred in Hle. lia.
Qed.

(** ** Result files *)

Lemma read_table_absent (N : cross_section_helpers.numerics)
    (files : gmap string string) (name : string) :
  files !! name = None ->
  cross_section_helpers.read_table N files name = inl FileNotFoundError.
Proof.
  intros E. unfold cross_section_helpers.read_table, cross_section_helpers.open_file.
  rewrite E. reflexivity.
Qed.

Lemma read_table_present (N : cross_section_helpers.numerics)
    (files : gmap string string) (name text : string) :
  files !! name = Some text ->
  cross_section_helpers.read_table N files name
  = cross_section_helpers.read_csv N text.
Proof.
  intros E. unfold cross_section_helpers.read_table, cross_section_helpers.open_file.
  rewrite E. reflexivity.
Qed.

Lemma try_file_not_found_never_leaks {A B : Type} (body : exn + A) (fallback : B)
    (k : A -> exn + B) :
  (forall a, k a <> inl FileNotFoundError) ->
  cross_section_helpers.try_file_not_found body fallback k <> inl FileNotFoundError.
Proof.
  intros Hk. destruct body as [[] | a]; simpl; try discriminate. apply Hk.
Qed.

(** Without the data file of its branch, the inductance part raises
    [FileNotFoundError]. *)
Lemma l_matrix_of_data_missing (N : cross_section_helpers.numerics)
    (H : cross_section_helpers.elmer_helpers)
    (json : cross_section_helpers.json_data) (files : gmap string string) :
  (if cross_section_helpers.use_london_equations H json
   then files !! "inductance.dat" = None /\ files !! "inductance.dat.0" = None
   else files !! "capacitance0.dat" = None) ->
  cross_section_helpers.l_matrix_of N H json files = inl FileNotFoundError.
Proof.
  unfold cross_section_helpers.l_matrix_of.
  destruct (cross_section_helpers.use_london_equations H json).
  - intros [Hdat Hdat0]. unfold cross_section_helpers.is_file.
    rewrite bool_decide_eq_false_2 by (rewrite Hdat; apply is_Some_None).
    rewrite (read_table_absent _ _ _ Hdat0). reflexivity.
  - intros Hc0. rewrite (read_table_absent _ _ _ Hc0). reflexivity.
Qed.

(** With the data file read but the [.names] file missing, the impedance
    branch raises [FileNotFoundError] as well. *)
Lemma l_matrix_of_names_missing (N : cross_section_helpers.numerics)
    (H : cross_section_helpers.elmer_helpers)
    (json : cross_section_helpers.json_data) (files : gmap string string)
    (text : string) (data : cross_section_helpers.matrix) :
  cross_section_helpers.use_london_equations H json = true ->
  files !! "inductance.dat" = Some text ->
  cross_section_helpers.read_csv N text = inr data ->
  files !! "inductance.dat.names" = None ->
  cross_section_helpers.l_matrix_of N H json files = inl FileNotFoundError.
Proof.
  intros Hlondon Hdat Hread Hnames. unfold cross_section_helpers.l_matrix_of.
  rewrite Hlondon. unfold cross_section_helpers.is_file.
  rewrite bool_decide_eq_true_2 by (rewrite Hdat; eexists; reflexivity).
  rewrite (read_table_present _ _ _ _ Hdat), Hread. cbn [ebind].
  unfold cross_section_helpers.open_file.
  change ("inductance.dat" +:+ ".names") with "inductance.dat.names".
  rewrite Hnames. reflexivity.
Qed.

(** C3. Without [capacitance.dat] in the folder the result is
    [{"Cs": None, "Ls": None}], whatever else the folder holds. With
    [capacitance.dat] present and parsed to [c], and none of the inductance
    input files present, the result is [{"Cs": c, "Ls": None}]. In no case
    does [FileNotFoundError] reach the caller. *)
Theorem missing_result_files_are_not_errors
    (N : cross_section_helpers.numerics) (H : cross_section_helpers.elmer_helpers)
    (json : cross_section_helpers.json_data) (files : gmap string string) :
  (files !! "capacitance.dat" = None ->
     cross_section_helpers.get_cross_section_capacitance_and_inductance N H json files
     = inr {| cross_section_helpers.Cs := None; cross_section_helpers.Ls := None |})
  /\ (forall text c,
        files !! "capacitance.dat" = Some text ->
        cross_section_helpers.read_csv N text = inr c ->
        inductance_inputs_absent files ->
        cross_section_helpers.get_cross_section_capacitance_and_inductance N H json files
        = inr {| cross_section_helpers.Cs := Some c; cross_section_helpers.Ls := None |})
  /\ cross_section_helpers.get_cross_section_capacitance_and_inductance N H json files
     <> inl FileNotFoundError.
Proof.
  unfold cross_section_helpers.get_cross_section_capacitance_and_inductance.
  split; [| split].
  - intros Habsent. rewrite (read_table_absent _ _ _ Habsent). reflexivity.
  - intros text c Hpresent Hparse (Hc0 & Hdat & Hdat0 & _).
    rewrite (read_table_present _ _ _ _ Hpresent), Hparse. simpl.
    rewrite l_matrix_of_data_missing; [reflexivity |].
    destruct (cross_section_helpers.use_london_equations H json); auto.
  - apply try_file_not_found_never_leaks. intros c.
    apply try_file_not_found_never_leaks. discriminate.
Qed.

Lemma missing_result_files_are_not_errors_witness :
  cross_section_helpers.get_cross_section_capacitance_and_inductance
    sample_numerics (sample_helpers true) (sample_json ["capacitance"] true) ∅
  = inr {| cross_section_helpers.Cs := None; cross_section_helpers.Ls := None |}
  /\ cross_section_helpers.get_cross_section_capacitance_and_inductance
       sample_numerics (sample_helpers true) (sample_json ["capacitance"] true)
       capacitance_only_folder
     = inr {| cross_section_helpers.Cs := Some [[1%float]];
              cross_section_helpers.Ls := None |}.
Proof.
  split.
  - apply (missing_result_files_are_not_errors sample_numerics (sample_helpers true)
             (sample_json ["capacitance"] true) ∅).
    reflexivity.
  - apply (proj1 (proj2 (missing_result_files_are_not_errors sample_numerics
                           (sample_helpers true) (sample_json ["capacitance"] true)
                           capacitance_only_folder)) "1.0" [[1%float]]).
    + reflexivity.
    + reflexivity.
    + repeat split; reflexivity.
Defined.

(** ** Solver input files *)

(** C4. When [sif_names] has a first entry [name0], the first file
    [produce_cross_section_sif_files] writes (right after creating the
    folder) is [name0 + ".sif"], with the text [sif_capacitance] generates
    for [vtu_name = name0], angular frequency 0, dimension 2 and
    [with_zero=False]. Whenever a list is returned its first element is that
    file name, and a list is returned unless the inductance run is asked
    for and [sif_names] has no second entry. *)
Theorem capacitance_sif_is_written_first
    (H : cross_section_helpers.elmer_helpers)
    (json : cross_section_helpers.json_data) (folder_path name0 : string)
    (rest : list string) (log : list cross_section_helpers.fs_event) :
  cross_section_helpers.sif_names json = name0 :: rest ->
  (exists later,
     snd (cross_section_helpers.produce_cross_section_sif_files H json folder_path log)
     = log
       ++ cross_section_helpers.Mkdir folder_path
          :: cross_section_helpers.WriteFile folder_path (name0 +:+ ".sif")
               (cross_section_helpers.sif_capacitance H json folder_path name0
                  (PInt 0) 2 false)
          :: later)
  /\ (forall out,
        fst (cross_section_helpers.produce_cross_section_sif_files H json folder_path log)
        = inr out ->
        head out = Some (name0 +:+ ".sif"))
  /\ ((cross_section_helpers.run_inductance_sim json = false \/ rest <> []) ->
        exists more,
          fst (cross_section_helpers.produce_cross_section_sif_files H json folder_path log)
          = inr ((name0 +:+ ".sif") :: more)).
Proof.
  intros Hnames.
  unfold cross_section_helpers.produce_cross_section_sif_files,
    cross_section_helpers.wbind, cross_section_helpers.save,
    cross_section_helpers.wbind, cross_section_helpers.emit,
    cross_section_helpers.wlift, cross_section_helpers.wret.
  rewrite Hnames.
  change (getitem (name0 :: rest) 0) with (@inr exn _ name0).
  destruct (cross_section_helpers.run_inductance_sim json);
    [destruct (cross_section_helpers.use_london_equations H json) |];
    destruct rest as [| name1 rest']; cbn [getitem lookup list_lookup fst snd];
    simpl; rewrite <- ?app_assoc; simpl;
    (split; [eexists; reflexivity |]);
    (split; [intros out Hout; try discriminate; injection Hout as <-; reflexivity |]);
    intros [Hrun | Hrest]; try discriminate; try congruence;
    eexists; reflexivity.
Qed.

Lemma capacitance_sif_is_written_first_witness :
  fst (cross_section_helpers.produce_cross_section_sif_files (sample_helpers true)
         (sample_json ["capacitance"; "inductance"] true) "out" [])
  = inr ["capacitance.sif"; "inductance.sif"]
  /\ exists later,
       snd (cross_section_helpers.produce_cross_section_sif_files (sample_helpers true)
              (sample_json ["capacitance"; "inductance"] true) "out" [])
       = [] ++ cross_section_helpers.Mkdir "out"
            :: cross_section_helpers.WriteFile "out" ("capacitance" +:+ ".sif")
                 (cross_section_helpers.sif_capacitance (sample_helpers true)
                    (sample_json ["capacitance"; "inductance"] true) "out"
                    "capacitance" (PInt 0) 2 false)
            :: later.
Proof.
  split; [reflexivity |].
  apply (capacitance_sif_is_written_first (sample_helpers true)
           (sample_json ["capacitance"; "inductance"] true) "out"
           "capacitance" ["inductance"] []).
  reflexivity.
Defined.

(** The three shapes of a run, on the stand-in helpers. *)
Example sif_files_capacitance_only :
  cross_section_helpers.produce_cross_section_sif_files (sample_helpers false)
    (sample_json ["c"] false) "out" []
  = (inr ["c.sif"],
     [ cross_section_helpers.Mkdir "out";
       cross_section_helpers.WriteFile "out" "c.sif" "vtu c" ]).
Proof. reflexivity. Qed.

Example sif_files_two_capacitance_runs :
  cross_section_helpers.produce_cross_section_sif_files (sample_helpers false)
    (sample_json ["c"; "c0"] true) "out" []
  = (inr ["c.sif"; "c0.sif"],
     [ cross_section_helpers.Mkdir "out";
       cross_section_helpers.WriteFile "out" "c.sif" "vtu c";
       cross_section_helpers.WriteFile "out" "c0.sif" "vtu c0 with zero" ]).
Proof. reflexivity. Qed.

Example sif_files_london :
  cross_section_helpers.produce_cross_section_sif_files (sample_helpers true)
    (sample_json ["c"; "l"] true) "out" []
  = (inr ["c.sif"; "l.sif"],
     [ cross_section_helpers.Mkdir "out";
       cross_section_helpers.WriteFile "out" "c.sif" "vtu c";
       cross_section_helpers.WriteFile "out" "inductance.definitions" "circuits";
       cross_section_helpers.WriteFile "out" "l.sif" "include inductance.definitions" ]).
Proof. reflexivity. Qed.

(** The capacitance file is on disk before the missing second name is
    noticed. *)
Example sif_files_missing_second_name :
  cross_section_helpers.produce_cross_section_sif_files (sample_helpers false)
    (sample_json ["c"] true) "out" []
  = (inl IndexError,
     [ cross_section_helpers.Mkdir "out";
       cross_section_helpers.WriteFile "out" "c.sif" "vtu c" ]).
Proof. reflexivity. Qed.

(** Without the inductance run, the capacitance file is what the folder
    holds under that name afterwards. *)
Lemma capacitance_sif_on_disk (H : cross_section_helpers.elmer_helpers)
    (json : cross_section_helpers.json_data) (folder_path name0 : string)
    (rest : list string) (files : gmap string string) :
  cross_section_helpers.sif_names json = name0 :: rest ->
  cross_section_helpers.run_inductance_sim json = false ->
  cross_section_helpers.apply_events folder_path
    (snd (cross_section_helpers.produce_cross_section_sif_files H json folder_path []))
    files !! (name0 +:+ ".sif")
  = Some (cross_section_helpers.sif_capacitance H json folder_path name0 (PInt 0) 2 false).
Proof.
  intros Hnames Hrun.
  unfold cross_section_helpers.produce_cross_section_sif_files,
    cross_section_helpers.wbind, cross_section_helpers.save,
    cross_section_helpers.wbind, cross_section_helpers.emit,
    cross_section_helpers.wlift, cross_section_helpers.wret.
  rewrite Hnames, Hrun. simpl.
  rewrite String.eqb_refl. apply lookup_insert_eq.
Qed.

(** When both configured names coincide, the second run replaces the file. *)
Example sif_files_same_name_overwrites :
  cross_section_helpers.apply_events "out"
    (snd (cross_section_helpers.produce_cross_section_sif_files (sample_helpers false)
            (sample_json ["c"; "c"] true) "out" []))
    ∅ !! "c.sif"
  = Some "vtu c with zero".
Proof. reflexivity. Qed.

(** ** Layer patterns *)

(** *** From the glob to the regular expression text *)

Lemma special_not_star_free (c : ascii) : re.is_special c = false -> c <> "*"%char.
Proof. intros H ->. discriminate H. Qed.

Lemma special_not_backslash (c : ascii) : re.is_special c = false -> c <> "\"%char.
Proof. intros H ->. discriminate H. Qed.

Lemma prefix_backslash_star (a : ascii) (s : string) :
  String.prefix "\*" (String a s)
  = Ascii.eqb a "\" && match s with
                        | EmptyString => false
                        | String b _ => Ascii.eqb b "*"
                        end.
Proof.
  cbn [String.prefix].
  destruct (ascii_dec "\" a) as [<- | Hne].
  - destruct s as [| b s']; [reflexivity |].
    cbn [String.prefix]. destruct (ascii_dec "*" b) as [<- | Hne'].
    + destruct s'; reflexivity.
    + simpl. symmetry. apply Ascii.eqb_neq. congruence.
  - replace (Ascii.eqb a "\") with false; [reflexivity |].
    symmetry. apply Ascii.eqb_neq. congruence.
Qed.

(** Escaped text never begins with a bare star. *)
Lemma escape_head_not_star (r : string) :
  match re.escape r with
  | EmptyString => false
  | String b _ => Ascii.eqb b "*"
  end = false.
Proof.
  destruct r as [| c r]; [reflexivity |]. simpl.
  destruct (re.is_special c) eqn:Hc; [reflexivity |].
  apply Ascii.eqb_neq. apply special_not_star_free, Hc.
Qed.

Lemma replace_from_keep (old new : string) (c : ascii) (s : string) :
  String.prefix old (String c s) = false ->
  re.replace_from old new 0 (String c s) = String c (re.replace_from old new 0 s).
Proof. intros H. cbn [re.replace_from]. rewrite H. reflexivity. Qed.

Lemma replace_from_hit (old new : string) (c : ascii) (s : string) :
  String.prefix old (String c s) = true ->
  re.replace_from old new 0 (String c s)
  = new +:+ re.replace_from old new (String.length old - 1) s.
Proof. intros H. cbn [re.replace_from]. rewrite H. reflexivity. Qed.

Lemma replace_escape (p : string) :
  re.replace "\*" ".*" (re.escape p) = glob_regex p.
Proof.
  unfold re.replace. induction p as [| c p IH]; [reflexivity |].
  cbn [re.escape glob_regex]. unfold glob_piece.
  destruct (Ascii.eqb_spec c "*") as [-> | Hstar].
  - change (re.is_special "*") with true. cbv iota.
    rewrite replace_from_hit by (rewrite prefix_backslash_star; reflexivity).
    cbn [String.length Nat.sub re.replace_from]. rewrite IH. reflexivity.
  - assert (Htail : re.replace_from "\*" ".*" 0 (String c (re.escape p))
                    = String c (glob_regex p)).
    { rewrite replace_from_keep, IH; [reflexivity |].
      rewrite prefix_backslash_star, escape_head_not_star. apply andb_false_r. }
    destruct (re.is_special c) eqn:Hc.
    + rewrite replace_from_keep.
      * rewrite Htail. reflexivity.
      * rewrite prefix_backslash_star. simpl.
        apply Ascii.eqb_neq. exact Hstar.
    + rewrite Htail. reflexivity.
Qed.

(** *** From the text to the compiled pattern *)

Lemma special_not_alnum (c : ascii) : re.is_special c = true -> re.is_alnum c = false.
Proof. by_cases_on_ascii c. Qed.

Lemma classify_plain (c : ascii) :
  re.is_special c = false -> re.classify (re.TChar c) = inr (re.KAtom (re.ALit c)).
Proof. by_cases_on_ascii c. Qed.

Lemma plain_not_repeat (c : ascii) :
  re.is_special c = false -> re.is_repeat (re.TChar c) = false.
Proof. by_cases_on_ascii c. Qed.

Lemma star_is_repeat (t : re.token) : re.is_star t = true -> re.is_repeat t = true.
Proof.
  destruct t as [c | c]; [| discriminate]. simpl.
  intros H. apply Ascii.eqb_eq in H. subst c. reflexivity.
Qed.

Lemma lex_char (c : ascii) (s : string) :
  c <> "\"%char ->
  re.lex (String c s) = ebind (re.lex s) (fun ts => inr (re.TChar c :: ts)).
Proof.
  intros Hc. cbn [re.lex].
  replace (Ascii.eqb c "\") with false by (symmetry; apply Ascii.eqb_neq, Hc).
  reflexivity.
Qed.

Lemma lex_escaped (d : ascii) (s : string) :
  re.is_alnum d = false ->
  re.lex (String "\" (String d s)) = ebind (re.lex s) (fun ts => inr (re.TEsc d :: ts)).
Proof. intros Hd. cbn [re.lex]. simpl Ascii.eqb. cbv iota. rewrite Hd. reflexivity. Qed.

Lemma lex_glob_regex (p rest : string) :
  re.lex (glob_regex p +:+ rest)
  = ebind (re.lex rest) (fun ts => inr (glob_token_list p ++ ts)).
Proof.
  unfold glob_token_list. induction p as [| c p IH].
  - change (glob_regex "" +:+ rest) with rest. cbn [list_ascii_of_string flat_map app].
    destruct (re.lex rest); reflexivity.
  - cbn [list_ascii_of_string flat_map].
    destruct (Ascii.eqb_spec c "*") as [-> | Hstar].
    + change (glob_regex (String "*" p) +:+ rest)
        with (String "." (String "*" (glob_regex p +:+ rest))).
      rewrite !lex_char by discriminate. rewrite IH.
      destruct (re.lex rest); reflexivity.
    + unfold glob_tokens at 1.
      replace (Ascii.eqb c "*") with false by (symmetry; apply Ascii.eqb_neq, Hstar).
      destruct (re.is_special c) eqn:Hc.
      * replace (glob_regex (String c p) +:+ rest)
          with (String "\" (String c (glob_regex p +:+ rest))).
        -- rewrite (lex_escaped _ _ (special_not_alnum _ Hc)), IH.
           destruct (re.lex rest); reflexivity.
        -- cbn [glob_regex]. unfold glob_piece.
           replace (Ascii.eqb c "*") with false by (symmetry; apply Ascii.eqb_neq, Hstar).
           rewrite Hc. reflexivity.
      * replace (glob_regex (String c p) +:+ rest)
          with (String c (glob_regex p +:+ rest)).
        -- rewrite (lex_char _ _ (special_not_backslash _ Hc)), IH.
           destruct (re.lex rest); reflexivity.
        -- cbn [glob_regex]. unfold glob_piece.
           replace (Ascii.eqb c "*") with false by (symmetry; apply Ascii.eqb_neq, Hstar).
           rewrite Hc. reflexivity.
Qed.

Lemma parse_atom (t : re.token) (a : re.atom) (ts : list re.token) :
  re.classify t = inr (re.KAtom a) ->
  re.starts_with_repeat ts = false ->
  re.parse (t :: ts) = ebind (re.parse ts) (fun r => inr (re.IOne a :: r)).
Proof.
  intros Hclass Hrep. cbn [re.parse]. rewrite Hclass. cbn [ebind].
  destruct ts as [| t' ts']; [reflexivity |].
  simpl in Hrep. rewrite Hrep.
  destruct (re.is_star t') eqn:Hstar; [| reflexivity].
  apply star_is_repeat in Hstar. congruence.
Qed.

Lemma glob_tokens_other (c : ascii) :
  c <> "*"%char ->
  glob_tokens c = if re.is_special c then [re.TEsc c] else [re.TChar c].
Proof.
  intros Hc. unfold glob_tokens.
  replace (Ascii.eqb c "*") with false by (symmetry; apply Ascii.eqb_neq, Hc).
  reflexivity.
Qed.

Lemma glob_item_other (c : ascii) :
  c <> "*"%char -> glob_item c = re.IOne (re.ALit c).
Proof.
  intros Hc. unfold glob_item.
  replace (Ascii.eqb c "*") with false by (symmetry; apply Ascii.eqb_neq, Hc).
  reflexivity.
Qed.

Lemma parse_starred_dot (ts : list re.token) :
  re.starts_with_repeat ts = false ->
  re.parse (re.TChar "." :: re.TChar "*" :: ts)
  = ebind (re.parse ts) (fun r => inr (re.IStar re.ADot :: r)).
Proof.
  intros Hrep. cbn [re.parse]. change (re.classify (re.TChar ".")) with
    (@inr exn _ (re.KAtom re.ADot)).
  cbn [ebind]. change (re.is_star (re.TChar "*")) with true. cbv iota.
  rewrite Hrep. reflexivity.
Qed.

Lemma parse_glob_tokens (p : string) (ts : list re.token) (r : list re.item) :
  re.parse ts = inr r ->
  re.starts_with_repeat ts = false ->
  re.parse (glob_token_list p ++ ts) = inr (glob_items p ++ r)
  /\ re.starts_with_repeat (glob_token_list p ++ ts) = false.
Proof.
  intros Hparse Hrep. unfold glob_token_list, glob_items.
  induction p as [| c p [IHparse IHrep]]; [split; assumption |].
  cbn [list_ascii_of_string flat_map map]. rewrite <- app_assoc.
  destruct (Ascii.eqb_spec c "*") as [-> | Hstar].
  - change (glob_tokens "*") with [re.TChar "."; re.TChar "*"].
    change (glob_item "*") with (re.IStar re.ADot). cbn [app].
    split; [| reflexivity].
    rewrite (parse_starred_dot _ IHrep), IHparse. reflexivity.
  - rewrite (glob_tokens_other _ Hstar), (glob_item_other _ Hstar).
    destruct (re.is_special c) eqn:Hc; cbn [app].
    + split; [| reflexivity].
      rewrite (parse_atom (re.TEsc c) (re.ALit c) _ eq_refl IHrep), IHparse.
      reflexivity.
    + split; [| exact (plain_not_repeat _ Hc)].
      rewrite (parse_atom _ (re.ALit c) _ (classify_plain _ Hc) IHrep), IHparse.
      reflexivity.
Qed.

(** The pattern [match_layer] builds always compiles, to the anchored
    sequence of the glob's items. *)
Lemma compile_glob (p : string) :
  re.compile ("^" +:+ glob_regex p +:+ "$")
  = inr (re.IBol :: glob_items p ++ [re.IEol]).
Proof.
  unfold re.compile.
  change (re.lex ("^" +:+ glob_regex p +:+ "$"))
    with (ebind (re.lex (glob_regex p +:+ "$")) (fun ts => inr (re.TChar "^" :: ts))).
  rewrite lex_glob_regex.
  change (re.lex "$") with (@inr exn _ [re.TChar "$"]). cbn [ebind].
  destruct (parse_glob_tokens p [re.TChar "$"] [re.IEol]) as [Hparse Hrep];
    [reflexivity | reflexivity |].
  cbn [re.parse]. change (re.classify (re.TChar "^")) with (@inr exn _ re.KBol).
  cbn [ebind]. rewrite Hrep, Hparse. reflexivity.
Qed.

Lemma match_layer_compiled (layer_name layer_pattern : string) :
  geometry.match_layer layer_name layer_pattern
  = inr (re.matches (glob_items layer_pattern ++ [re.IEol]) true layer_name).
Proof.
  unfold geometry.match_layer, re.match_.
  rewrite replace_escape, compile_glob. reflexivity.
Qed.

(** *** Matching *)

Lemma matches_star (a : re.atom) (r : list re.item) (b : bool) (s : string) :
  re.matches (re.IStar a :: r) b s
  = re.matches r b s
    || match s with
       | EmptyString => false
       | String c s' => re.atom_matches a c && re.matches (re.IStar a :: r) false s'
       end.
Proof. destruct s; reflexivity. Qed.

Lemma at_end_newline_free (s : string) :
  newline_free s = true -> re.at_end s = true -> s = "".
Proof.
  destruct s as [| c [| d s]]; simpl; intros Hfree Hend; try reflexivity;
    try discriminate.
  rewrite Hend in Hfree. discriminate.
Qed.

Lemma newline_free_app (s t : string) :
  newline_free (s +:+ t) = newline_free s && newline_free t.
Proof.
  induction s as [| c s IH]; [reflexivity |].
  change (String c s +:+ t) with (String c (s +:+ t)).
  cbn [newline_free]. rewrite IH, andb_assoc. reflexivity.
Qed.

Lemma wildcard_match_star_inv (p s : string) :
  wildcard_match (String "*" p) s ->
  exists s1 t, s = s1 +:+ t /\ wildcard_match p t.
Proof.
  intros H. inversion H as [| p' s1 t Ht | c p' s' Hc _]; subst.
  - exists s1, t. split; [reflexivity | exact Ht].
  - congruence.
Qed.

(** On a name without line breaks, the compiled glob followed by [$]
    matches exactly when the glob matches the whole name. *)
Lemma matches_glob_items (p : string) :
  forall (s : string) (b : bool),
    newline_free s = true ->
    re.matches (glob_items p ++ [re.IEol]) b s = true <-> wildcard_match p s.
Proof.
  unfold glob_items. induction p as [| c p IH]; intros s b Hfree.
  - cbn [list_ascii_of_string map app re.matches]. rewrite andb_true_r. split.
    + intros Hend. rewrite (at_end_newline_free _ Hfree Hend). constructor.
    + intros H. inversion H. reflexivity.
  - cbn [list_ascii_of_string map app].
    destruct (Ascii.eqb_spec c "*") as [-> | Hstar].
    + change (glob_item "*") with (re.IStar re.ADot). split.
      * revert b Hfree. induction s as [| d s IHs]; intros b Hfree;
          rewrite matches_star; intros Hm.
        -- rewrite orb_false_r in Hm. apply (IH _ _ Hfree) in Hm.
           exact (wm_star p "" "" Hm).
        -- cbn [newline_free] in Hfree. apply andb_prop in Hfree as [Hd Hfree'].
           apply orb_prop in Hm as [Hm | Hm].
           ++ apply IH in Hm; [| cbn [newline_free]; rewrite Hd, Hfree'; reflexivity].
              exact (wm_star p "" (String d s) Hm).
           ++ apply andb_prop in Hm as [_ Hm].
              destruct (wildcard_match_star_inv _ _ (IHs false Hfree' Hm))
                as (s1 & t & -> & Ht).
              exact (wm_star p (String d s1) t Ht).
      * intros H. destruct (wildcard_match_star_inv _ _ H) as (s1 & t & -> & Ht).
        clear H. revert b Hfree. induction s1 as [| d s1 IHs1]; intros b Hfree;
          rewrite matches_star.
        -- change ("" +:+ t) with t in *.
           rewrite (proj2 (IH t b Hfree) Ht). reflexivity.
        -- change (String d s1 +:+ t) with (String d (s1 +:+ t)) in *.
           cbn [newline_free] in Hfree. apply andb_prop in Hfree as [Hd Hfree'].
           rewrite (IHs1 false Hfree'). cbn [re.atom_matches]. rewrite Hd.
           apply orb_true_r.
    + rewrite (glob_item_other _ Hstar). cbn [re.matches]. split.
      * destruct s as [| d s]; [discriminate |].
        intros Hm. apply andb_prop in Hm as [Hd Hm].
        apply Ascii.eqb_eq in Hd. subst d.
        cbn [newline_free] in Hfree. apply andb_prop in Hfree as [_ Hfree'].
        constructor; [exact Hstar |]. apply (IH s false Hfree'), Hm.
      * intros H. inversion H as [| p' s1 t Ht | c' p' s' Hc Hs']; subst;
          [congruence |].
        cbn [newline_free] in Hfree. apply andb_prop in Hfree as [_ Hfree'].
        cbn [re.atom_matches]. rewrite Ascii.eqb_refl.
        exact (proj2 (IH s' false Hfree') Hs').
Qed.

(** On layer names without line breaks [match_layer] is the glob match the
    specification describes: it returns, and returns [True] exactly when the
    whole name matches the pattern. *)
Lemma match_layer_newline_free (layer_name layer_pattern : string) :
  newline_free layer_name = true ->
  exists b,
    geometry.match_layer layer_name layer_pattern = inr b
    /\ (b = true <-> wildcard_match layer_pattern layer_name).
Proof.
  intros Hfree. eexists. split; [apply match_layer_compiled |].
  apply matches_glob_items, Hfree.
Qed.

(** The examples of the specification. *)
Example match_layer_examples :
  geometry.match_layer "M1_test" "M1_*" = inr true
  /\ geometry.match_layer "M2_test" "M1_*" = inr false
  /\ geometry.match_layer "abc" "a*c" = inr true.
Proof. repeat split. Qed.

(** Characters that are special in regular expressions stand for
    themselves in a layer pattern. *)
Example match_layer_literal_specials :
  geometry.match_layer "a.c" "a.c" = inr true
  /\ geometry.match_layer "abc" "a.c" = inr false
  /\ geometry.match_layer "m(1)+[2]" "m(*)+[*]" = inr true.
Proof. repeat split. Qed.

(** C8 at the inputs where the code leaves the specified glob matching.
    The name [abc] followed by a line break is accepted by the pattern
    [abc], although the line break is matched by nothing in the pattern:
    the closing [$] also matches just before a final line break. The name
    [a], line break, [c] is rejected by the pattern [a*c], although [*]
    stands for any substring: the dot that replaces [*] matches no line
    break. *)
Theorem match_layer_line_break_divergence :
  (geometry.match_layer abc_newline "abc" = inr true
   /\ ~ wildcard_match "abc" abc_newline)
  /\ (geometry.match_layer a_newline_c "a*c" = inr false
      /\ wildcard_match "a*c" a_newline_c).
Proof.
  split; split.
  - reflexivity.
  - unfold abc_newline. intros H.
    inversion H as [| | c1 p1 s1 _ H1]; subst; clear H.
    inversion H1 as [| | c2 p2 s2 _ H2]; subst; clear H1.
    inversion H2 as [| | c3 p3 s3 _ H3]; subst; clear H2.
    inversion H3.
  - reflexivity.
  - unfold a_newline_c.
    apply (wm_char "a" "*c" (String re.newline "c")); [discriminate |].
    apply (wm_star "c" (String re.newline "") "c").
    apply (wm_char "c" "" ""); [discriminate |].
    exact wm_empty.
Qed.

(** * Further properties of the geometry commands *)

(** ** Strings *)

Lemma append_empty_r (s : string) : s +:+ "" = s.
Proof.
  induction s as [| c s IH]; [reflexivity |].
  change (String c s +:+ "") with (String c (s +:+ "")). rewrite IH. reflexivity.
Qed.

Lemma append_associative (s t u : string) : (s +:+ t) +:+ u = s +:+ (t +:+ u).
Proof.
  induction s as [| c s IH]; [reflexivity |].
  change ((String c s +:+ t) +:+ u) with (String c ((s +:+ t) +:+ u)).
  rewrite IH. reflexivity.
Qed.

Lemma length_append (s t : string) :
  String.length (s +:+ t) = String.length s + String.length t.
Proof.
  induction s as [| c s IH]; [reflexivity |].
  change (String c s +:+ t) with (String c (s +:+ t)). simpl. rewrite IH. reflexivity.
Qed.

(** A common suffix can be cancelled. *)
Lemma append_cancel_r (s t u : string) : s +:+ u = t +:+ u -> s = t.
Proof.
  revert t. induction s as [| c s IH]; intros [| d t] E.
  - reflexivity.
  - apply (f_equal String.length) in E. rewrite !length_append in E. simpl in E. lia.
  - apply (f_equal String.length) in E. rewrite !length_append in E. simpl in E. lia.
  - change (String c (s +:+ u) = String d (t +:+ u)) in E.
    injection E as -> E. rewrite (IH _ E). reflexivity.
Qed.

(** ** [match_layer] *)

(** X1. [match_layer] never raises: whatever the pattern, the escaped text
    with [.*] in it is a regular expression that compiles, and the call
    returns a boolean. *)
Theorem match_layer_never_raises (layer_name layer_pattern : string) :
  exists b, geometry.match_layer layer_name layer_pattern = inr b.
Proof.
  eexists. apply match_layer_compiled.
Qed.

(** X2. On a layer name without line breaks, [match_layer] returns [True]
    exactly when the whole name matches the pattern read as a glob, [*]
    standing for any substring and every other character for itself. *)
Theorem match_layer_is_glob_on_one_line (layer_name layer_pattern : string) :
  newline_free layer_name = true ->
  (geometry.match_layer layer_name layer_pattern = inr true
   <-> wildcard_match layer_pattern layer_name).
Proof.
  intros Hfree. rewrite match_layer_compiled.
  rewrite <- (matches_glob_items layer_pattern layer_name true Hfree).
  split; [intros E; injection E as ->; reflexivity | intros ->; reflexivity].
Qed.

Lemma match_layer_is_glob_on_one_line_witness :
  geometry.match_layer "M1_gap_2" "M1_*_2" = inr true
  <-> wildcard_match "M1_*_2" "M1_gap_2".
Proof.
  apply (match_layer_is_glob_on_one_line "M1_gap_2" "M1_*_2"). reflexivity.
Defined.

Lemma at_end_cases (s : string) :
  re.at_end s = true <-> s = "" \/ s = line_break.
Proof.
  unfold line_break. destruct s as [| c [| d s]]; simpl.
  - split; [left; reflexivity | reflexivity].
  - rewrite Ascii.eqb_eq. split.
    + intros ->. right. reflexivity.
    + intros [H | H]; [discriminate | injection H as ->; reflexivity].
  - split; [discriminate | intros [H | H]; discriminate].
Qed.

Lemma matches_literals (p : string) :
  star_free p = true ->
  forall (s : string) (b : bool),
    re.matches (glob_items p ++ [re.IEol]) b s = true
    <-> s = p \/ s = p +:+ line_break.
Proof.
  unfold glob_items. induction p as [| c p IH]; intros Hfree s b.
  - cbn [list_ascii_of_string map app re.matches]. rewrite andb_true_r.
    apply at_end_cases.
  - cbn [star_free] in Hfree. apply andb_prop in Hfree as [Hc Hfree].
    apply negb_true_iff, Ascii.eqb_neq in Hc.
    cbn [list_ascii_of_string map app]. rewrite (glob_item_other _ Hc).
    cbn [re.matches].
    change (String c p +:+ line_break) with (String c (p +:+ line_break)).
    destruct s as [| d s].
    + split; [discriminate | intros [H | H]; discriminate].
    + cbn [re.atom_matches]. rewrite andb_true_iff, Ascii.eqb_eq, (IH Hfree). split.
      * intros [-> [-> | ->]]; [left | right]; reflexivity.
      * intros [H | H]; injection H as -> ->; split; auto.
Qed.

(** X3. A pattern without [*] is compared with the name character by
    character, regular-expression signs included; the name may carry one
    more line break at its end, which the closing [$] lets pass. *)
Theorem match_layer_without_wildcard (layer_name layer_pattern : string) :
  star_free layer_pattern = true ->
  (geometry.match_layer layer_name layer_pattern = inr true
   <-> layer_name = layer_pattern \/ layer_name = layer_pattern +:+ line_break).
Proof.
  intros Hfree. rewrite match_layer_compiled.
  rewrite <- (matches_literals layer_pattern Hfree layer_name true).
  split; [intros E; injection E as ->; reflexivity | intros ->; reflexivity].
Qed.

Lemma match_layer_without_wildcard_witness :
  geometry.match_layer "a.c(1)" "a.c(1)" = inr true
  <-> "a.c(1)" = "a.c(1)" \/ "a.c(1)" = "a.c(1)" +:+ line_break.
Proof.
  apply (match_layer_without_wildcard "a.c(1)" "a.c(1)"). reflexivity.
Defined.

Lemma wildcard_match_prefix (pre s : string) :
  star_free pre = true ->
  (wildcard_match (pre +:+ "*") s <-> exists rest, s = pre +:+ rest).
Proof.
  revert s. induction pre as [| c pre IH]; intros s Hfree.
  - change ("" +:+ "*") with "*". split.
    + intros _. exists s. reflexivity.
    + intros _. rewrite <- (append_empty_r s).
      exact (wm_star "" s "" wm_empty).
  - cbn [star_free] in Hfree. apply andb_prop in Hfree as [Hc Hfree].
    apply negb_true_iff, Ascii.eqb_neq in Hc.
    change (String c pre +:+ "*") with (String c (pre +:+ "*")). split.
    + intros H. inversion H as [| p' s1 t Ht | c' p' s' _ Hs']; subst; [congruence |].
      destruct (proj1 (IH s' Hfree) Hs') as [rest ->]. exists rest. reflexivity.
    + intros [rest ->]. change (String c pre +:+ rest) with (String c (pre +:+ rest)).
      constructor; [exact Hc |]. apply (IH _ Hfree). exists rest. reflexivity.
Qed.

(** X4. A pattern that is a literal prefix followed by [*] selects the
    names that begin with the prefix, among the names without line
    breaks. *)
Theorem match_layer_prefix_pattern (layer_name prefix : string) :
  star_free prefix = true ->
  newline_free layer_name = true ->
  (geometry.match_layer layer_name (prefix +:+ "*") = inr true
   <-> exists rest, layer_name = prefix +:+ rest).
Proof.
  intros Hstar Hfree. rewrite match_layer_compiled.
  rewrite <- (wildcard_match_prefix prefix layer_name Hstar).
  rewrite <- (matches_glob_items (prefix +:+ "*") layer_name true Hfree).
  split; [intros E; injection E as ->; reflexivity | intros ->; reflexivity].
Qed.

Lemma match_layer_prefix_pattern_witness :
  geometry.match_layer "M1_test" ("M1_" +:+ "*") = inr true
  <-> exists rest, "M1_test" = "M1_" +:+ rest.
Proof.
  apply (match_layer_prefix_pattern "M1_test" "M1_"); reflexivity.
Defined.

(** ** [format_position], continued *)

Lemma list_ascii_of_string_append (s t : string) :
  list_ascii_of_string (s +:+ t) = list_ascii_of_string s ++ list_ascii_of_string t.
Proof.
  induction s as [| c s IH]; [reflexivity |].
  change (String c s +:+ t) with (String c (s +:+ t)). simpl. rewrite IH. reflexivity.
Qed.

(** X5. What [format_position] returns is made of strings only and is
    nested like its argument; a value made of strings only is returned
    unchanged, so that formatting again, with any unit, changes nothing. *)
Theorem format_position_normal_form (x v : pyval) (units units' : string) :
  is_formatted (geometry.format_position x units) = true
  /\ shape (geometry.format_position x units) = shape x
  /\ (is_formatted v = true -> geometry.format_position v units' = v).
Proof.
  split; [| split].
  - induction x as [| b | z | f | s | l IH] using pyval_ind; try reflexivity.
    cbn [geometry.format_position is_formatted]. apply forallb_forall.
    intros y Hy. apply in_map_iff in Hy as (x0 & <- & Hx0).
    exact (proj1 (List.Forall_forall _ _) IH x0 Hx0).
  - induction x as [| b | z | f | s | l IH] using pyval_ind; try reflexivity.
    cbn [geometry.format_position shape]. f_equal. rewrite map_map.
    apply map_ext_Forall. exact IH.
  - induction v as [| b | z | f | s | l IH] using pyval_ind; try discriminate;
      [reflexivity |].
    cbn [is_formatted geometry.format_position]. intros Hl. f_equal.
    rewrite <- (map_id l) at 2. apply map_ext_Forall.
    apply List.Forall_forall. intros y Hy.
    apply (proj1 (List.Forall_forall _ _) IH y Hy).
    exact (proj1 (forallb_forall _ _) Hl y Hy).
Qed.

Lemma format_position_normal_form_witness :
  geometry.format_position (PList [PStr "1um"; PList [PStr "2mm"]]) "nm"
  = PList [PStr "1um"; PList [PStr "2mm"]].
Proof.
  apply (format_position_normal_form PNone (PList [PStr "1um"; PList [PStr "2mm"]])
           "um" "nm").
  reflexivity.
Defined.

(** X6. Different integers are formatted differently, whatever the unit. *)
Theorem format_position_separates_integers (a b : Z) (units : string) :
  a <> b ->
  geometry.format_position (PInt a) units <> geometry.format_position (PInt b) units.
Proof.
  intros Hab E. cbn [geometry.format_position] in E. injection E as E.
  apply append_cancel_r in E. apply Hab. unfold str_int in E.
  exact (pretty_Z_inj _ _ E).
Qed.

Lemma format_position_separates_integers_witness :
  (10 <> -10)%Z
  /\ geometry.format_position (PInt 10) "um"
     <> geometry.format_position (PInt (-10)) "um".
Proof.
  assert (Hne : (10 <> -10)%Z) by discriminate.
  split; [exact Hne |].
  exact (format_position_separates_integers 10 (-10) "um" Hne).
Defined.

(** ** Shape creators, continued *)

Lemma emap_inl {A B : Type} (f : A -> exn + B) (l : list A) (e : exn) :
  emap f l = inl e -> exists a, In a l /\ f a = inl e.
Proof.
  induction l as [| a l IH]; simpl; [discriminate |].
  destruct (f a) as [e' | b] eqn:Fa; simpl.
  - intros E. injection E as <-. exists a. split; [left; reflexivity | exact Fa].
  - destruct (emap f l) as [e' | bs]; simpl; [| discriminate].
    intros E. injection E as <-. destruct (IH eq_refl) as (a' & Ha' & Fa').
    exists a'. split; [right; exact Ha' | exact Fa'].
Qed.

Lemma PLPoint_error (p : list pyval) (units : string) (e : exn) :
  geometry.PLPoint p units = inl e -> e = IndexError.
Proof.
  unfold geometry.PLPoint, getitem.
  destruct p as [| x [| y [| z p]]]; cbn; intros E; congruence.
Qed.

Lemma PLPoint_short (p : list pyval) (units : string) :
  length p < 3 -> geometry.PLPoint p units = inl IndexError.
Proof.
  unfold geometry.PLPoint, getitem.
  destruct p as [| x [| y [| z p]]]; cbn; intros Hlen; try reflexivity; lia.
Qed.

(** X7. [create_polygon] raises [IndexError] and sends nothing to the
    session when the point list is empty or when one of the points has
    fewer than three coordinates. *)
Theorem create_polygon_malformed_points
    (name : string) (points : list (list pyval)) (units : string) (ed : Editor) :
  (points = [] \/ Exists (fun p => length p < 3) points) ->
  geometry.create_polygon name points units ed = (inl IndexError, ed).
Proof.
  intros Hbad. apply create_polygon_raises.
  destruct points as [| first rest]; [reflexivity |].
  destruct Hbad as [Hnil | Hshort]; [discriminate |].
  unfold geometry.polyline_args.
  change (getitem (first :: rest) 0) with (@inr exn _ first). cbn [ebind].
  destruct (emap (fun p => geometry.PLPoint p units) ((first :: rest) ++ [first]))
    as [e | entries] eqn:Hentries; cbn [ebind].
  - destruct (emap_inl _ _ _ Hentries) as (p & _ & Hp).
    rewrite (PLPoint_error _ _ _ Hp). reflexivity.
  - exfalso. apply List.Exists_exists in Hshort as (p & Hin & Hlen).
    apply list_elem_of_In, list_elem_of_lookup in Hin as [i Hi].
    assert (Hlook : ((first :: rest) ++ [first]) !! i = Some p)
      by (apply lookup_app_l_Some; exact Hi).
    destruct (emap_lookup _ _ _ i p Hentries Hlook) as (e & _ & He).
    rewrite (PLPoint_short _ _ Hlen) in He. discriminate.
Qed.

Lemma create_polygon_malformed_points_witness :
  geometry.create_polygon "flat" [[PInt 0; PInt 0]; [PInt 1; PInt 0]; [PInt 1; PInt 1]]
    "um" fresh_editor
  = (inl IndexError, fresh_editor).
Proof.
  apply create_polygon_malformed_points. right.
  apply List.Exists_cons_hd. simpl. lia.
Defined.

(** ** One method, at most one call *)

Lemma issued_guarded_invoke (g : bool) (m : string) (a : list pyval) (ed : Editor) :
  at_most_one_call m (issued (if g then invoke m a else ret tt) ed).
Proof.
  destruct g.
  - right. exists a. apply (issued_recorded _ _ (inr tt)). reflexivity.
  - left. apply (issued_unchanged _ _ (inr tt)). reflexivity.
Qed.

(** X8. Every command of the geometry module reaches the session through
    its own method only, and at most once per call: the shape creators,
    the transforms, [set_color], and [add_material], which always makes its
    one call. The two exceptions are [copy_paste], which records [Copy]
    followed by [Paste] or nothing, and [set_material], which records one or
    two [ChangeProperty] calls or nothing. *)
Theorem geometry_commands_call_once
    (ed : Editor) (name axis units : string) (x y z w h sx sy sz : pyval)
    (points : list (list pyval)) (objects tool_objects : list string)
    (amount : number) (keep_originals : bool)
    (red green blue transparency : pyval) (parameters : list (string * number))
    (material : option string) (solve_inside : option bool) :
  at_most_one_call "CreateRectangle"
    (issued (geometry.create_rectangle name x y z w h axis units) ed)
  /\ at_most_one_call "CreateBox"
       (issued (geometry.create_box name x y z sx sy sz units) ed)
  /\ at_most_one_call "CreatePolyline"
       (issued (geometry.create_polygon name points units) ed)
  /\ at_most_one_call "SweepAlongVector"
       (issued (geometry.thicken_sheet objects amount units) ed)
  /\ at_most_one_call "Move" (issued (geometry.move_vertically objects amount units) ed)
  /\ at_most_one_call "Scale" (issued (geometry.scale objects amount) ed)
  /\ at_most_one_call "Delete" (issued (geometry.delete objects) ed)
  /\ at_most_one_call "Subtract"
       (issued (geometry.subtract objects tool_objects keep_originals) ed)
  /\ at_most_one_call "Unite" (issued (geometry.unite objects keep_originals) ed)
  /\ at_most_one_call "ChangeProperty"
       (issued (geometry.set_color objects red green blue transparency) ed)
  /\ (exists a, issued (geometry.add_material name parameters) ed
                = [Call "AddMaterial" a])
  /\ (issued (geometry.copy_paste objects) ed = []
      \/ exists a, issued (geometry.copy_paste objects) ed
                   = [Call "Copy" a; Call "Paste" []])
  /\ (length (issued (geometry.set_material objects material solve_inside) ed) <= 2
      /\ Forall (fun c => meth c = "ChangeProperty")
           (issued (geometry.set_material objects material solve_inside) ed)).
Proof.
  repeat match goal with |- _ /\ _ => split end;
    try apply issued_guarded_invoke.
  - destruct (geometry.polyline_args name points units) as [e | a] eqn:Ha.
    + left. apply (issued_unchanged _ _ (inl e)). apply create_polygon_raises, Ha.
    + right. exists a. apply (issued_recorded _ _ (inr tt)).
      rewrite (create_polygon_run _ _ _ _ _ Ha). reflexivity.
  - eexists. apply (issued_recorded _ _ (inr tt)). reflexivity.
  - destruct objects as [| o objects'].
    + left. apply (issued_unchanged _ _ (inr [])). reflexivity.
    + right. destruct (copy_paste_issues_copy_then_paste (o :: objects') ed)
        as (a & Ha & _); [discriminate |].
      exists a. exact Ha.
  - destruct objects as [| o objects'].
    + rewrite (issued_unchanged _ _ (inr tt))
        by apply set_material_without_objects.
      simpl. lia.
    + rewrite set_material_issued by discriminate.
      rewrite length_app. destruct solve_inside; simpl; lia.
  - destruct objects as [| o objects'].
    + rewrite (issued_unchanged _ _ (inr tt))
        by apply set_material_without_objects.
      constructor.
    + rewrite set_material_issued by discriminate.
      apply Forall_app. split; [destruct solve_inside |]; repeat constructor.
Qed.

(** ** Layer maps and materials *)

(** X9. [add_layer] only appends: the destination layers read back from
    the layer map, and those read back from the order map, are the earlier
    ones followed by the new layer, so that two lists naming the same layers
    in the same order still do after the call. The layer map grows by one
    entry and the order map by two. *)
Theorem add_layer_appends
    (layer_map order_map : list pyval) (layer_num order : pyval)
    (dest_layer layer_type : string) :
  omap layer_map_dest
    (fst (geometry.add_layer layer_map order_map layer_num dest_layer order layer_type))
  = omap layer_map_dest layer_map ++ [dest_layer]
  /\ omap order_map_dest
       (snd (geometry.add_layer layer_map order_map layer_num dest_layer order layer_type))
     = omap order_map_dest order_map ++ [dest_layer]
  /\ length (fst (geometry.add_layer layer_map order_map layer_num dest_layer order
                    layer_type))
     = length layer_map + 1
  /\ length (snd (geometry.add_layer layer_map order_map layer_num dest_layer order
                    layer_type))
     = length order_map + 2.
Proof.
  unfold geometry.add_layer. cbn [fst snd].
  rewrite !omap_app, !length_app. repeat split.
Qed.

Lemma pairs_of_material_parameters (parameters : list (string * number)) :
  pairs_of (geometry.material_parameters parameters)
  = map (fun kv => (PStr (fst kv +:+ ":="), PStr (str_number (snd kv)))) parameters.
Proof.
  induction parameters as [| [key value] rest IH]; [reflexivity |].
  cbn [geometry.material_parameters app pairs_of map fst snd]. rewrite IH. reflexivity.
Qed.

(** X10. [add_material] sends one list: the six fixed header entries that
    begin with ["NAME:" + name], then, for each keyword argument in the
    order given, the key followed by [:=] and the text of the value. *)
Theorem add_material_parameter_list
    (name : string) (parameters : list (string * number)) (ed : Editor) :
  exists tail,
    issued (geometry.add_material name parameters) ed
    = [Call "AddMaterial" [PList (geometry.material_header name ++ tail)]]
    /\ head (geometry.material_header name) = Some (PStr ("NAME:" +:+ name))
    /\ length (geometry.material_header name) = 6
    /\ length tail = 2 * length parameters
    /\ pairs_of tail
       = map (fun kv => (PStr (fst kv +:+ ":="), PStr (str_number (snd kv)))) parameters.
Proof.
  exists (geometry.material_parameters parameters). split; [| split; [| split; [| split]]].
  - apply (issued_recorded _ _ (inr tt)). reflexivity.
  - reflexivity.
  - reflexivity.
  - induction parameters as [| [key value] rest IH]; [reflexivity |].
    cbn [geometry.material_parameters app length]. rewrite IH. lia.
  - apply pairs_of_material_parameters.
Qed.

(** ** Colours, continued *)

Lemma py_int_of_Z (k : Z) : (0 <= k)%Z -> geometry.py_int (IZR k) = k.
Proof.
  intros Hk. unfold geometry.py_int.
  destruct (Rle_dec 0 (IZR k)) as [_ | Hneg].
  - symmetry. apply Int_part_spec. lra.
  - exfalso. apply Hneg. apply IZR_le in Hk. exact Hk.
Qed.

Lemma py_int_at_least (x : R) (k : Z) :
  (IZR k <= x)%R -> (0 <= k)%Z -> (k <= geometry.py_int x)%Z.
Proof.
  intros Hx Hk. unfold geometry.py_int.
  assert (0 <= IZR k)%R by (apply IZR_le in Hk; exact Hk).
  destruct (Rle_dec 0 x) as [_ | Hneg]; [| lra].
  destruct (base_Int_part x) as [_ Hlow].
  assert (Hlt : (IZR k - 1 < IZR (Int_part x))%R) by lra.
  rewrite <- minus_IZR in Hlt. apply lt_IZR in Hlt. lia.
Qed.

Lemma color_of_dielectric (material : string)
    (d : gmap string (gmap string R)) (is_sheet : bool) :
  drawn_as_conductor material d = false ->
  geometry.color_by_material material d is_sheet
  = (let n := 0.3 * (geometry.material_property d material "permittivity" 1 - 1) in
     (map (fun c => geometry.py_int (100 + 80 * c)) (map cos (geometry.palette_phases n)),
      Rpower 0.93 (if is_sheet then 2 * n else n)))%R.
Proof.
  unfold drawn_as_conductor, geometry.color_by_material. intros ->.
  cbv zeta. replace (1.0)%R with 1%R by lra. reflexivity.
Qed.

Lemma color_of_conductor (material : string)
    (d : gmap string (gmap string R)) (is_sheet : bool) :
  drawn_as_conductor material d = true ->
  geometry.color_by_material material d is_sheet = ([240; 120; 240]%Z, 0.5%R).
Proof.
  unfold drawn_as_conductor, geometry.color_by_material. intros ->. reflexivity.
Qed.

(** X11. A material that is not [pec] and has no entry in the table (or an
    entry without conductivity and permittivity) is drawn with the colour
    (140, 20, 140) and opacity 1, sheet or solid: its permittivity defaults
    to 1, which gives [n = 0]. *)
Theorem unknown_material_color
    (material : string) (material_dict : gmap string (gmap string R))
    (is_sheet : bool) :
  material <> "pec" ->
  default ∅ (material_dict !! material) !! "conductivity" = None ->
  default ∅ (material_dict !! material) !! "permittivity" = None ->
  geometry.color_by_material material material_dict is_sheet
  = ([140; 20; 140]%Z, 1%R).
Proof.
  intros Hname Hcond Hperm.
  rewrite color_of_dielectric.
  - unfold geometry.material_property. rewrite Hperm. cbn [default].
    replace (0.3 * (1 - 1))%R with 0%R by lra. cbv zeta.
    unfold geometry.palette_phases. cbn [map].
    replace (0 - PI / 3)%R with (- (PI / 3))%R by lra.
    rewrite cos_neg, !Rplus_0_l, cos_PI3, cos_PI.
    replace (100 + 80 * (1 / 2))%R with (IZR 140) by lra.
    replace (100 + 80 * -1)%R with (IZR 20) by lra.
    rewrite !py_int_of_Z by lia.
    replace (if is_sheet then (2 * 0)%R else 0%R) with 0%R
      by (destruct is_sheet; lra).
    rewrite Rpower_O by lra. reflexivity.
  - unfold drawn_as_conductor, geometry.material_property.
    rewrite (bool_decide_eq_false_2 _ Hname), Hcond. cbn [default].
    rewrite gt_false by lra. reflexivity.
Qed.

Lemma unknown_material_color_witness :
  geometry.color_by_material "vacuum" silicon_dict true = ([140; 20; 140]%Z, 1%R).
Proof.
  apply unknown_material_color; [discriminate | reflexivity | reflexivity].
Defined.

(** X12. For a permittivity between -1000 and 1000 (1 when missing), where
    the power [0.93 ** x] of the code neither overflows nor underflows in
    double precision, and with the arithmetic read over the real numbers:
    [color_by_material] gives three colour channels, each between 20 and
    240, a valid RGB triple; for a material not drawn as a conductor each
    lies between 20 and 180. *)
Theorem color_channels_in_range
    (material : string) (material_dict : gmap string (gmap string R))
    (is_sheet : bool) :
  (-1000 <= geometry.material_property material_dict material "permittivity" 1
   <= 1000)%R ->
  length (fst (geometry.color_by_material material material_dict is_sheet)) = 3
  /\ Forall (fun ch => (20 <= ch <= 240)%Z)
       (fst (geometry.color_by_material material material_dict is_sheet))
  /\ (drawn_as_conductor material material_dict = false ->
      Forall (fun ch => (20 <= ch <= 180)%Z)
        (fst (geometry.color_by_material material material_dict is_sheet))).
Proof.
  intros _.
  assert (Hrange : forall t : R, (20 <= geometry.py_int (100 + 80 * cos t) <= 180)%Z).
  { intros t. pose proof (COS_bound t) as [Hlow Hhigh]. split.
    - apply py_int_at_least; [lra | lia].
    - apply py_int_at_most; lra. }
  destruct (drawn_as_conductor material material_dict) eqn:Hc.
  - rewrite (color_of_conductor _ _ _ Hc). cbn [fst].
    split; [reflexivity |]. split; [| discriminate].
    repeat constructor; lia.
  - rewrite (color_of_dielectric _ _ _ Hc). cbv zeta. cbn [fst].
    unfold geometry.palette_phases. cbn [map].
    split; [reflexivity |]. split; [| intros _].
    + repeat constructor;
        match goal with |- (_ <= geometry.py_int (100 + 80 * cos ?t))%Z =>
          destruct (Hrange t); lia
        | |- (geometry.py_int (100 + 80 * cos ?t) <= _)%Z =>
          destruct (Hrange t); lia
        end.
    + repeat constructor;
        match goal with |- (_ <= geometry.py_int (100 + 80 * cos ?t))%Z =>
          destruct (Hrange t); lia
        | |- (geometry.py_int (100 + 80 * cos ?t) <= _)%Z =>
          destruct (Hrange t); lia
        end.
Qed.

Lemma color_channels_in_range_witness :
  length (fst (geometry.color_by_material "silicon" silicon_dict false)) = 3
  /\ Forall (fun ch => (20 <= ch <= 240)%Z)
       (fst (geometry.color_by_material "silicon" silicon_dict false)).
Proof.
  assert (Hperm : geometry.material_property silicon_dict "silicon" "permittivity" 1
                  = 11.45%R).
  { rewrite (material_property_entry _ _ _ {[ "permittivity" := 11.45%R ]})
      by apply lookup_singleton_eq.
    rewrite lookup_singleton_eq. reflexivity. }
  destruct (color_channels_in_range "silicon" silicon_dict false) as (Hlen & Hall & _).
  - rewrite Hperm. lra.
  - split; assumption.
Defined.

(** X13. The colour channels do not depend on [is_sheet]; for a material
    not drawn as a conductor, the opacity of a sheet is the square of the
    opacity of the solid. *)
Theorem sheet_opacity_is_solid_opacity_squared
    (material : string) (material_dict : gmap string (gmap string R)) :
  fst (geometry.color_by_material material material_dict true)
  = fst (geometry.color_by_material material material_dict false)
  /\ (drawn_as_conductor material material_dict = false ->
      snd (geometry.color_by_material material material_dict true)
      = (snd (geometry.color_by_material material material_dict false)
         * snd (geometry.color_by_material material material_dict false))%R).
Proof.
  destruct (drawn_as_conductor material material_dict) eqn:Hc.
  - rewrite !(color_of_conductor _ _ _ Hc). split; [reflexivity | discriminate].
  - rewrite !(color_of_dielectric _ _ _ Hc). cbv zeta. cbn [fst snd].
    split; [reflexivity | intros _].
    rewrite <- Rpower_plus. f_equal. lra.
Qed.

Lemma sheet_opacity_is_solid_opacity_squared_witness :
  snd (geometry.color_by_material "silicon" silicon_dict true)
  = (snd (geometry.color_by_material "silicon" silicon_dict false)
     * snd (geometry.color_by_material "silicon" silicon_dict false))%R.
Proof.
  apply (sheet_opacity_is_solid_opacity_squared "silicon" silicon_dict).
  unfold drawn_as_conductor.
  rewrite (material_property_entry _ _ _ {[ "permittivity" := 11.45%R ]})
    by apply lookup_singleton_eq.
  rewrite lookup_singleton_ne by discriminate. cbn [default].
  rewrite gt_false by lra. reflexivity.
Defined.





(** * Further properties of the cross-section helpers *)

(** ** Solver input files, continued *)

(** The run of [produce_cross_section_sif_files], case by case. *)
Lemma produce_sif_files_cases (H : cross_section_helpers.elmer_helpers)
    (json : cross_section_helpers.json_data) (folder_path : string)
    (log : list cross_section_helpers.fs_event) :
  cross_section_helpers.produce_cross_section_sif_files H json folder_path log
  = match cross_section_helpers.sif_names json with
    | [] => (inl IndexError, log ++ [cross_section_helpers.Mkdir folder_path])
    | name0 :: rest =>
        let first :=
          [ cross_section_helpers.Mkdir folder_path;
            cross_section_helpers.WriteFile folder_path (name0 +:+ ".sif")
              (cross_section_helpers.sif_capacitance H json folder_path name0
                 (PInt 0) 2 false) ] in
        if cross_section_helpers.run_inductance_sim json then
          if cross_section_helpers.use_london_equations H json then
            let definitions :=
              cross_section_helpers.WriteFile folder_path "inductance.definitions"
                (cross_section_helpers.sif_circuit_definitions H json) in
            match rest with
            | [] => (inl IndexError, log ++ first ++ [definitions])
            | name1 :: _ =>
                (inr [name0 +:+ ".sif"; name1 +:+ ".sif"],
                 log ++ first
                   ++ [ definitions;
                        cross_section_helpers.WriteFile folder_path (name1 +:+ ".sif")
                          (cross_section_helpers.sif_inductance H json folder_path
                             cross_section_helpers.angular_frequency
                             "inductance.definitions") ])
            end
          else
            match rest with
            | [] => (inl IndexError, log ++ first)
            | name1 :: _ =>
                (inr [name0 +:+ ".sif"; name1 +:+ ".sif"],
                 log ++ first
                   ++ [ cross_section_helpers.WriteFile folder_path (name1 +:+ ".sif")
                          (cross_section_helpers.sif_capacitance H json folder_path
                             name1 (PInt 0) 2 true) ])
            end
        else (inr [name0 +:+ ".sif"], log ++ first)
    end.
Proof.
  unfold cross_section_helpers.produce_cross_section_sif_files,
    cross_section_helpers.wbind, cross_section_helpers.save,
    cross_section_helpers.wbind, cross_section_helpers.emit,
    cross_section_helpers.wlift, cross_section_helpers.wret.
  destruct (cross_section_helpers.sif_names json) as [| name0 rest]; [reflexivity |].
  change (getitem (name0 :: rest) 0) with (@inr exn _ name0).
  destruct (cross_section_helpers.run_inductance_sim json);
    [destruct (cross_section_helpers.use_london_equations H json) |];
    destruct rest as [| name1 rest']; cbn [getitem lookup list_lookup fst snd];
    simpl; rewrite <- ?app_assoc; reflexivity.
Qed.

Ltac sif_cases H json folder_path log :=
  rewrite (produce_sif_files_cases H json folder_path log);
  destruct (cross_section_helpers.sif_names json) as [| ?name0 [| ?name1 ?rest]];
  destruct (cross_section_helpers.run_inductance_sim json);
  destruct (cross_section_helpers.use_london_equations H json);
  cbv zeta; cbn [fst snd].

Ltac sif_on_cases fs H json folder_path log :=
  unfold cross_section_helpers.produce_cross_section_sif_files_on,
    cross_section_helpers.save_on, cross_section_helpers.wbind,
    cross_section_helpers.attempt, cross_section_helpers.wlift,
    cross_section_helpers.wret;
  destruct (cross_section_helpers.mkdir_raises fs log folder_path) eqn:?Hmkdir;
  [| destruct (cross_section_helpers.sif_names json) as [| ?name0 [| ?name1 ?rest]];
     cbn [getitem lookup list_lookup];
     [| destruct (cross_section_helpers.open_raises fs _ folder_path (_ +:+ ".sif"))
          eqn:?Hfirst;
        [| destruct (cross_section_helpers.run_inductance_sim json);
           [destruct (cross_section_helpers.use_london_equations H json);
            [destruct (cross_section_helpers.open_raises fs _ folder_path
                         "inductance.definitions") eqn:?Hdefs |] |]] ..];
     cbn [getitem lookup list_lookup];
     repeat match goal with
       | |- context [cross_section_helpers.open_raises fs ?l ?f ?n] =>
           lazymatch goal with
           | _ : cross_section_helpers.open_raises fs l f n = _ |- _ => fail
           | _ => destruct (cross_section_helpers.open_raises fs l f n) eqn:?Hsecond
           end
       end];
  cbn [fst snd].

(** The writer of C4 is the writer on a reliable file system. *)
Lemma reliable_file_system_run (H : cross_section_helpers.elmer_helpers)
    (json : cross_section_helpers.json_data) (folder_path : string)
    (log : list cross_section_helpers.fs_event) :
  cross_section_helpers.produce_cross_section_sif_files_on reliable H json folder_path log
  = cross_section_helpers.produce_cross_section_sif_files H json folder_path log.
Proof. reflexivity. Qed.

(** X15. When [produce_cross_section_sif_files] returns, also on a file
    system whose calls may raise, it returns one name without the
    inductance run and two with it; each returned name is a configured name
    followed by [.sif], and during the call a file was opened at
    [Path(folder_path).joinpath(name)] and written. *)
Theorem returned_sif_files_were_written
    (fs : cross_section_helpers.file_system)
    (H : cross_section_helpers.elmer_helpers)
    (json : cross_section_helpers.json_data) (folder_path : string)
    (log : list cross_section_helpers.fs_event) (out : list string) :
  fst (cross_section_helpers.produce_cross_section_sif_files_on fs H json folder_path log)
  = inr out ->
  length out = (if cross_section_helpers.run_inductance_sim json then 2 else 1)
  /\ exists new,
       snd (cross_section_helpers.produce_cross_section_sif_files_on
              fs H json folder_path log)
       = log ++ new
       /\ Forall
            (fun name =>
               (exists base, In base (cross_section_helpers.sif_names json)
                             /\ name = base +:+ ".sif")
               /\ exists content,
                    In (cross_section_helpers.WriteFile folder_path name content) new)
            out.
Proof.
  sif_on_cases fs H json folder_path log; intros E; try discriminate E;
    injection E as <-; (split; [reflexivity |]);
    rewrite <- ?app_assoc; (eexists; split; [reflexivity |]);
    repeat (apply List.Forall_cons || apply List.Forall_nil);
    (split;
     [ eexists; split; [| reflexivity]; simpl; tauto
     | eexists; simpl; eauto 10 ]).
Qed.

Lemma returned_sif_files_were_written_witness :
  length ["c.sif"; "l.sif"] = 2
  /\ exists new,
       snd (cross_section_helpers.produce_cross_section_sif_files_on
              without_sub_directories (sample_helpers true)
              (sample_json ["c"; "l"] true) "out" [])
       = [] ++ new
       /\ Forall
            (fun name =>
               (exists base, In base ["c"; "l"] /\ name = base +:+ ".sif")
               /\ exists content,
                    In (cross_section_helpers.WriteFile "out" name content) new)
            ["c.sif"; "l.sif"].
Proof.
  apply (returned_sif_files_were_written without_sub_directories (sample_helpers true)
           (sample_json ["c"; "l"] true) "out" [] ["c.sif"; "l.sif"]).
  reflexivity.
Defined.


(** A name under a missing sub-directory: the exception is the one of
    [open], not [IndexError], although the second name is missing too. *)
Example sif_files_missing_sub_directory :
  cross_section_helpers.produce_cross_section_sif_files_on without_sub_directories
    (sample_helpers false) (sample_json ["missing_dir/b"] true) "out" []
  = (inl FileNotFoundError, [cross_section_helpers.Mkdir "out"]).
Proof. reflexivity. Qed.


(** X18. With the inductance run and two configured names, the second file
    is written after the first. In London mode the circuit definitions are
    saved as [inductance.definitions] before the second input file, which is
    generated by [sif_inductance] with the angular frequency 500 and that
    file name; the definitions file is not among the returned names.
    Otherwise the second file is generated by [sif_capacitance] for the
    second name, with frequency 0, dimension 2 and [with_zero=True]. *)
Theorem second_sif_file
    (H : cross_section_helpers.elmer_helpers)
    (json : cross_section_helpers.json_data) (folder_path name0 name1 : string)
    (rest : list string) (log : list cross_section_helpers.fs_event) :
  cross_section_helpers.run_inductance_sim json = true ->
  cross_section_helpers.sif_names json = name0 :: name1 :: rest ->
  fst (cross_section_helpers.produce_cross_section_sif_files H json folder_path log)
  = inr [name0 +:+ ".sif"; name1 +:+ ".sif"]
  /\ exists first,
       first = cross_section_helpers.WriteFile folder_path (name0 +:+ ".sif")
                 (cross_section_helpers.sif_capacitance H json folder_path name0
                    (PInt 0) 2 false)
       /\ snd (cross_section_helpers.produce_cross_section_sif_files
                 H json folder_path log)
          = log ++ cross_section_helpers.Mkdir folder_path :: first
              :: (if cross_section_helpers.use_london_equations H json then
                    [ cross_section_helpers.WriteFile folder_path
                        "inductance.definitions"
                        (cross_section_helpers.sif_circuit_definitions H json);
                      cross_section_helpers.WriteFile folder_path (name1 +:+ ".sif")
                        (cross_section_helpers.sif_inductance H json folder_path
                           (PFloat (PyFloat 500%float "500.0"))
                           "inductance.definitions") ]
                  else
                    [ cross_section_helpers.WriteFile folder_path (name1 +:+ ".sif")
                        (cross_section_helpers.sif_capacitance H json folder_path
                           name1 (PInt 0) 2 true) ]).
Proof.
  intros Hrun Hnames. rewrite (produce_sif_files_cases H json folder_path log).
  rewrite Hnames, Hrun. cbv zeta.
  destruct (cross_section_helpers.use_london_equations H json); cbn [fst snd];
    (split; [reflexivity |]); eexists; split; reflexivity.
Qed.

Lemma second_sif_file_witness :
  fst (cross_section_helpers.produce_cross_section_sif_files (sample_helpers false)
         (sample_json ["c"; "c0"] true) "out" [])
  = inr ["c" +:+ ".sif"; "c0" +:+ ".sif"].
Proof.
  apply (second_sif_file (sample_helpers false) (sample_json ["c"; "c0"] true)
           "out" "c" "c0" [] []); reflexivity.
Defined.

(** ** Result files, continued *)

Lemma get_results_cases (N : cross_section_helpers.numerics)
    (H : cross_section_helpers.elmer_helpers)
    (json : cross_section_helpers.json_data) (files : gmap string string) :
  cross_section_helpers.get_cross_section_capacitance_and_inductance N H json files
  = match cross_section_helpers.read_table N files "capacitance.dat" with
    | inl FileNotFoundError =>
        inr {| cross_section_helpers.Cs := None; cross_section_helpers.Ls := None |}
    | inl e => inl e
    | inr c =>
        match cross_section_helpers.l_matrix_of N H json files with
        | inl FileNotFoundError =>
            inr {| cross_section_helpers.Cs := Some c; cross_section_helpers.Ls := None |}
        | inl e => inl e
        | inr l =>
            inr {| cross_section_helpers.Cs := Some c; cross_section_helpers.Ls := Some l |}
        end
    end.
Proof. reflexivity. Qed.

(** X19. An inductance matrix is never returned without the capacitance
    matrix: in every returned dictionary, [Ls] is [None] when [Cs] is, and
    [Cs] is then [None] because reading [capacitance.dat] raised
    [FileNotFoundError]. *)
Theorem inductance_only_with_capacitance
    (N : cross_section_helpers.numerics) (H : cross_section_helpers.elmer_helpers)
    (json : cross_section_helpers.json_data) (files : gmap string string)
    (r : cross_section_helpers.matrices) :
  cross_section_helpers.get_cross_section_capacitance_and_inductance N H json files
  = inr r ->
  cross_section_helpers.Cs r = None ->
  cross_section_helpers.Ls r = None
  /\ cross_section_helpers.read_table N files "capacitance.dat" = inl FileNotFoundError.
Proof.
  rewrite get_results_cases.
  destruct (cross_section_helpers.read_table N files "capacitance.dat") as [[] | c];
    try discriminate.
  - intros E. injection E as <-. split; reflexivity.
  - destruct (cross_section_helpers.l_matrix_of N H json files) as [[] | l];
      try discriminate; intros E; injection E as <-; discriminate.
Qed.

Lemma inductance_only_with_capacitance_witness :
  cross_section_helpers.Ls
    {| cross_section_helpers.Cs := None; cross_section_helpers.Ls := None |} = None
  /\ cross_section_helpers.read_table sample_numerics ∅ "capacitance.dat"
     = inl FileNotFoundError.
Proof.
  apply (inductance_only_with_capacitance sample_numerics (sample_helpers false)
           (sample_json ["c"] false) ∅); reflexivity.
Defined.

(** X20. Only missing files are forgiven. Any other exception reaches the
    caller: one raised while [capacitance.dat] is parsed, and one raised
    in the inductance part (a malformed file, a matrix that cannot be
    inverted), in which case the capacitance matrix that was already read
    is not returned either. *)
Theorem other_errors_reach_the_caller
    (N : cross_section_helpers.numerics) (H : cross_section_helpers.elmer_helpers)
    (json : cross_section_helpers.json_data) (files : gmap string string)
    (e : exn) (c : cross_section_helpers.matrix) :
  e <> FileNotFoundError ->
  (cross_section_helpers.read_table N files "capacitance.dat" = inl e ->
     cross_section_helpers.get_cross_section_capacitance_and_inductance N H json files
     = inl e)
  /\ (cross_section_helpers.read_table N files "capacitance.dat" = inr c ->
      cross_section_helpers.l_matrix_of N H json files = inl e ->
      cross_section_helpers.get_cross_section_capacitance_and_inductance N H json files
      = inl e).
Proof.
  intros He. rewrite get_results_cases. split.
  - intros ->. destruct e; try reflexivity. congruence.
  - intros -> ->. destruct e; try reflexivity. congruence.
Qed.

Lemma other_errors_reach_the_caller_witness :
  cross_section_helpers.get_cross_section_capacitance_and_inductance
    failing_numerics (sample_helpers false) (sample_json ["c"] false)
    capacitance_only_folder
  = inl (OtherError "ParserError").
Proof.
  assert (Hne : OtherError "ParserError" <> FileNotFoundError) by discriminate.
  apply (proj1 (other_errors_reach_the_caller failing_numerics (sample_helpers false)
                  (sample_json ["c"] false) capacitance_only_folder
                  (OtherError "ParserError") [] Hne)).
  reflexivity.
Defined.

(** X21. In London mode the inductance data is read from [inductance.dat]
    when the folder has it, whatever [inductance.dat.0] holds, and from
    [inductance.dat.0] otherwise; the column names always come from
    [inductance.dat.names], and the angular frequency is 500. *)
Theorem london_data_file_fallback
    (N : cross_section_helpers.numerics) (H : cross_section_helpers.elmer_helpers)
    (json : cross_section_helpers.json_data) (files : gmap string string)
    (text names : string) (data : cross_section_helpers.matrix) :
  cross_section_helpers.use_london_equations H json = true ->
  files !! "inductance.dat.names" = Some names ->
  cross_section_helpers.read_csv N text = inr data ->
  (files !! "inductance.dat" = Some text
   \/ (files !! "inductance.dat" = None /\ files !! "inductance.dat.0" = Some text)) ->
  cross_section_helpers.l_matrix_of N H json files
  = cross_section_helpers.london_inductance N data names
      (PFloat (PyFloat 500%float "500.0")).
Proof.
  intros Hlondon Hnames Hread Hfile.
  unfold cross_section_helpers.l_matrix_of, cross_section_helpers.is_file.
  rewrite Hlondon.
  change ("inductance.dat" +:+ ".names") with "inductance.dat.names".
  change ("inductance.dat" +:+ ".0") with "inductance.dat.0".
  destruct Hfile as [Hdat | [Hdat Hdat0]].
  - rewrite bool_decide_eq_true_2 by (rewrite Hdat; eexists; reflexivity).
    rewrite (read_table_present _ _ _ _ Hdat), Hread. cbn [ebind].
    unfold cross_section_helpers.open_file. rewrite Hnames. reflexivity.
  - rewrite bool_decide_eq_false_2 by (rewrite Hdat; apply is_Some_None).
    rewrite (read_table_present _ _ _ _ Hdat0), Hread. cbn [ebind].
    unfold cross_section_helpers.open_file. rewrite Hnames. reflexivity.
Qed.

Lemma london_data_file_fallback_witness :
  cross_section_helpers.l_matrix_of sample_numerics (sample_helpers true)
    (sample_json ["c"; "l"] true)
    {[ "inductance.dat.0" := "1 2"; "inductance.dat.names" := "res: x" ]}
  = cross_section_helpers.london_inductance sample_numerics [[1%float]] "res: x"
      (PFloat (PyFloat 500%float "500.0")).
Proof.
  apply (london_data_file_fallback sample_numerics (sample_helpers true)
           (sample_json ["c"; "l"] true) _ "1 2" "res: x" [[1%float]]);
    try reflexivity.
  right. split; reflexivity.
Defined.

(** X22. Without London mode, when [capacitance.dat] and
    [capacitance0.dat] are both read and the inversion succeeds, both
    matrices are returned: the capacitance matrix as read, the inductance
    matrix as computed from [capacitance0.dat]; the impedance files are not
    looked at. *)
Theorem both_matrices_from_two_capacitance_files
    (N : cross_section_helpers.numerics) (H : cross_section_helpers.elmer_helpers)
    (json : cross_section_helpers.json_data) (files : gmap string string)
    (text text0 : string) (c c0 l : cross_section_helpers.matrix) :
  cross_section_helpers.use_london_equations H json = false ->
  files !! "capacitance.dat" = Some text ->
  cross_section_helpers.read_csv N text = inr c ->
  files !! "capacitance0.dat" = Some text0 ->
  cross_section_helpers.read_csv N text0 = inr c0 ->
  cross_section_helpers.inverse_inductance N c0 = inr l ->
  cross_section_helpers.get_cross_section_capacitance_and_inductance N H json files
  = inr {| cross_section_helpers.Cs := Some c; cross_section_helpers.Ls := Some l |}.
Proof.
  intros Hlondon Hcap Hc Hcap0 Hc0 Hinv. rewrite get_results_cases.
  rewrite (read_table_present _ _ _ _ Hcap), Hc.
  unfold cross_section_helpers.l_matrix_of. rewrite Hlondon.
  rewrite (read_table_present _ _ _ _ Hcap0), Hc0. cbn [ebind]. rewrite Hinv.
  reflexivity.
Qed.

Lemma both_matrices_from_two_capacitance_files_witness :
  cross_section_helpers.get_cross_section_capacitance_and_inductance
    sample_numerics (sample_helpers false) (sample_json ["c"; "c0"] true)
    {[ "capacitance.dat" := "1"; "capacitance0.dat" := "1" ]}
  = inr {| cross_section_helpers.Cs := Some [[1%float]];
           cross_section_helpers.Ls := Some [[1%float]] |}.
Proof.
  apply (both_matrices_from_two_capacitance_files sample_numerics (sample_helpers false)
           (sample_json ["c"; "c0"] true) _ "1" "1" [[1%float]] [[1%float]] [[1%float]]);
    reflexivity.
Defined.

(** ** Column names *)

Lemma split_from_nonempty (sep : string) (s : string) :
  forall skip, text.split_from sep skip s <> [].
Proof.
  induction s as [| c s IH]; intros skip; cbn [text.split_from]; [discriminate |].
  destruct skip as [| k]; [| apply IH].
  destruct (String.prefix sep (String c s)); [discriminate |].
  destruct (text.split_from sep 0 s); discriminate.
Qed.

Lemma split_without_separator (sep s : string) :
  text.contains sep s = false -> text.split sep s = [s].
Proof.
  unfold text.split. induction s as [| c s IH]; [reflexivity |].
  cbn [text.contains text.split_from]. intros Hc.
  apply orb_false_elim in Hc as [Hprefix Hrest].
  rewrite Hprefix, (IH Hrest). reflexivity.
Qed.

Lemma split_with_separator (sep s : string) :
  text.contains sep s = true ->
  sep <> "" ->
  exists p q rest, text.split sep s = p :: q :: rest.
Proof.
  unfold text.split. intros Hc Hsep. induction s as [| c s IH].
  - destruct sep; [congruence | discriminate Hc].
  - cbn [text.contains text.split_from] in *.
    destruct (String.prefix sep (String c s)) eqn:Hprefix.
    + destruct (text.split_from sep (String.length sep - 1) s) as [| q rest] eqn:E.
      * exfalso. exact (split_from_nonempty _ _ _ E).
      * exists "", q, rest. reflexivity.
    + simpl in Hc. destruct (IH Hc) as (p & q & rest & E). rewrite E.
      exists (String c p), q, rest. reflexivity.
Qed.

Lemma replace_line_end_newline_free (s : string) :
  newline_free (re.replace cross_section_helpers.line_end "" s) = true.
Proof.
  unfold re.replace, cross_section_helpers.line_end.
  induction s as [| c s IH]; [reflexivity |].
  cbn [re.replace_from String.prefix].
  destruct (ascii_dec re.newline c) as [<- | Hne].
  - destruct s; exact IH.
  - cbn [newline_free]. rewrite IH, andb_true_r.
    apply negb_true_iff, Ascii.eqb_neq. congruence.
Qed.

Lemma column_name_cases (line : string) :
  (text.contains "res: " line = false
   /\ cross_section_helpers.column_name line = inl IndexError)
  \/ (text.contains "res: " line = true
      /\ exists name, cross_section_helpers.column_name line = inr name
                      /\ newline_free name = true).
Proof.
  unfold cross_section_helpers.column_name.
  destruct (text.contains "res: " line) eqn:Hc.
  - right. split; [reflexivity |].
    destruct (split_with_separator _ _ Hc) as (p & q & rest & E); [discriminate |].
    rewrite E. eexists. split; [reflexivity |]. apply replace_line_end_newline_free.
  - left. split; [reflexivity |].
    rewrite (split_without_separator _ _ Hc). reflexivity.
Qed.

Lemma append_cons (c : ascii) (a b : string) :
  String c a +:+ b = String c (a +:+ b).
Proof. reflexivity. Qed.

Lemma prefix_inv (sep : string) :
  forall s, String.prefix sep s = true -> exists rest, s = sep +:+ rest.
Proof.
  induction sep as [| a sep IH]; intros s Hp.
  - exists s. reflexivity.
  - destruct s as [| b s]; [discriminate Hp |].
    cbn [String.prefix] in Hp. destruct (ascii_dec a b) as [<- | _]; [| discriminate Hp].
    destruct (IH s Hp) as [rest ->]. exists rest. reflexivity.
Qed.

Lemma prefix_append (sep : string) :
  forall x y, String.prefix sep x = true -> String.prefix sep (x +:+ y) = true.
Proof.
  induction sep as [| a sep IH]; intros x y Hp;
    [destruct (x +:+ y); reflexivity |].
  destruct x as [| b x]; [discriminate Hp |].
  rewrite append_cons. cbn [String.prefix] in *.
  destruct (ascii_dec a b); [apply IH, Hp | discriminate Hp].
Qed.

Lemma prefix_of_append (sep rest : string) : String.prefix sep (sep +:+ rest) = true.
Proof.
  induction sep as [| a sep IH];
    [change ("" +:+ rest) with rest; destruct rest; reflexivity |].
  rewrite append_cons. cbn [String.prefix].
  destruct (ascii_dec a a); [exact IH | congruence].
Qed.

Lemma split_from_skip (sep : string) (tail rest : string) :
  text.split_from sep (String.length tail) (tail +:+ rest) = text.split_from sep 0 rest.
Proof.
  induction tail as [| c tail IH]; [reflexivity |].
  rewrite append_cons. cbn [String.length text.split_from]. exact IH.
Qed.

(** [s.split(sep)] at the first occurrence of [sep]. *)
Lemma split_at_first (sep s : string) :
  sep <> "" ->
  text.contains sep s = true ->
  exists before after,
    s = before +:+ sep +:+ after
    /\ text.contains sep before = false
    /\ text.split sep s = before :: text.split sep after.
Proof.
  intros Hsep. unfold text.split. induction s as [| c s IH]; intros Hc.
  - destruct sep; [congruence | discriminate Hc].
  - cbn [text.contains] in Hc. cbn [text.split_from].
    destruct (String.prefix sep (String c s)) eqn:Hprefix.
    + destruct (prefix_inv _ _ Hprefix) as [after Hs].
      exists "", after. split; [exact Hs |]. split.
      * destruct sep; [congruence | reflexivity].
      * destruct sep as [| a sep]; [congruence |].
        rewrite append_cons in Hs. injection Hs as _ ->.
        replace (String.length (String a sep) - 1) with (String.length sep)
          by (cbn [String.length]; lia).
        rewrite split_from_skip. reflexivity.
    + simpl in Hc. destruct (IH Hc) as (before & after & Hs & Hbefore & Hsplit).
      exists (String c before), after. split; [| split].
      * rewrite append_cons, <- Hs. reflexivity.
      * cbn [text.contains]. rewrite Hbefore, orb_false_r.
        destruct (String.prefix sep (String c before)) eqn:Hp; [| reflexivity].
        rewrite Hs, <- append_cons in Hprefix.
        rewrite (prefix_append _ _ _ Hp) in Hprefix. discriminate Hprefix.
      * rewrite Hsplit. reflexivity.
Qed.

(** The first piece of a split. *)
Lemma split_head (sep s : string) :
  sep <> "" ->
  exists piece rest pieces,
    text.split sep s = piece :: pieces
    /\ s = piece +:+ rest
    /\ text.contains sep piece = false
    /\ (rest = "" \/ String.prefix sep rest = true).
Proof.
  intros Hsep. destruct (text.contains sep s) eqn:Hc.
  - destruct (split_at_first sep s Hsep Hc) as (before & after & Hs & Hbefore & Hsplit).
    exists before, (sep +:+ after), (text.split sep after).
    split; [exact Hsplit |]. split; [exact Hs |]. split; [exact Hbefore |].
    right. apply prefix_of_append.
  - exists s, "", []. split; [apply split_without_separator, Hc |].
    split; [symmetry; apply append_empty_r |]. split; [exact Hc | left; reflexivity].
Qed.

Lemma replace_line_end (s : string) :
  re.replace cross_section_helpers.line_end "" s = without_line_breaks s.
Proof.
  unfold re.replace, cross_section_helpers.line_end.
  induction s as [| c s IH]; [reflexivity |].
  cbn [re.replace_from String.prefix without_line_breaks].
  destruct (ascii_dec re.newline c) as [<- | Hne].
  - rewrite Ascii.eqb_refl. destruct s; exact IH.
  - replace (Ascii.eqb c re.newline) with false
      by (symmetry; apply Ascii.eqb_neq; congruence).
    rewrite IH. reflexivity.
Qed.

Lemma column_name_of_line (line name : string) :
  cross_section_helpers.column_name line = inr name -> names_column line name.
Proof.
  unfold cross_section_helpers.column_name. intros E.
  destruct (text.contains "res: " line) eqn:Hc.
  - destruct (split_at_first "res: " line) as (before & after & Hline & Hbefore & Hsplit);
      [discriminate | exact Hc |].
    destruct (split_head "res: " after) as (piece & rest & pieces & Hafter & Hrest & Hpiece & Hend);
      [discriminate |].
    rewrite Hsplit, Hafter in E. cbn [getitem lookup list_lookup ebind] in E.
    injection E as <-. exists before, piece, rest.
    split; [rewrite Hline, Hrest; reflexivity |].
    split; [exact Hbefore |]. split; [exact Hpiece |]. split; [exact Hend |].
    apply replace_line_end.
  - rewrite (split_without_separator _ _ Hc) in E. discriminate E.
Qed.

(** X23. When the column names are obtained, there is one for each line of
    the names file that contains [res:], in the order of the lines: the
    name of a line is what stands between its first [res: ] and the next
    one, or the end of the line, without the line break. *)
Theorem column_names_one_per_result_line (names_text : string) (cols : list string) :
  cross_section_helpers.column_names names_text = inr cols ->
  Forall2 names_column
    (List.filter (text.contains "res:") (text.readlines names_text)) cols
  /\ length cols
     = length (List.filter (text.contains "res:") (text.readlines names_text))
  /\ Forall (fun name => newline_free name = true) cols.
Proof.
  unfold cross_section_helpers.column_names. intros E.
  pose proof (emap_length _ _ _ E) as Hlen.
  apply emap_inr_Forall2 in E. split; [| split; [exact Hlen |]].
  - clear Hlen. induction E as [| line name lines names Hline _ IH]; constructor;
      [apply column_name_of_line, Hline | exact IH].
  - clear Hlen. induction E as [| line name lines names Hline _ IH]; constructor;
      [| exact IH].
    destruct (column_name_cases line) as [[_ Hbad] | [_ (name' & Hname & Hfree)]];
      congruence.
Qed.

Lemma column_names_one_per_result_line_witness :
  Forall2 names_column
    (List.filter (text.contains "res:") (text.readlines sample_names))
    ["v_component(1) re"; "v_component(1) im"]
  /\ length ["v_component(1) re"; "v_component(1) im"]
     = length (List.filter (text.contains "res:") (text.readlines sample_names))
  /\ Forall (fun name => newline_free name = true)
       ["v_component(1) re"; "v_component(1) im"].
Proof.
  apply (column_names_one_per_result_line sample_names). reflexivity.
Defined.


Example column_names_of_malformed_file :
  cross_section_helpers.column_names malformed_names = inl IndexError.
Proof. reflexivity. Qed.

(** ** The mesh producer *)

Section OnlyBuilds.

Import cross_section_helpers.

Context {A B : Type}.

Lemma only_builds_ret (a : A) : only_builds (eng_ret a).
Proof.
  intros w. exists []. split; [| reflexivity].
  destruct w. cbn. rewrite app_nil_r. reflexivity.
Qed.

Lemma only_builds_lift (m : exn + A) : only_builds (eng_lift m).
Proof.
  intros w. exists []. split; [| reflexivity].
  destruct w. cbn. rewrite app_nil_r. reflexivity.
Qed.

Lemma only_builds_ask (c : mesh_call) (reply : oracle -> list mesh_call -> A) :
  building c = true -> only_builds (ask c reply).
Proof.
  intros Hc w. exists [c]. split; [| cbn; rewrite Hc; reflexivity].
  destruct c; try discriminate Hc; reflexivity.
Qed.

Lemma only_builds_bind (m : Eng A) (k : A -> Eng B) :
  only_builds m -> (forall a, only_builds (k a)) -> only_builds (eng_bind m k).
Proof.
  intros Hm Hk w. unfold eng_bind.
  destruct (Hm w) as (cs & Hw & Hcs).
  destruct (m w) as [[e | a] w1]; cbn [snd] in Hw.
  - exists cs. split; assumption.
  - destruct (Hk a w1) as (cs' & Hw' & Hcs'). exists (cs ++ cs').
    split; [| rewrite forallb_app, Hcs, Hcs'; reflexivity].
    rewrite Hw', Hw. cbn. rewrite app_assoc. reflexivity.
Qed.

End OnlyBuilds.

Lemma only_builds_perform (c : cross_section_helpers.mesh_call) :
  building c = true -> only_builds (cross_section_helpers.perform c).
Proof.
  intros Hc w. exists [c]. split; [| cbn; rewrite Hc; reflexivity].
  destruct c; try discriminate Hc; reflexivity.
Qed.

Lemma only_builds_map {A B : Type} (f : A -> cross_section_helpers.Eng B)
    (l : list A) :
  (forall a, only_builds (f a)) -> only_builds (cross_section_helpers.eng_map f l).
Proof.
  intros Hf. induction l as [| a l IH]; cbn [cross_section_helpers.eng_map].
  - apply only_builds_ret.
  - apply only_builds_bind; [apply Hf |]. intros b.
    apply only_builds_bind; [exact IH |]. intros bs. apply only_builds_ret.
Qed.

Lemma only_builds_fold {A S : Type} (f : S -> A -> cross_section_helpers.Eng S)
    (l : list A) :
  (forall s a, only_builds (f s a)) ->
  forall s, only_builds (cross_section_helpers.eng_fold f l s).
Proof.
  intros Hf. induction l as [| a l IH]; intros s; cbn [cross_section_helpers.eng_fold].
  - apply only_builds_ret.
  - apply only_builds_bind; [apply Hf | exact IH].
Qed.

Lemma only_builds_polygon (unit : float) (poly : cross_section_helpers.polygon) :
  only_builds (cross_section_helpers.polygon_dim_tags unit poly).
Proof.
  unfold cross_section_helpers.polygon_dim_tags, cross_section_helpers.add_polygon.
  apply only_builds_bind; [apply only_builds_ask; reflexivity |]. intros hull_id.
  apply only_builds_bind.
  - apply only_builds_map. intros hole.
    apply only_builds_bind; [apply only_builds_ask; reflexivity |].
    intros hole_id. apply only_builds_ret.
  - intros hole_dim_tags.
    destruct (negb (bool_decide (hole_dim_tags = []))).
    + apply only_builds_ask. reflexivity.
    + apply only_builds_ret.
Qed.

Lemma only_builds_outer_bcs (box : cross_section_helpers.dbox) (beps : float) :
  only_builds (cross_section_helpers.get_outer_bcs box beps).
Proof.
  unfold cross_section_helpers.get_outer_bcs. cbv zeta.
  repeat (apply only_builds_bind; [apply only_builds_ask; reflexivity | intros ?]).
  apply only_builds_ret.
Qed.

Lemma only_builds_physical_group (prefix : string -> string)
    (entry : string * list cross_section_helpers.dimtag) :
  only_builds (cross_section_helpers.physical_group prefix entry).
Proof.
  unfold cross_section_helpers.physical_group.
  destruct (negb (bool_decide (snd entry = []))).
  - apply only_builds_perform. reflexivity.
  - apply only_builds_ret.
Qed.

Lemma only_builds_model (E : cross_section_helpers.mesh_helpers)
    (json : cross_section_helpers.mesh_config) :
  only_builds (cross_section_helpers.build_model E json).
Proof.
  unfold cross_section_helpers.build_model.
  apply only_builds_bind; [apply only_builds_lift |]. intros lay.
  apply only_builds_bind; [apply only_builds_perform; reflexivity |]. intros _.
  apply only_builds_bind.
  { apply only_builds_fold. intros dim_tags entry.
    unfold cross_section_helpers.layer_dim_tags.
    apply only_builds_bind; [| intros ?; apply only_builds_ret].
    apply only_builds_map. intros poly. apply only_builds_polygon. }
  intros dim_tags. cbv zeta.
  apply only_builds_bind; [apply only_builds_ask; reflexivity |]. intros imp.
  apply only_builds_bind; [apply only_builds_lift |]. intros new_tags.
  apply only_builds_bind; [apply only_builds_perform; reflexivity |]. intros _.
  apply only_builds_bind; [apply only_builds_perform; reflexivity |]. intros _.
  apply only_builds_bind; [apply only_builds_lift |]. intros metal.
  apply only_builds_bind.
  { apply only_builds_fold. intros tags e.
    unfold cross_section_helpers.excitation_boundary. cbv zeta.
    apply only_builds_bind; [apply only_builds_ask; reflexivity |].
    intros ?. apply only_builds_ret. }
  intros new_tags'.
  apply only_builds_bind; [apply only_builds_outer_bcs |]. intros outer.
  apply only_builds_bind; [| intros ?; apply only_builds_ret].
  apply only_builds_map. intros entry. apply only_builds_physical_group.
Qed.

Section RaisesOnly.

Import cross_section_helpers.

Context {A B : Type} (P : exn -> Prop).

Lemma raises_only_total (m : Eng A) :
  (forall w, exists a, fst (m w) = inr a) -> raises_only P m.
Proof. intros Hm w e E. destruct (Hm w) as [a Ha]. congruence. Qed.

Lemma raises_only_lift (m : exn + A) :
  (forall e, m = inl e -> P e) -> raises_only P (eng_lift m).
Proof. intros Hm w e E. apply Hm. exact E. Qed.

Lemma raises_only_bind (m : Eng A) (k : A -> Eng B) :
  raises_only P m -> (forall a, raises_only P (k a)) -> raises_only P (eng_bind m k).
Proof.
  intros Hm Hk w e. unfold eng_bind.
  pose proof (Hm w) as Hmw.
  destruct (m w) as [[e' | a] w1]; cbn [fst] in *.
  - intros E. injection E as <-. apply Hmw. reflexivity.
  - apply Hk.
Qed.

End RaisesOnly.

Lemma raises_only_map {A B : Type} (P : exn -> Prop)
    (f : A -> cross_section_helpers.Eng B) (l : list A) :
  (forall a, raises_only P (f a)) ->
  raises_only P (cross_section_helpers.eng_map f l).
Proof.
  intros Hf. induction l as [| a l IH]; cbn [cross_section_helpers.eng_map].
  - intros w e E. discriminate E.
  - apply raises_only_bind; [apply Hf |]. intros b.
    apply raises_only_bind; [exact IH |]. intros bs w e E. discriminate E.
Qed.

Lemma raises_only_fold {A S : Type} (P : exn -> Prop)
    (f : S -> A -> cross_section_helpers.Eng S) (l : list A) :
  (forall s a, raises_only P (f s a)) ->
  forall s, raises_only P (cross_section_helpers.eng_fold f l s).
Proof.
  intros Hf. induction l as [| a l IH]; intros s; cbn [cross_section_helpers.eng_fold].
  - intros w e E. discriminate E.
  - apply raises_only_bind; [apply Hf | exact IH].
Qed.

Lemma returns_ret {A : Type} (P : exn -> Prop) (a : A) :
  raises_only P (cross_section_helpers.eng_ret a).
Proof. intros w e E. discriminate E. Qed.

Lemma returns_ask {A : Type} (P : exn -> Prop) (c : cross_section_helpers.mesh_call)
    (reply : cross_section_helpers.oracle -> list cross_section_helpers.mesh_call -> A) :
  raises_only P (cross_section_helpers.ask c reply).
Proof. intros w e E. discriminate E. Qed.

Lemma returns_perform (P : exn -> Prop) (c : cross_section_helpers.mesh_call) :
  raises_only P (cross_section_helpers.perform c).
Proof. intros w e E. discriminate E. Qed.

Lemma polygon_never_raises (P : exn -> Prop) (unit : float)
    (poly : cross_section_helpers.polygon) :
  raises_only P (cross_section_helpers.polygon_dim_tags unit poly).
Proof.
  unfold cross_section_helpers.polygon_dim_tags, cross_section_helpers.add_polygon.
  apply raises_only_bind; [apply returns_ask |]. intros hull_id.
  apply raises_only_bind.
  - apply raises_only_map. intros hole.
    apply raises_only_bind; [apply returns_ask | intros ?; apply returns_ret].
  - intros hole_dim_tags.
    destruct (negb (bool_decide (hole_dim_tags = [])));
      [apply returns_ask | apply returns_ret].
Qed.

Lemma emap_only_raises {A B : Type} (f : A -> exn + B) (l : list A) (e0 : exn) :
  (forall a e, f a = inl e -> e = e0) -> forall e, emap f l = inl e -> e = e0.
Proof.
  intros Hf e E. destruct (emap_inl _ _ _ E) as (a & _ & Ha). exact (Hf a e Ha).
Qed.

Lemma remap_tags_raises (m : gmap cross_section_helpers.dimtag
                               (list cross_section_helpers.dimtag))
    (dim_tags : cross_section_helpers.tagdict) (e : exn) :
  cross_section_helpers.remap_tags m dim_tags = inl e -> e = OtherError "KeyError".
Proof.
  unfold cross_section_helpers.remap_tags. apply emap_only_raises.
  intros entry e'.
  destruct (emap (cross_section_helpers.mapped m) (snd entry)) as [e1 | news] eqn:E;
    cbn [ebind]; [| discriminate].
  intros H. injection H as <-. revert e1 E. apply emap_only_raises.
  intros tag e1. unfold cross_section_helpers.mapped.
  destruct (m !! tag); [discriminate |]. intros H. injection H as <-. reflexivity.
Qed.

(** The exceptions of the model-building part: the one of reading the
    layout, and [KeyError]. *)
Lemma build_model_raises (E : cross_section_helpers.mesh_helpers)
    (json : cross_section_helpers.mesh_config) :
  raises_only
    (fun e => cross_section_helpers.read_layout E (cross_section_helpers.gds_file json)
              = inl e
              \/ e = OtherError "KeyError")
    (cross_section_helpers.build_model E json).
Proof.
  unfold cross_section_helpers.build_model.
  apply raises_only_bind; [apply raises_only_lift; intros e ->; left; reflexivity |].
  intros lay.
  apply raises_only_bind; [apply returns_perform |]. intros _.
  apply raises_only_bind.
  { apply raises_only_fold. intros dim_tags entry.
    unfold cross_section_helpers.layer_dim_tags.
    apply raises_only_bind; [| intros ?; apply returns_ret].
    apply raises_only_map. intros poly. apply polygon_never_raises. }
  intros dim_tags. cbv zeta.
  apply raises_only_bind; [apply returns_ask |]. intros imp.
  apply raises_only_bind.
  { apply raises_only_lift. intros e H. right. exact (remap_tags_raises _ _ _ H). }
  intros new_tags.
  apply raises_only_bind; [apply returns_perform |]. intros _.
  apply raises_only_bind; [apply returns_perform |]. intros _.
  apply raises_only_bind.
  { apply raises_only_lift. intros e H. right. revert e H. apply emap_only_raises.
    intros entry e. unfold cross_section_helpers.excitation_of.
    destruct (cross_section_helpers.excitation (snd entry)); [discriminate |].
    intros H. injection H as <-. reflexivity. }
  intros metal.
  apply raises_only_bind.
  { apply raises_only_fold. intros tags e0.
    unfold cross_section_helpers.excitation_boundary. cbv zeta.
    apply raises_only_bind; [apply returns_ask | intros ?; apply returns_ret]. }
  intros new_tags'.
  apply raises_only_bind.
  { unfold cross_section_helpers.get_outer_bcs. cbv zeta.
    repeat (apply raises_only_bind; [apply returns_ask | intros ?]).
    apply returns_ret. }
  intros outer.
  apply raises_only_bind; [| intros ?; apply returns_ret].
  apply raises_only_map. intros entry.
  unfold cross_section_helpers.physical_group.
  destruct (negb (bool_decide (snd entry = [])));
    [apply returns_perform | apply returns_ret].
Qed.

Lemma generate_and_save_run (json : cross_section_helpers.mesh_config)
    (msh_file : string) (w : cross_section_helpers.World) :
  cross_section_helpers.generate_and_save json msh_file w
  = (inr tt,
     {| cross_section_helpers.calls :=
          cross_section_helpers.calls w ++ closing_calls json msh_file;
        cross_section_helpers.existing :=
          {[ msh_file ]} ∪ cross_section_helpers.existing w;
        cross_section_helpers.engine := cross_section_helpers.engine w |}).
Proof.
  unfold cross_section_helpers.generate_and_save, closing_calls, gui_requested.
  destruct (cross_section_helpers.truthy _);
    unfold cross_section_helpers.eng_bind, cross_section_helpers.perform,
      cross_section_helpers.eng_ret, cross_section_helpers.record;
    cbn [cross_section_helpers.calls cross_section_helpers.existing
           cross_section_helpers.engine fst snd];
    rewrite <- !app_assoc; reflexivity.
Qed.

Lemma produce_mesh_run (E : cross_section_helpers.mesh_helpers)
    (json : cross_section_helpers.mesh_config) (msh_file : string)
    (w : cross_section_helpers.World) :
  msh_file ∉ cross_section_helpers.existing w ->
  cross_section_helpers.produce_cross_section_mesh E json msh_file w
  = match cross_section_helpers.build_model E json
            (cross_section_helpers.record cross_section_helpers.GmshInitialize w) with
    | (inl e, w') => (inl e, w')
    | (inr _, w') => cross_section_helpers.generate_and_save json msh_file w'
    end.
Proof.
  intros Hnew. unfold cross_section_helpers.produce_cross_section_mesh.
  rewrite (bool_decide_eq_false_2 _ Hnew). reflexivity.
Qed.

Lemma completed_mesh_run_steps
    (E : cross_section_helpers.mesh_helpers)
    (json : cross_section_helpers.mesh_config) (msh_file : string)
    (w : cross_section_helpers.World) :
  msh_file ∉ cross_section_helpers.existing w ->
  fst (cross_section_helpers.produce_cross_section_mesh E json msh_file w) = inr tt ->
  exists body,
    snd (cross_section_helpers.produce_cross_section_mesh E json msh_file w)
    = {| cross_section_helpers.calls :=
           cross_section_helpers.calls w
             ++ cross_section_helpers.GmshInitialize :: body
             ++ closing_calls json msh_file;
         cross_section_helpers.existing :=
           {[ msh_file ]} ∪ cross_section_helpers.existing w;
         cross_section_helpers.engine := cross_section_helpers.engine w |}
    /\ forallb building body = true.
Proof.
  intros Hnew. rewrite (produce_mesh_run _ _ _ _ Hnew).
  destruct (only_builds_model E json
              (cross_section_helpers.record cross_section_helpers.GmshInitialize w))
    as (body & Hw & Hbody).
  destruct (cross_section_helpers.build_model E json _) as [[e | []] w'];
    cbn [snd] in Hw; [discriminate |].
  intros _. exists body. split; [| exact Hbody].
  rewrite generate_and_save_run, Hw. cbn.
  rewrite <- !app_assoc. reflexivity.
Qed.

(** X25. A run of [produce_cross_section_mesh] on a path that does not
    exist, when it completes, has made these calls, in this order:
    [gmsh.initialize()]; calls that build the model (polygons, cuts, the
    fragmentation, meshing settings, boundary queries, physical groups);
    then [generate(2)], [optimize_mesh], [write(msh_file)], the viewer if
    and only if [run_gmsh_gui] is set, and [gmsh.finalize()] last. The mesh
    file then exists. *)
Theorem completed_mesh_run_sequence
    (E : cross_section_helpers.mesh_helpers)
    (json : cross_section_helpers.mesh_config) (msh_file : string)
    (w : cross_section_helpers.World) :
  msh_file ∉ cross_section_helpers.existing w ->
  fst (cross_section_helpers.produce_cross_section_mesh E json msh_file w) = inr tt ->
  exists body,
    forallb building body = true
    /\ snd (cross_section_helpers.produce_cross_section_mesh E json msh_file w)
       = {| cross_section_helpers.calls :=
              cross_section_helpers.calls w
                ++ cross_section_helpers.GmshInitialize :: body
                ++ closing_calls json msh_file;
            cross_section_helpers.existing :=
              {[ msh_file ]} ∪ cross_section_helpers.existing w;
            cross_section_helpers.engine := cross_section_helpers.engine w |}.
Proof.
  intros Hnew Hdone.
  destruct (completed_mesh_run_steps E json msh_file w Hnew Hdone) as (body & Hw & Hb).
  exists body. split; assumption.
Qed.

(** X26. When [produce_cross_section_mesh] raises, the exception is the one
    raised by reading the layout or it is [KeyError]; the engine has been
    initialized and has received model-building calls only: no mesh is
    generated, no file is written, and [gmsh.finalize()] is not called. *)
Theorem failed_mesh_run_leaves_engine_open
    (E : cross_section_helpers.mesh_helpers)
    (json : cross_section_helpers.mesh_config) (msh_file : string)
    (w : cross_section_helpers.World) (e : exn) :
  fst (cross_section_helpers.produce_cross_section_mesh E json msh_file w) = inl e ->
  (cross_section_helpers.read_layout E (cross_section_helpers.gds_file json) = inl e
   \/ e = OtherError "KeyError")
  /\ exists body,
       forallb building body = true
       /\ snd (cross_section_helpers.produce_cross_section_mesh E json msh_file w)
          = {| cross_section_helpers.calls :=
                 cross_section_helpers.calls w
                   ++ cross_section_helpers.GmshInitialize :: body;
               cross_section_helpers.existing := cross_section_helpers.existing w;
               cross_section_helpers.engine := cross_section_helpers.engine w |}.
Proof.
  destruct (decide (msh_file ∈ cross_section_helpers.existing w)) as [Hold | Hnew].
  - unfold cross_section_helpers.produce_cross_section_mesh.
    rewrite (bool_decide_eq_true_2 _ Hold). discriminate.
  - rewrite (produce_mesh_run _ _ _ _ Hnew).
    pose proof (build_model_raises E json
                  (cross_section_helpers.record cross_section_helpers.GmshInitialize w))
      as Hraise.
    destruct (only_builds_model E json
                (cross_section_helpers.record cross_section_helpers.GmshInitialize w))
      as (body & Hw & Hbody).
    destruct (cross_section_helpers.build_model E json _) as [[e' | []] w'];
      cbn [fst snd] in *.
    + intros H. injection H as <-. split; [apply Hraise; reflexivity |].
      exists body. split; [exact Hbody |]. rewrite Hw. cbn.
      rewrite <- app_assoc. reflexivity.
    + rewrite generate_and_save_run. discriminate.
Qed.

(** X27. [produce_cross_section_mesh] is idempotent: after a run that
    completed, the mesh file exists, and running again with the same
    arguments makes no call and changes nothing. A run on a path that
    already exists does the same. *)
Theorem mesh_is_produced_once
    (E : cross_section_helpers.mesh_helpers)
    (json : cross_section_helpers.mesh_config) (msh_file : string)
    (w : cross_section_helpers.World) :
  fst (cross_section_helpers.produce_cross_section_mesh E json msh_file w) = inr tt ->
  msh_file
    ∈ cross_section_helpers.existing
        (snd (cross_section_helpers.produce_cross_section_mesh E json msh_file w))
  /\ cross_section_helpers.produce_cross_section_mesh E json msh_file
       (snd (cross_section_helpers.produce_cross_section_mesh E json msh_file w))
     = (inr tt, snd (cross_section_helpers.produce_cross_section_mesh E json msh_file w)).
Proof.
  intros Hdone.
  assert (Hexists : msh_file
            ∈ cross_section_helpers.existing
                (snd (cross_section_helpers.produce_cross_section_mesh
                        E json msh_file w))).
  { destruct (decide (msh_file ∈ cross_section_helpers.existing w)) as [Hold | Hnew].
    - unfold cross_section_helpers.produce_cross_section_mesh.
      rewrite (bool_decide_eq_true_2 _ Hold). exact Hold.
    - destruct (completed_mesh_run_steps E json msh_file w Hnew Hdone)
        as (body & Hw & _).
      rewrite Hw. cbn. set_solver. }
  split; [exact Hexists |].
  unfold cross_section_helpers.produce_cross_section_mesh at 1.
  rewrite (bool_decide_eq_true_2 _ Hexists). reflexivity.
Qed.

Lemma completed_mesh_run_sequence_witness :
  exists body,
    forallb building body = true
    /\ snd (cross_section_helpers.produce_cross_section_mesh sample_mesh_helpers
              sample_mesh_config "m.msh" sample_world)
       = {| cross_section_helpers.calls :=
              cross_section_helpers.calls sample_world
                ++ cross_section_helpers.GmshInitialize :: body
                ++ closing_calls sample_mesh_config "m.msh";
            cross_section_helpers.existing :=
              {[ "m.msh" ]} ∪ cross_section_helpers.existing sample_world;
            cross_section_helpers.engine := cross_section_helpers.engine sample_world |}.
Proof.
  apply (completed_mesh_run_sequence sample_mesh_helpers sample_mesh_config "m.msh"
           sample_world).
  - apply not_elem_of_empty.
  - vm_compute. reflexivity.
Defined.

Lemma failed_mesh_run_leaves_engine_open_witness :
  (cross_section_helpers.read_layout unreadable_mesh_helpers
     (cross_section_helpers.gds_file sample_mesh_config) = inl FileNotFoundError
   \/ FileNotFoundError = OtherError "KeyError")
  /\ exists body,
       forallb building body = true
       /\ snd (cross_section_helpers.produce_cross_section_mesh unreadable_mesh_helpers
                 sample_mesh_config "m.msh" sample_world)
          = {| cross_section_helpers.calls :=
                 cross_section_helpers.calls sample_world
                   ++ cross_section_helpers.GmshInitialize :: body;
               cross_section_helpers.existing :=
                 cross_section_helpers.existing sample_world;
               cross_section_helpers.engine :=
                 cross_section_helpers.engine sample_world |}.
Proof.
  apply (failed_mesh_run_leaves_engine_open unreadable_mesh_helpers sample_mesh_config
           "m.msh" sample_world FileNotFoundError).
  vm_compute. reflexivity.
Defined.

Lemma mesh_is_produced_once_witness :
  "m.msh"
    ∈ cross_section_helpers.existing
        (snd (cross_section_helpers.produce_cross_section_mesh sample_mesh_helpers
                sample_mesh_config "m.msh" sample_world))
  /\ cross_section_helpers.produce_cross_section_mesh sample_mesh_helpers
       sample_mesh_config "m.msh"
       (snd (cross_section_helpers.produce_cross_section_mesh sample_mesh_helpers
               sample_mesh_config "m.msh" sample_world))
     = (inr tt,
        snd (cross_section_helpers.produce_cross_section_mesh sample_mesh_helpers
               sample_mesh_config "m.msh" sample_world)).
Proof.
  apply (mesh_is_produced_once sample_mesh_helpers sample_mesh_config "m.msh"
           sample_world).
  vm_compute. reflexivity.
Defined.

(** *** Physical groups *)

Lemma fold_max_bounds (ds : list Z) :
  forall d,
    (d <= fold_left Z.max ds d)%Z
    /\ Forall (fun x => (x <= fold_left Z.max ds d)%Z) ds
    /\ In (fold_left Z.max ds d) (d :: ds).
Proof.
  induction ds as [| x ds IH]; intros d; cbn [fold_left].
  - split; [lia |]. split; [constructor | left; reflexivity].
  - destruct (IH (Z.max d x)) as (Hge & Hall & Hin).
    split; [lia |]. split.
    + constructor; [lia | exact Hall].
    + destruct Hin as [Hin | Hin].
      * rewrite <- Hin. destruct (Z.max_spec d x) as [[_ ->] | [_ ->]];
          [right; left | left]; reflexivity.
      * right. right. exact Hin.
Qed.

Lemma max_dim_is_largest (dts : list cross_section_helpers.dimtag) :
  dts <> [] ->
  In (cross_section_helpers.max_dim dts) (map fst dts)
  /\ Forall (fun dt => (fst dt <= cross_section_helpers.max_dim dts)%Z) dts.
Proof.
  destruct dts as [| [d t] dts]; [congruence |]. intros _.
  unfold cross_section_helpers.max_dim. cbn [map fst].
  destruct (fold_max_bounds (map fst dts) d) as (Hge & Hall & Hin).
  split; [exact Hin |].
  constructor; [exact Hge |].
  apply List.Forall_forall. intros dt Hdt.
  apply (proj1 (List.Forall_forall _ _) Hall). apply in_map. exact Hdt.
Qed.

Lemma physical_groups_run (prefix : string -> string)
    (new_tags : cross_section_helpers.tagdict) :
  forall w,
    snd (cross_section_helpers.eng_map (cross_section_helpers.physical_group prefix)
           new_tags w)
    = {| cross_section_helpers.calls :=
           cross_section_helpers.calls w
             ++ map (group_call prefix)
                  (List.filter (fun entry => negb (bool_decide (snd entry = [])))
                     new_tags);
         cross_section_helpers.existing := cross_section_helpers.existing w;
         cross_section_helpers.engine := cross_section_helpers.engine w |}.
Proof.
  induction new_tags as [| entry rest IH]; intros w.
  - destruct w. cbn. rewrite app_nil_r. reflexivity.
  - cbn [cross_section_helpers.eng_map List.filter].
    unfold cross_section_helpers.eng_bind at 1.
    unfold cross_section_helpers.physical_group at 1.
    destruct (negb (bool_decide (snd entry = []))).
    + unfold cross_section_helpers.perform.
      unfold cross_section_helpers.eng_bind.
      pose proof (IH (cross_section_helpers.record
                        (cross_section_helpers.AddPhysicalGroup
                           (cross_section_helpers.max_dim (snd entry))
                           (map snd (snd entry)) (prefix (fst entry))) w)) as IH'.
      destruct (cross_section_helpers.eng_map _ rest _) as [[e | bs] w'];
        cbn [snd] in *; rewrite IH'; cbn; rewrite <- app_assoc; reflexivity.
    + unfold cross_section_helpers.eng_ret, cross_section_helpers.eng_bind.
      pose proof (IH w) as IH'.
      destruct (cross_section_helpers.eng_map _ rest w) as [[e | bs] w'];
        cbn [snd] in *; exact IH'.
Qed.

(** X28. The loop over [new_tags] creates one physical group for each
    entry whose entity list is not empty, in dictionary order, and none for
    an empty one. A group gets the tags of all the entities of its entry,
    the prefixed name, and as dimension the largest dimension among them,
    which is the dimension of one of them. *)
Theorem physical_groups_for_non_empty_entries
    (prefix : string -> string) (new_tags : cross_section_helpers.tagdict)
    (w : cross_section_helpers.World) :
  cross_section_helpers.calls
    (snd (cross_section_helpers.eng_map (cross_section_helpers.physical_group prefix)
            new_tags w))
  = cross_section_helpers.calls w
      ++ map (group_call prefix)
           (List.filter (fun entry => negb (bool_decide (snd entry = []))) new_tags)
  /\ Forall
       (fun entry =>
          snd entry <> [] ->
          exists dim tags,
            group_call prefix entry
            = cross_section_helpers.AddPhysicalGroup dim tags (prefix (fst entry))
            /\ length tags = length (snd entry)
            /\ In dim (map fst (snd entry))
            /\ Forall (fun dt => (fst dt <= dim)%Z) (snd entry))
       new_tags.
Proof.
  split.
  - rewrite physical_groups_run. reflexivity.
  - apply List.Forall_forall. intros entry _ Hne.
    destruct (max_dim_is_largest _ Hne) as [Hin Hall].
    exists (cross_section_helpers.max_dim (snd entry)), (map snd (snd entry)).
    split; [reflexivity |]. split; [apply length_map |]. split; assumption.
Qed.

(** *** The tags after fragmentation *)

Lemma fragment_map_has_key (all_tags : list cross_section_helpers.dimtag)
    (imp : list (list cross_section_helpers.dimtag))
    (tag : cross_section_helpers.dimtag) :
  length all_tags <= length imp ->
  In tag all_tags ->
  exists new,
    cross_section_helpers.mapped (cross_section_helpers.dim_tags_map_of all_tags imp) tag
    = inr new.
Proof.
  intros Hlen Hin. unfold cross_section_helpers.mapped, cross_section_helpers.dim_tags_map_of.
  destruct (list_to_map (reverse (zip all_tags imp)) !! tag) as [new |] eqn:E.
  - exists new. reflexivity.
  - exfalso. apply not_elem_of_list_to_map_2 in E. apply E.
    rewrite fmap_reverse, elem_of_reverse, (fst_zip _ _ Hlen).
    apply list_elem_of_In. exact Hin.
Qed.

Lemma fragment_map_by_position (all_tags : list cross_section_helpers.dimtag)
    (imp : list (list cross_section_helpers.dimtag)) (i : nat)
    (tag : cross_section_helpers.dimtag) (new : list cross_section_helpers.dimtag) :
  length all_tags <= length imp ->
  NoDup all_tags ->
  all_tags !! i = Some tag ->
  imp !! i = Some new ->
  cross_section_helpers.mapped (cross_section_helpers.dim_tags_map_of all_tags imp) tag
  = inr new.
Proof.
  intros Hlen Hdup Htag Hnew.
  unfold cross_section_helpers.mapped, cross_section_helpers.dim_tags_map_of.
  rewrite (elem_of_list_to_map_1 _ tag new); [reflexivity | |].
  - rewrite fmap_reverse, (fst_zip _ _ Hlen), reverse_Permutation. exact Hdup.
  - rewrite elem_of_reverse. apply list_elem_of_lookup. exists i.
    apply lookup_zip_with_Some. exists tag, new. auto.
Qed.

Lemma emap_of_Forall2 {A B : Type} (f : A -> exn + B) (l : list A) (r : list B) :
  Forall2 (fun a b => f a = inr b) l r -> emap f l = inr r.
Proof.
  induction 1 as [| a b l r Hab _ IH]; [reflexivity |].
  cbn [emap]. rewrite Hab. cbn [ebind]. rewrite IH. reflexivity.
Qed.

(** The entities of one layer stand in a row in [all_dim_tags]; their new
    tags are the entries of the reply at the same places. *)
Lemma layer_tags_after_fragmentation
    (pre tags post : list cross_section_helpers.dimtag)
    (imp : list (list cross_section_helpers.dimtag)) :
  length (pre ++ tags ++ post) <= length imp ->
  NoDup (pre ++ tags ++ post) ->
  emap (cross_section_helpers.mapped
          (cross_section_helpers.dim_tags_map_of (pre ++ tags ++ post) imp)) tags
  = inr (take (length tags) (drop (length pre) imp)).
Proof.
  intros Hlen Hdup. apply emap_of_Forall2.
  rewrite !length_app in Hlen.
  apply Forall2_same_length_lookup_2.
  - rewrite length_take, length_drop. lia.
  - intros k tag new Htag Hnew.
    apply lookup_take_Some in Hnew as [Hnew _]. rewrite lookup_drop in Hnew.
    apply (fragment_map_by_position _ _ (length pre + k) tag new);
      [rewrite !length_app; lia | exact Hdup | | exact Hnew].
    rewrite lookup_app_r by lia.
    replace (length pre + k - length pre) with k by lia.
    apply lookup_app_l_Some. exact Htag.
Qed.

Lemma remap_tags_regroup (dim_tags : cross_section_helpers.tagdict)
    (imp : list (list cross_section_helpers.dimtag)) :
  forall (pre : list cross_section_helpers.dimtag),
  length (pre ++ flat_map snd dim_tags) <= length imp ->
  NoDup (pre ++ flat_map snd dim_tags) ->
  cross_section_helpers.remap_tags
    (cross_section_helpers.dim_tags_map_of (pre ++ flat_map snd dim_tags) imp) dim_tags
  = inr (regroup dim_tags (drop (length pre) imp)).
Proof.
  unfold cross_section_helpers.remap_tags.
  induction dim_tags as [| [name tags] rest IH]; intros pre Hlen Hdup; [reflexivity |].
  cbn [flat_map snd fst emap regroup] in *.
  rewrite (layer_tags_after_fragmentation pre tags (flat_map snd rest) imp Hlen Hdup).
  cbn [ebind].
  rewrite (app_assoc pre tags) in Hlen, Hdup |- *.
  rewrite (IH (pre ++ tags) Hlen Hdup). cbn [ebind].
  rewrite length_app, drop_drop. reflexivity.
Qed.

(** X29. When the fragmentation returns at least one entry per entity it
    was given, the new tags are computed without [KeyError], for the same
    layer names in the same order. When moreover no entity occurs twice
    among the layers, each old tag is replaced by the entry the
    fragmentation returned at its position, so that the new tags of a layer
    are the entries returned for its entities, joined in order: [new_tags]
    is the reply regrouped by layer. *)
Theorem tags_after_fragmentation
    (dim_tags : cross_section_helpers.tagdict)
    (imp : list (list cross_section_helpers.dimtag)) :
  length (flat_map snd dim_tags) <= length imp ->
  (exists new_tags,
     cross_section_helpers.remap_tags
       (cross_section_helpers.dim_tags_map_of (flat_map snd dim_tags) imp) dim_tags
     = inr new_tags
     /\ map fst new_tags = map fst dim_tags)
  /\ (NoDup (flat_map snd dim_tags) ->
      cross_section_helpers.remap_tags
        (cross_section_helpers.dim_tags_map_of (flat_map snd dim_tags) imp) dim_tags
      = inr (regroup dim_tags imp)
      /\ forall i tag new,
           flat_map snd dim_tags !! i = Some tag ->
           imp !! i = Some new ->
           cross_section_helpers.mapped
             (cross_section_helpers.dim_tags_map_of (flat_map snd dim_tags) imp) tag
           = inr new).
Proof.
  intros Hlen. split.
  - set (m := cross_section_helpers.dim_tags_map_of (flat_map snd dim_tags) imp).
    assert (Hkeys : forall tag, In tag (flat_map snd dim_tags) ->
                      exists new, cross_section_helpers.mapped m tag = inr new)
      by (intros tag Hin; apply fragment_map_has_key; assumption).
    clearbody m. clear Hlen.
    unfold cross_section_helpers.remap_tags.
    induction dim_tags as [| [name tags] rest IH].
    + exists []. split; reflexivity.
    + cbn [flat_map snd] in Hkeys.
      destruct (emap_total (cross_section_helpers.mapped m) tags) as [news Hnews].
      { apply List.Forall_forall. intros tag Hin. apply Hkeys, in_or_app. left. exact Hin. }
      destruct IH as (new_rest & Hrest & Hnames).
      { intros tag Hin. apply Hkeys, in_or_app. right. exact Hin. }
      exists ((name, concat news) :: new_rest).
      cbn [emap fst snd]. rewrite Hnews. cbn [ebind]. rewrite Hrest. cbn [ebind].
      split; [reflexivity |]. cbn [map fst]. rewrite Hnames. reflexivity.
  - intros Hdup. split.
    + exact (remap_tags_regroup dim_tags imp [] Hlen Hdup).
    + intros i tag new Htag Hnew.
      exact (fragment_map_by_position _ _ i tag new Hlen Hdup Htag Hnew).
Qed.

Lemma tags_after_fragmentation_witness :
  cross_section_helpers.remap_tags
    (cross_section_helpers.dim_tags_map_of
       (flat_map snd [("signal", [(2, 7)]); ("ground", [(2, 8); (2, 9)])]%Z)
       [[(2, 1)]; [(2, 2); (2, 3)]; []]%Z)
    [("signal", [(2, 7)]); ("ground", [(2, 8); (2, 9)])]%Z
  = inr (regroup [("signal", [(2, 7)]); ("ground", [(2, 8); (2, 9)])]%Z
           [[(2, 1)]; [(2, 2); (2, 3)]; []]%Z).
Proof.
  apply (tags_after_fragmentation
           [("signal", [(2, 7)]); ("ground", [(2, 8); (2, 9)])]%Z
           [[(2, 1)]; [(2, 2); (2, 3)]; []]%Z).
  - simpl. lia.
  - apply (bool_decide_unpack _). vm_compute. exact I.
Defined.

(** A tag list shorter than the entity list leaves a tag without image. *)
Example fragmentation_too_short_raises_key_error :
  cross_section_helpers.remap_tags
    (cross_section_helpers.dim_tags_map_of [(2, 7); (2, 8)]%Z [[(2, 1)]]%Z)
    [("signal", [(2, 7); (2, 8)])]%Z
  = inl (OtherError "KeyError").
Proof. vm_compute. reflexivity. Qed.

(** *** Excitation boundaries *)

Lemma dict_get_set_eq {V : Type} (k : string) (v : V) (d : list (string * V)) :
  cross_section_helpers.dict_get k (cross_section_helpers.dict_set k v d) = Some v.
Proof.
  induction d as [| [k' v'] d IH]; cbn.
  - rewrite String.eqb_refl. reflexivity.
  - destruct (String.eqb k' k) eqn:E; cbn; rewrite E; [reflexivity | exact IH].
Qed.

Lemma dict_get_set_ne {V : Type} (k k' : string) (v : V) (d : list (string * V)) :
  k <> k' ->
  cross_section_helpers.dict_get k' (cross_section_helpers.dict_set k v d)
  = cross_section_helpers.dict_get k' d.
Proof.
  intros Hne.
  assert (Hkk : String.eqb k k' = false) by (apply String.eqb_neq; exact Hne).
  induction d as [| [k0 v0] d IH]; cbn.
  - rewrite Hkk. reflexivity.
  - destruct (String.eqb k0 k) eqn:E; cbn.
    + apply String.eqb_eq in E. subst k0. rewrite Hkk. reflexivity.
    + rewrite IH. reflexivity.
Qed.

Lemma excitation_key_inj (e1 e2 : Z) : excitation_key e1 = excitation_key e2 -> e1 = e2.
Proof.
  unfold excitation_key. intros E.
  apply String.app_inj in E. apply append_cancel_r in E.
  unfold str_int in E. exact (pretty_Z_inj _ _ E).
Qed.

Lemma excitation_boundary_run (metal : list (string * Z))
    (new_tags : cross_section_helpers.tagdict) (e : Z) (w : cross_section_helpers.World) :
  exists children,
    fst (cross_section_helpers.excitation_boundary metal new_tags e w)
    = inr (cross_section_helpers.dict_set (excitation_key e)
             (List.filter (fun dt => (fst dt =? 1)%Z) children) new_tags).
Proof. eexists. reflexivity. Qed.

Lemma excitation_loop_invariant (metal : list (string * Z)) (excitations : list Z) :
  forall (new_tags : cross_section_helpers.tagdict) (w : cross_section_helpers.World),
  exists tags,
    fst (cross_section_helpers.eng_fold (cross_section_helpers.excitation_boundary metal)
           excitations new_tags w)
    = inr tags
    /\ (forall e, In e excitations ->
          exists dts,
            cross_section_helpers.dict_get (excitation_key e) tags = Some dts
            /\ Forall (fun dt => fst dt = 1%Z) dts)
    /\ (forall k, (forall e, In e excitations -> k <> excitation_key e) ->
          cross_section_helpers.dict_get k tags
          = cross_section_helpers.dict_get k new_tags).
Proof.
  induction excitations as [| e0 rest IH]; intros new_tags w.
  - exists new_tags. split; [reflexivity |]. split; [intros e [] | reflexivity].
  - cbn [cross_section_helpers.eng_fold]. unfold cross_section_helpers.eng_bind.
    destruct (excitation_boundary_run metal new_tags e0 w) as [children Hstep].
    destruct (cross_section_helpers.excitation_boundary metal new_tags e0 w)
      as [r w1]. cbn [fst] in Hstep. subst r.
    destruct (IH (cross_section_helpers.dict_set (excitation_key e0)
                    (List.filter (fun dt => (fst dt =? 1)%Z) children) new_tags) w1)
      as (tags & Hrun & Hkeys & Hother).
    exists tags. split; [exact Hrun |]. split.
    + intros e [<- | Hin]; [| apply Hkeys, Hin].
      destruct (in_dec Z.eq_dec e0 rest) as [Hin | Hout]; [apply Hkeys, Hin |].
      rewrite Hother, dict_get_set_eq.
      * eexists. split; [reflexivity |].
        apply List.Forall_forall. intros dt Hdt.
        apply filter_In in Hdt as [_ Hdim]. apply Z.eqb_eq. exact Hdim.
      * intros e He Hkey. apply excitation_key_inj in Hkey. congruence.
    + intros k Hk. rewrite Hother.
      * apply dict_get_set_ne. intros Hkey. apply (Hk e0); [left; reflexivity |].
        symmetry. exact Hkey.
      * intros e He. apply Hk. right. exact He.
Qed.

(** X30. The loop over the excitations never raises and leaves, for every
    excitation it visits, an entry [excitation_<e>_boundary] that holds
    entities of dimension 1 only; the entries under all other names are the
    ones there were before the loop. *)
Theorem excitation_boundaries_are_curves
    (metal : list (string * Z)) (excitations : list Z)
    (new_tags : cross_section_helpers.tagdict) (w : cross_section_helpers.World) :
  exists tags,
    fst (cross_section_helpers.eng_fold (cross_section_helpers.excitation_boundary metal)
           excitations new_tags w)
    = inr tags
    /\ Forall
         (fun e =>
            exists dts,
              cross_section_helpers.dict_get
                ("excitation_" +:+ str_int e +:+ "_boundary") tags = Some dts
              /\ Forall (fun dt => fst dt = 1%Z) dts)
         excitations
    /\ (forall name,
          Forall (fun e => name <> "excitation_" +:+ str_int e +:+ "_boundary")
            excitations ->
          cross_section_helpers.dict_get name tags
          = cross_section_helpers.dict_get name new_tags).
Proof.
  destruct (excitation_loop_invariant metal excitations new_tags w)
    as (tags & Hrun & Hkeys & Hother).
  exists tags. split; [exact Hrun |]. split.
  - apply List.Forall_forall. exact Hkeys.
  - intros name Hname. apply Hother.
    exact (proj1 (List.Forall_forall _ _) Hname).
Qed.
